(** * Retail POS / ERP front end: cart, checkout, ledger and import staging

    A shallow embedding of the business logic of the React components
    [POS] (src/pages/POS.tsx), [App] (handleTransactionComplete,
    handleImportTransactions) and [DataManagement] (smartValidate,
    handleFileUpload, handleCommit), followed by the properties of the
    design specification that are settled on it.

    Conventions of the embedding.
    - A React state variable is a value passed to, and returned from, the
      handler; a handler runs to completion before the next event, so the
      [cart] a handler closes over is the [prev] its updater receives.
    - JavaScript numbers that hold money are values of [JS.number]: exact
      rationals (no rounding, no overflow) together with [NaN] and the two
      infinities that [parseFloat] can return. Stock levels and cart
      quantities are held as integers ([Z]): the whole-number case, which
      is what the mock catalog, the cart buttons and the stock dialog
      produce. This is the idealised model; what is proved on it is
      proved for amounts that are added and multiplied without rounding
      and for whole stocks.
    - The interface types all of these as [number], an IEEE 754 double,
      and the add-product form stores [parseFloat] of what was typed. The
      module [Double] carries the cart engine and the ledger over the
      doubles themselves, for the two places where the idealised model
      and the program part: a fractional stock, and sums of amounts that
      round.
    - Strings are ASCII strings; [toLowerCase], [toUpperCase] and [trim]
      act on the ASCII letters and the ASCII white space.
    - Browser services that the code calls but does not define
      ([Date.parse], [crypto.randomUUID], [new Date().toISOString()],
      number-to-string conversion) are fields of an environment record. *)

From Stdlib Require Import ZArith QArith Qcanon Lia List Bool Ascii String.
From Stdlib Require PrimFloat DecimalString DecimalN DecimalFacts.
From stdpp Require Import gmap strings.
Import ListNotations.

Local Open Scope Z_scope.

(* ================================================================== *)
(** * Part I: definitions *)
(* ================================================================== *)

(** ** JavaScript numbers *)

Module JS.

Inductive number : Type :=
| NaN
| Num (q : Qc)
| Inf (negative : bool).

Definition zero : number := Num 0%Qc.

Definition of_Z (z : Z) : number := Num (Q2Qc (inject_Z z)).

(** A decimal literal [n / d], such as [0.11 = 11 / 100]. *)
Definition lit (n : Z) (d : positive) : number := Num (Q2Qc (n # d)).

(** [a + b] *)
Definition add (a b : number) : number :=
  match a, b with
  | NaN, _ | _, NaN => NaN
  | Num x, Num y => Num (x + y)%Qc
  | Inf s, Num _ => Inf s
  | Num _, Inf s => Inf s
  | Inf s, Inf t => if Bool.eqb s t then Inf s else NaN
  end.

Definition neg (a : number) : number :=
  match a with
  | NaN => NaN
  | Num x => Num (- x)%Qc
  | Inf s => Inf (negb s)
  end.

(** [a - b] *)
Definition sub (a b : number) : number := add a (neg b).

(** [a * b] *)
Definition mul (a b : number) : number :=
  match a, b with
  | NaN, _ | _, NaN => NaN
  | Num x, Num y => Num (x * y)%Qc
  | Inf s, Num y | Num y, Inf s =>
      match (y ?= 0)%Qc with
      | Eq => NaN
      | Gt => Inf s
      | Lt => Inf (negb s)
      end
  | Inf s, Inf t => Inf (xorb s t)
  end.

(** [a < b]; every comparison with [NaN] is false. *)
Definition ltb (a b : number) : bool :=
  match a, b with
  | NaN, _ | _, NaN => false
  | Num x, Num y => match (x ?= y)%Qc with Lt => true | _ => false end
  | Num _, Inf s => negb s
  | Inf s, Num _ => s
  | Inf s, Inf t => s && negb t
  end.

(** [a <= b] *)
Definition leb (a b : number) : bool :=
  match a, b with
  | NaN, _ | _, NaN => false
  | Num x, Num y => match (x ?= y)%Qc with Gt => false | _ => true end
  | Num _, Inf s => negb s
  | Inf s, Num _ => s
  | Inf s, Inf t => s || negb t
  end.

(** The order that [<=] decides: the order of the rationals, with
    [-Infinity] below and [Infinity] above them, and [NaN] unrelated
    to everything. *)
Definition le (a b : number) : Prop :=
  match a, b with
  | NaN, _ | _, NaN => False
  | Num x, Num y => (x <= y)%Qc
  | Num _, Inf negative => negative = false
  | Inf negative, Num _ => negative = true
  | Inf s, Inf t => s = true \/ t = false
  end.

(** [a > b] and [a >= b] *)
Definition gtb (a b : number) : bool := ltb b a.
Definition geb (a b : number) : bool := leb b a.

Definition isNaN (a : number) : bool :=
  match a with NaN => true | _ => false end.

(** Truthiness of a number: [NaN] and [0] are falsy. *)
Definition truthy (a : number) : bool :=
  match a with
  | NaN => false
  | Num x => match (x ?= 0)%Qc with Eq => false | _ => true end
  | Inf _ => true
  end.

(** [a || b] on numbers *)
Definition or_else (a b : number) : number := if truthy a then a else b.

(** [Math.max(a, b)]: [NaN] as soon as one argument is. *)
Definition max (a b : number) : number :=
  match a, b with
  | NaN, _ | _, NaN => NaN
  | _, _ => if ltb a b then b else a
  end.

(** Numeric equality as a boolean, for evaluating examples. *)
Definition eqb (a b : number) : bool :=
  match a, b with
  | NaN, NaN => true
  | Num x, Num y => Qeq_bool x y
  | Inf s, Inf t => Bool.eqb s t
  | _, _ => false
  end.

(** [Σ l], the sum of a list of numbers, right to left. *)
Definition sum (l : list number) : number := fold_right add zero l.

End JS.

(** ** Strings *)

Module Str.

Local Open Scope string_scope.

Definition code (c : ascii) : nat := nat_of_ascii c.

Definition is_digit (c : ascii) : bool :=
  (48 <=? code c)%nat && (code c <=? 57)%nat.

Definition is_upper (c : ascii) : bool :=
  (65 <=? code c)%nat && (code c <=? 90)%nat.

Definition is_lower (c : ascii) : bool :=
  (97 <=? code c)%nat && (code c <=? 122)%nat.

(** ASCII white space: tab, line feed, vertical tab, form feed,
    carriage return, space. *)
Definition is_space (c : ascii) : bool :=
  ((9 <=? code c)%nat && (code c <=? 13)%nat) || (code c =? 32)%nat.

Definition lower_char (c : ascii) : ascii :=
  if is_upper c then ascii_of_nat (code c + 32) else c.

Definition upper_char (c : ascii) : ascii :=
  if is_lower c then ascii_of_nat (code c - 32) else c.

Fixpoint map_chars (f : ascii -> ascii) (s : string) : string :=
  match s with
  | EmptyString => EmptyString
  | String c s' => String (f c) (map_chars f s')
  end.

(** [s.toLowerCase()] and [s.toUpperCase()] *)
Definition toLowerCase (s : string) : string := map_chars lower_char s.
Definition toUpperCase (s : string) : string := map_chars upper_char s.

(** [s.includes(t)] *)
Fixpoint includes (s t : string) : bool :=
  String.prefix t s
  || match s with
     | EmptyString => false
     | String _ s' => includes s' t
     end.

(** [s.endsWith(t)] *)
Definition endsWith (s t : string) : bool :=
  String.prefix (String.rev t) (String.rev s).

Fixpoint trimStart (s : string) : string :=
  match s with
  | String c s' => if is_space c then trimStart s' else s
  | EmptyString => EmptyString
  end.

Definition trimEnd (s : string) : string :=
  String.rev (trimStart (String.rev s)).

(** [s.trim()] *)
Definition trim (s : string) : string := trimEnd (trimStart s).

(** [s.split(sep)] for a one-character separator: never empty. *)
Fixpoint split (sep : ascii) (s : string) : list string :=
  match s with
  | EmptyString => [EmptyString]
  | String c s' =>
      if Ascii.eqb c sep then EmptyString :: split sep s'
      else match split sep s' with
           | w :: ws => String c w :: ws
           | [] => [String c EmptyString]
           end
  end.

(** [l.join(sep)] *)
Fixpoint join (sep : string) (l : list string) : string :=
  match l with
  | [] => EmptyString
  | [w] => w
  | w :: ws => w ++ sep ++ join sep ws
  end.

(** [s.replace(/[^0-9.-]+/g, "")]: every character other than a digit,
    a dot or a minus sign is removed. *)
Fixpoint strip_non_numeric (s : string) : string :=
  match s with
  | EmptyString => EmptyString
  | String c s' =>
      if is_digit c || Ascii.eqb c "." || Ascii.eqb c "-"
      then String c (strip_non_numeric s')
      else strip_non_numeric s'
  end.

(** [s.charAt(0)] and [s.slice(1)] *)
Definition charAt0 (s : string) : string :=
  match s with
  | EmptyString => EmptyString
  | String c _ => String c EmptyString
  end.

Definition slice1 (s : string) : string :=
  match s with
  | EmptyString => EmptyString
  | String _ s' => s'
  end.

(** The longest prefix of decimal digits, and what follows it. *)
Fixpoint span_digits (s : string) : string * string :=
  match s with
  | String c s' =>
      if is_digit c
      then let '(ds, rest) := span_digits s' in (String c ds, rest)
      else (EmptyString, s)
  | EmptyString => (EmptyString, EmptyString)
  end.

(** The value of a string of decimal digits. *)
Fixpoint digits_value (acc : Z) (ds : string) : Z :=
  match ds with
  | EmptyString => acc
  | String c ds' => digits_value (10 * acc + Z.of_nat (code c - 48)) ds'
  end.

(** An optional sign: [true] for a minus sign. *)
Definition take_sign (s : string) : bool * string :=
  match s with
  | String "-" s' => (true, s')
  | String "+" s' => (false, s')
  | _ => (false, s)
  end.

(** The exponent part [e±ddd] when it is complete, else nothing is
    consumed and the exponent is 0. *)
Definition take_exponent (s : string) : Z :=
  match s with
  | String c s' =>
      if Ascii.eqb c "e" || Ascii.eqb c "E" then
        let '(negative, s'') := take_sign s' in
        let '(ds, _) := span_digits s'' in
        match ds with
        | EmptyString => 0
        | _ => if negative then - digits_value 0 ds else digits_value 0 ds
        end
      else 0
  | EmptyString => 0
  end.

(** [parseFloat(s)]: leading white space is skipped, then the longest
    prefix that is a decimal literal (optional sign, then [Infinity] or
    digits with an optional fraction and exponent) is read; [NaN] when
    there is none. The result is the decimal itself: it is not rounded
    to the nearest double and does not overflow to [Infinity]. It is
    the double that the program gets whenever a double holds the
    decimal exactly, as for every whole number below 2^53. *)
Definition parseFloat (s : string) : JS.number :=
  let '(negative, s1) := take_sign (trimStart s) in
  if String.prefix "Infinity" s1 then JS.Inf negative
  else
    let '(int_ds, s2) := span_digits s1 in
    let '(frac_ds, s3) :=
      match s2 with
      | String "." s2' => span_digits s2'
      | _ => (EmptyString, s2)
      end in
    match int_ds ++ frac_ds with
    | EmptyString => JS.NaN
    | ds =>
        let m := digits_value 0 ds in
        let e := take_exponent s3 - Z.of_nat (String.length frac_ds) in
        let q := (inject_Z (if negative then - m else m)
                  * Qpower (inject_Z 10) e)%Q in
        JS.Num (Q2Qc q)
    end.

(** Truthiness of a string: only the empty string is falsy. *)
Definition truthy (s : string) : bool :=
  match s with EmptyString => false | _ => true end.

End Str.

(** ** Decimal numerals *)

Module Numeral.

(** The decimal numeral of a whole number, as it is typed into a number
    field or written in a CSV cell: [of_N 300000] is the string
    [300000]. Below [exact_bound], which is 2^53, a double holds the
    number that the numeral denotes. *)
Definition of_N (n : N) : string :=
  DecimalString.NilEmpty.string_of_uint (N.to_uint n).

Definition exact_bound : N := 2 ^ 53.

End Numeral.

(** ** Data model

    The interfaces of [types.ts], which the sources hold as the second
    document of src/components/Layout.tsx (lines 97-157). Every numeric
    field is a [number] there; [stock], [reorderPoint] and [quantity]
    are integers here (see the conventions above, and [Double] for the
    same records over doubles). *)

(** [interface Product]: id, name, category, price, cost, stock,
    reorderPoint, sku, unit, as the [MOCK_PRODUCTS] literals of [App]
    populate it. *)
Module Product.
Record t : Type := mk {
  id : string;
  name : string;
  category : string;
  price : JS.number;
  cost : JS.number;
  stock : Z;
  reorderPoint : Z;
  sku : string;
  unit : string
}.

(** [{ ...product, stock: s }] *)
Definition with_stock (p : t) (s : Z) : t :=
  mk (id p) (name p) (category p) (price p) (cost p) s
     (reorderPoint p) (sku p) (unit p).
End Product.

(** [interface CartItem extends Product { quantity: number }]: a product
    together with a quantity. The code builds it as
    [{ ...product, quantity: 1 }]; the copied product fields are the
    [product] component. *)
Module CartItem.
Record t : Type := mk {
  product : Product.t;
  quantity : Z
}.

Definition id (i : t) : string := Product.id (product i).
Definition price (i : t) : JS.number := Product.price (product i).

(** [{ ...item, quantity: q }] *)
Definition with_quantity (i : t) (q : Z) : t := mk (product i) q.
End CartItem.

(** [type PaymentMethod = 'CASH' | 'QRIS' | 'DEBIT'] *)
Inductive PaymentMethod : Type := CASH | QRIS | DEBIT.

(** [interface Transaction]: id, date, items, subtotal, tax, total,
    paymentMethod, the fields that [handleProcessPayment] fills in. *)
Module Transaction.
Record t : Type := mk {
  id : string;
  date : string;
  items : list CartItem.t;
  subtotal : JS.number;
  tax : JS.number;
  total : JS.number;
  paymentMethod : PaymentMethod
}.
End Transaction.

(** [interface FinancialSummary]: revenue, cogs, grossProfit, expenses,
    netProfit, the fields of [INITIAL_SUMMARY]. *)
Module FinancialSummary.
Record t : Type := mk {
  revenue : JS.number;
  cogs : JS.number;
  grossProfit : JS.number;
  expenses : JS.number;
  netProfit : JS.number
}.
End FinancialSummary.

(** The response of the document-extraction oracle
    ([analyzeUploadedDocument] of src/unnamed/part_002, typed [any]): the
    JSON object that its prompt asks for, with the keys [date],
    [supplier], [total] and [items], or with an [error] string. The
    handler reads these keys and no other; an absent key reads as
    [undefined]. *)
Module OcrResult.
Record item : Type := mk_item {
  name : string;
  price : JS.number;
  quantity : JS.number
}.

Record t : Type := mk {
  error : option string;
  date : option string;
  supplier : option string;
  total : option JS.number;
  items : option (list item)
}.
End OcrResult.

(** ** Plain objects

    [rawRow] starts as the object literal [{}]. Besides the properties
    assigned to it, such an object reads the properties of
    [Object.prototype], and an assignment of a string to its [__proto__]
    key stores nothing. *)
Module Obj.

Local Open Scope string_scope.

(** The property names of [Object.prototype]. *)
Definition prototype_keys : list string :=
  [ "constructor"; "__defineGetter__"; "__defineSetter__";
    "hasOwnProperty"; "__lookupGetter__"; "__lookupSetter__";
    "isPrototypeOf"; "propertyIsEnumerable"; "toString"; "valueOf";
    "__proto__"; "toLocaleString" ].

(** [key in Object.prototype] *)
Definition inherited (key : string) : bool :=
  List.existsb (String.eqb key) prototype_keys.

End Obj.

(** A row of a CSV file as [handleFileUpload] builds it: an object from
    header to cell, where a cell missing from the line is [undefined].
    The finite map holds the own properties of the object; it reads as
    the object does at every key that is a header other than [__proto__],
    and at every key for which [Obj.inherited] is false. *)
Abbreviation RawRow := (gmap string (option string)).

(** [interface StagedTransaction]: id, source, date, supplierOrCustomer,
    totalAmount, itemsSummary, status, validationError, rawParams.
    [date] and [supplierOrCustomer] are read from a row and can be
    [undefined]. *)
Module StagedTransaction.
Inductive Source : Type := CSV_IMPORT | AI_OCR.

Inductive Status : Type := PENDING | VALID | ERROR.

Inductive RawParams : Type :=
| OfRow (rawRow : RawRow)
| OfOcr (result : OcrResult.t).

Record t : Type := mk {
  id : string;
  source : Source;
  date : option string;
  supplierOrCustomer : option string;
  totalAmount : JS.number;
  itemsSummary : string;
  status : Status;
  validationError : option string;
  rawParams : RawParams
}.

(** [d.status === 'VALID'] *)
Definition is_valid (d : t) : bool :=
  match status d with VALID => true | _ => false end.
End StagedTransaction.

(** Services of the browser that the components call. *)
Record Env : Type := {
  (** [Date.parse(s)]: a time value, or [NaN] for an invalid date *)
  Date_parse : string -> JS.number;
  (** the result of the [n]-th call of [crypto.randomUUID()] *)
  randomUUID : nat -> string;
  (** [new Date().toISOString()] *)
  now : string;
  (** the conversion of a number inside a template string *)
  number_toString : JS.number -> string
}.

(** ** The POS component (src/pages/POS.tsx) *)

Module POS.

Definition Cart : Type := list CartItem.t.

(** [const ANOMALY_THRESHOLD = 2000000] *)
Definition ANOMALY_THRESHOLD : JS.number := JS.of_Z 2000000.

(** The toast messages of [showFeedback]. *)
Inductive Feedback : Type :=
| OutOfStock (stock : Z)   (* error: Out of stock! Only ${stock} available. *)
| MaxStockReached          (* error: Max stock reached *)
| ChangeDue (change : JS.number). (* success: Change: Rp ${change} *)

(** *** Derived state *)

Definition subtotal (cart : Cart) : JS.number :=
  fold_left
    (fun sum item =>
       JS.add sum (JS.mul (CartItem.price item)
                          (JS.of_Z (CartItem.quantity item))))
    cart JS.zero.

(** [_sub * 0.11], PPN 11% *)
Definition tax (cart : Cart) : JS.number :=
  JS.mul (subtotal cart) (JS.lit 11 100).

Definition total (cart : Cart) : JS.number :=
  JS.add (subtotal cart) (tax cart).

Definition totalItems (cart : Cart) : Z :=
  fold_left (fun sum item => sum + CartItem.quantity item) cart 0.

(** [parseFloat(cashReceived) || 0] *)
Definition received (cashReceived : string) : JS.number :=
  JS.or_else (Str.parseFloat cashReceived) JS.zero.

Definition change (cart : Cart) (paymentMethod : PaymentMethod)
    (cashReceived : string) : JS.number :=
  match paymentMethod with
  | CASH => JS.max JS.zero (JS.sub (received cashReceived) (total cart))
  | _ => JS.zero
  end.

Definition isPaymentValid (cart : Cart) (paymentMethod : PaymentMethod)
    (cashReceived : string) : bool :=
  match cart with
  | [] => false
  | _ =>
      match paymentMethod with
      | CASH => JS.geb (received cashReceived) (total cart)
      | _ => true
      end
  end.

Definition isAnomaly (cart : Cart) : bool :=
  JS.gtb (total cart) ANOMALY_THRESHOLD.

(** *** Cart handlers *)

(** [cart.find(i => i.id === id)] *)
Definition find_item (cart : Cart) (id : string) : option CartItem.t :=
  List.find (fun i => String.eqb (CartItem.id i) id) cart.

(** [products.find(p => p.id === id)] *)
Definition find_product (products : list Product.t) (id : string)
  : option Product.t :=
  List.find (fun p => String.eqb (Product.id p) id) products.

(** [getStockStatus(product)]: [(available, isOutOfStock, inCart)] *)
Definition getStockStatus (cart : Cart) (product : Product.t)
  : Z * bool * Z :=
  let inCart :=
    match find_item cart (Product.id product) with
    | Some cartItem => CartItem.quantity cartItem
    | None => 0
    end in
  let available := Product.stock product - inCart in
  (available, available <=? 0, inCart).

Definition handleAddToCart (cart : Cart) (product : Product.t)
  : Cart * option Feedback :=
  let '(available, _, _) := getStockStatus cart product in
  if available <=? 0 then (cart, Some (OutOfStock (Product.stock product)))
  else
    (match find_item cart (Product.id product) with
     | Some _ =>
         List.map
           (fun item =>
              if String.eqb (CartItem.id item) (Product.id product)
              then CartItem.with_quantity item (CartItem.quantity item + 1)
              else item)
           cart
     | None => cart ++ [CartItem.mk product 1]
     end, None).

Definition handleUpdateQuantity (products : list Product.t) (cart : Cart)
    (id : string) (delta : Z) : Cart * option Feedback :=
  match find_item cart id with
  | None => (cart, None)
  | Some item =>
      if (0 <? delta)
         && match find_product products id with
            | Some product => Product.stock product <=? CartItem.quantity item
            | None => false
            end
      then (cart, Some MaxStockReached)
      else
        (List.map
           (fun item =>
              if String.eqb (CartItem.id item) id then
                let newQty := CartItem.quantity item + delta in
                if 0 <? newQty then CartItem.with_quantity item newQty
                else item
              else item)
           cart, None)
  end.

Definition handleRemoveFromCart (cart : Cart) (id : string) : Cart :=
  List.filter (fun item => negb (String.eqb (CartItem.id item) id)) cart.

(** The cart operations of the specification, and the cart they leave. *)
Inductive CartOp : Type :=
| addItem (product : Product.t)
| changeQuantity (productId : string) (delta : Z)
| removeItem (productId : string).

Definition apply_op (products : list Product.t) (cart : Cart) (op : CartOp)
  : Cart :=
  match op with
  | addItem product => fst (handleAddToCart cart product)
  | changeQuantity id delta => fst (handleUpdateQuantity products cart id delta)
  | removeItem id => handleRemoveFromCart cart id
  end.

Definition run (products : list Product.t) (ops : list CartOp) (cart : Cart)
  : Cart :=
  fold_left (apply_op products) ops cart.

(** *** Checkout *)

Record State : Type := {
  cart : Cart;
  paymentMethod : PaymentMethod;
  cashReceived : string
}.

Definition cleared : State :=
  {| cart := []; paymentMethod := CASH; cashReceived := EmptyString |}.

(** [handleClearCart], given the answer to [window.confirm]. *)
Definition handleClearCart (confirmed : bool) (st : State) : State :=
  if confirmed then cleared else st.

(** [handleProcessPayment], outside a payment already in progress:
    [confirmed] is the answer to the anomaly dialog, [n] numbers the
    call of [crypto.randomUUID]. The transaction, when there is one, is
    what [onCompleteTransaction] receives. *)
Definition handleProcessPayment (env : Env) (n : nat) (confirmed : bool)
    (st : State) : State * option Transaction.t * option Feedback :=
  let c := cart st in
  if negb (isPaymentValid c (paymentMethod st) (cashReceived st))
  then (st, None, None)
  else if isAnomaly c && negb confirmed then (st, None, None)
  else
    (cleared,
     Some (Transaction.mk (randomUUID env n) (now env) c
             (subtotal c) (tax c) (total c) (paymentMethod st)),
     Some (ChangeDue (change c (paymentMethod st) (cashReceived st)))).

End POS.

(** ** The application root ([App], second document of src/unnamed/part_001) *)

Module App.

Local Open Scope string_scope.

Definition MOCK_PRODUCTS : list Product.t :=
  [ Product.mk "1" "Premium Rice 5kg" "Food" (JS.of_Z 65000) (JS.of_Z 50000)
      24 10 "RICE-001" "Bag";
    Product.mk "2" "Cooking Oil 2L" "Food" (JS.of_Z 35000) (JS.of_Z 28000)
      8 15 "OIL-002" "Bottle";
    Product.mk "3" "Mineral Water 600ml" "Bev" (JS.of_Z 4000) (JS.of_Z 2500)
      150 50 "WTR-003" "Bottle";
    Product.mk "4" "Instant Noodle Pack" "Food" (JS.of_Z 3500) (JS.of_Z 2200)
      85 40 "NDL-004" "Pack";
    Product.mk "5" "Dish Soap 800ml" "Clean" (JS.of_Z 15000) (JS.of_Z 11000)
      12 5 "SOAP-005" "Bottle";
    Product.mk "6" "Sugar 1kg" "Food" (JS.of_Z 14500) (JS.of_Z 12000)
      30 10 "SGR-006" "Pack";
    Product.mk "7" "Coffee Mix Pack" "Bev" (JS.of_Z 12000) (JS.of_Z 9000)
      45 20 "COF-007" "Pack";
    Product.mk "8" "Toothpaste Large" "Clean" (JS.of_Z 18000) (JS.of_Z 13000)
      3 10 "TP-008" "Tube" ].

Definition INITIAL_SUMMARY : FinancialSummary.t :=
  {| FinancialSummary.revenue := JS.of_Z 15400000;
     FinancialSummary.cogs := JS.of_Z 9800000;
     FinancialSummary.grossProfit := JS.of_Z 5600000;
     FinancialSummary.expenses := JS.of_Z 2100000;
     FinancialSummary.netProfit := JS.of_Z 3500000 |}.

Record State : Type := {
  products : list Product.t;
  transactions : list Transaction.t;
  summary : FinancialSummary.t
}.

(** [transaction.items.find(item => item.id === product.id)] *)
Definition find_sold (items : list CartItem.t) (product : Product.t)
  : option CartItem.t :=
  List.find
    (fun item => String.eqb (CartItem.id item) (Product.id product)) items.

(** The [products.map(...)] of [handleTransactionComplete]. Its callback
    also adds to the variable [transactionCost], which is threaded
    through the traversal here: the result is the updated product list
    and the final value of [transactionCost]. *)
Fixpoint reduce_stock (items : list CartItem.t) (products : list Product.t)
    (transactionCost : JS.number) : list Product.t * JS.number :=
  match products with
  | [] => ([], transactionCost)
  | product :: rest =>
      match find_sold items product with
      | Some soldItem =>
          let '(updated, cost) :=
            reduce_stock items rest
              (JS.add transactionCost
                 (JS.mul (Product.cost product)
                         (JS.of_Z (CartItem.quantity soldItem)))) in
          (Product.with_stock product
             (Product.stock product - CartItem.quantity soldItem)
             :: updated, cost)
      | None =>
          let '(updated, cost) := reduce_stock items rest transactionCost in
          (product :: updated, cost)
      end
  end.

Definition handleTransactionComplete (st : State)
    (transaction : Transaction.t) : State :=
  let '(updatedProducts, transactionCost) :=
    reduce_stock (Transaction.items transaction) (products st) JS.zero in
  let newRevenue := Transaction.subtotal transaction in
  let newGrossProfit := JS.sub newRevenue transactionCost in
  let prev := summary st in
  {| products := updatedProducts;
     transactions := transactions st ++ [transaction];
     summary :=
       {| FinancialSummary.revenue :=
            JS.add (FinancialSummary.revenue prev) newRevenue;
          FinancialSummary.cogs :=
            JS.add (FinancialSummary.cogs prev) transactionCost;
          FinancialSummary.grossProfit :=
            JS.add (FinancialSummary.grossProfit prev) newGrossProfit;
          FinancialSummary.expenses := FinancialSummary.expenses prev;
          FinancialSummary.netProfit :=
            JS.add (FinancialSummary.netProfit prev) newGrossProfit |} |}.

(** [handleImportTransactions], on the summary it updates. *)
Definition handleImportTransactions
    (stagedTransactions : list StagedTransaction.t)
    (prev : FinancialSummary.t) : FinancialSummary.t :=
  let totalImportValue :=
    fold_left
      (fun totalImportValue st =>
         JS.add totalImportValue (StagedTransaction.totalAmount st))
      stagedTransactions JS.zero in
  {| FinancialSummary.revenue := FinancialSummary.revenue prev;
     FinancialSummary.cogs := FinancialSummary.cogs prev;
     FinancialSummary.grossProfit := FinancialSummary.grossProfit prev;
     FinancialSummary.expenses :=
       JS.add (FinancialSummary.expenses prev) totalImportValue;
     FinancialSummary.netProfit :=
       JS.sub (FinancialSummary.netProfit prev) totalImportValue |}.

Definition handleAddProduct (st : State) (newProduct : Product.t) : State :=
  {| products := newProduct :: products st;
     transactions := transactions st;
     summary := summary st |}.

Definition handleUpdateStock (st : State) (productId : string)
    (newStock : Z) : State :=
  {| products :=
       List.map
         (fun p => if String.eqb (Product.id p) productId
                   then Product.with_stock p newStock else p)
         (products st);
     transactions := transactions st;
     summary := summary st |}.

Definition handleDeleteProduct (st : State) (productId : string) : State :=
  {| products :=
       List.filter (fun p => negb (String.eqb (Product.id p) productId))
                   (products st);
     transactions := transactions st;
     summary := summary st |}.

End App.

(** ** The import screen ([DataManagement], first document of
    src/unnamed/part_001) *)

Module DataManagement.

Local Open Scope string_scope.

(** The messages of [alert]. *)
Inductive Alert : Type :=
| AIAnalysisFailed (error : string) (* AI Analysis Failed: ${error} *)
| CsvEmptyOrMissingHeaders          (* CSV file is empty or missing headers *)
| NoValidData                       (* No valid data to commit. *)
| RecordsProcessed (n : nat).       (* ${n} records successfully processed. *)

(** [formatHeader]: snake_case to Title Case. *)
Definition formatHeader (header : string) : string :=
  Str.join " "
    (List.map
       (fun word =>
          Str.toUpperCase (Str.charAt0 word)
          ++ Str.toLowerCase (Str.slice1 word))
       (Str.split "_" header)).

(** [row[key]]: [undefined] for a key that is absent (and that
    [Object.prototype] does not define, see [Obj]). *)
Definition get (row : RawRow) (key : string) : option string :=
  match row !! key with
  | Some value => value
  | None => None
  end.

(** Truthiness of a cell: [undefined] and the empty string are falsy. *)
Definition truthy (value : option string) : bool :=
  match value with
  | Some s => Str.truthy s
  | None => false
  end.

(** The result of [smartValidate]: [VALID], or [ERROR] with a reason. *)
Record Validation : Type := {
  status : StagedTransaction.Status;
  error : option string
}.

Definition invalid (reason : string) : Validation :=
  {| status := StagedTransaction.ERROR; error := Some reason |}.

(** The header tests of [smartValidate]. *)
Definition is_required_key (lowerKey : string) : bool :=
  Str.includes lowerKey "id" || Str.includes lowerKey "name"
  || Str.includes lowerKey "nama" || Str.includes lowerKey "sku".

Definition is_numeric_key (lowerKey : string) : bool :=
  Str.includes lowerKey "amount" || Str.includes lowerKey "price"
  || Str.includes lowerKey "gaji" || Str.includes lowerKey "salary"
  || Str.includes lowerKey "total".

Definition is_date_key (lowerKey : string) : bool :=
  Str.includes lowerKey "date" || Str.includes lowerKey "tanggal".

(** [smartValidate(row, headers)]: the loop over [headers] returns at
    the first rule that fails. *)
Fixpoint smartValidate (env : Env) (row : RawRow) (headers : list string)
  : Validation :=
  match headers with
  | [] => {| status := StagedTransaction.VALID; error := None |}
  | key :: rest =>
      let value := get row key in
      let lowerKey := Str.toLowerCase key in
      if is_required_key lowerKey
         && (negb (truthy value)
             || match value with
                | Some s => String.eqb (Str.trim s) ""
                | None => false
                end)
      then invalid (formatHeader key ++ " is required")
      else if is_numeric_key lowerKey
              && (let num :=
                    Str.parseFloat
                      (match value with
                       | Some s =>
                           if Str.truthy s then Str.strip_non_numeric s
                           else "0"
                       | None => "0"
                       end) in
                  JS.isNaN num || JS.ltb num JS.zero)
      then invalid ("Invalid number in " ++ formatHeader key)
      else if is_date_key lowerKey
              && (negb (truthy value)
                  || match value with
                     | Some s => JS.isNaN (Date_parse env s)
                     | None => false
                     end)
      then invalid ("Invalid date in " ++ formatHeader key)
      else smartValidate env row rest
  end.

(** [headers.forEach((header, index) => rawRow[header] =
    values[index]?.trim())], from position [index] on. *)
Fixpoint fill_row (values : list string) (headers : list string)
    (index : nat) (rawRow : RawRow) : RawRow :=
  match headers with
  | [] => rawRow
  | header :: rest =>
      fill_row values rest (S index)
        (<[header := option_map Str.trim (nth_error values index)]> rawRow)
  end.

(** The column guesses of the ledger mapping. *)
Definition is_amount_header (h : string) : bool :=
  Str.includes (Str.toLowerCase h) "amount"
  || Str.includes (Str.toLowerCase h) "total"
  || Str.includes (Str.toLowerCase h) "gaji"
  || Str.includes (Str.toLowerCase h) "price".

Definition is_date_header (h : string) : bool :=
  Str.includes (Str.toLowerCase h) "date"
  || Str.includes (Str.toLowerCase h) "tanggal".

Definition is_desc_header (h : string) : bool :=
  Str.includes (Str.toLowerCase h) "name"
  || Str.includes (Str.toLowerCase h) "desc"
  || Str.includes (Str.toLowerCase h) "nama"
  || Str.includes (Str.toLowerCase h) "supplier".

(** [parseFloat(v)] of a cell; [undefined] converts to a string that is
    no number. *)
Definition parseFloat_cell (value : option string) : JS.number :=
  match value with
  | Some s => Str.parseFloat s
  | None => JS.NaN
  end.

(** The callback of [lines.slice(1).map(...)] for the [n]-th row. *)
Definition parse_line (env : Env) (headers : list string) (n : nat)
    (line : string) : StagedTransaction.t :=
  let values := Str.split "," line in
  let rawRow := fill_row values headers 0 ∅ in
  let validation := smartValidate env rawRow headers in
  let amountKey := List.find is_amount_header headers in
  let dateKey := List.find is_date_header headers in
  let descKey := List.find is_desc_header headers in
  {| StagedTransaction.id := randomUUID env n;
     StagedTransaction.source := StagedTransaction.CSV_IMPORT;
     StagedTransaction.date :=
       match dateKey with
       | Some k => get rawRow k
       | None => Some (now env)
       end;
     StagedTransaction.supplierOrCustomer :=
       match descKey with
       | Some k => get rawRow k
       | None => Some "Batch Import"
       end;
     StagedTransaction.totalAmount :=
       match amountKey with
       | Some k => JS.or_else (parseFloat_cell (get rawRow k)) JS.zero
       | None => JS.zero
       end;
     StagedTransaction.itemsSummary := "CSV Record";
     StagedTransaction.status := status validation;
     StagedTransaction.validationError := error validation;
     StagedTransaction.rawParams := StagedTransaction.OfRow rawRow |}.

Fixpoint parse_lines (env : Env) (headers : list string) (n : nat)
    (lines : list string) : list StagedTransaction.t :=
  match lines with
  | [] => []
  | line :: rest =>
      parse_line env headers n line :: parse_lines env headers (S n) rest
  end.

(** The uploaded file: its MIME type, its name, and its text. *)
Record File : Type := {
  type : string;
  name : string;
  text : string
}.

(** What an upload leaves: the two state variables that
    [handleFileUpload] sets, and the alert it raised, if any. *)
Record Upload : Type := {
  stagedData : list StagedTransaction.t;
  dynamicHeaders : option (list string);
  alert : option Alert
}.

(** Truthiness of an optional number: [undefined], [NaN], [0] are falsy. *)
Definition truthy_number (value : option JS.number) : bool :=
  match value with
  | Some n => JS.truthy n
  | None => false
  end.

(** [result.total && result.date], as a condition. *)
Definition isValid (result : OcrResult.t) : bool :=
  truthy_number (OcrResult.total result) && truthy (OcrResult.date result).

(** The staged record that the OCR branch builds from a response that
    carries no error. *)
Definition newStaged (env : Env) (result : OcrResult.t)
  : StagedTransaction.t :=
  {| StagedTransaction.id := randomUUID env 0;
     StagedTransaction.source := StagedTransaction.AI_OCR;
     StagedTransaction.date :=
       if truthy (OcrResult.date result) then OcrResult.date result
       else Some (now env);
     StagedTransaction.supplierOrCustomer :=
       if truthy (OcrResult.supplier result) then OcrResult.supplier result
       else Some "Unknown Supplier";
     StagedTransaction.totalAmount :=
       match OcrResult.total result with
       | Some n => JS.or_else n JS.zero
       | None => JS.zero
       end;
     StagedTransaction.itemsSummary :=
       match OcrResult.items result with
       | Some items =>
           Str.join ", "
             (List.map
                (fun i =>
                   number_toString env (OcrResult.quantity i)
                   ++ "x " ++ OcrResult.name i)
                items)
       | None => "Unknown Items"
       end;
     StagedTransaction.status :=
       if isValid result then StagedTransaction.VALID
       else StagedTransaction.ERROR;
     StagedTransaction.validationError :=
       if isValid result then None
       else Some "AI could not extract Total or Date";
     StagedTransaction.rawParams := StagedTransaction.OfOcr result |}.

(** The image branch of [handleFileUpload], given the response of
    [analyzeUploadedDocument]; the staged data were emptied on entry. *)
Definition upload_image (env : Env) (result : OcrResult.t) : Upload :=
  match OcrResult.error result with
  | Some (String c e) =>
      {| stagedData := []; dynamicHeaders := None;
         alert := Some (AIAnalysisFailed (String c e)) |}
  | _ =>
      {| stagedData := [newStaged env result]; dynamicHeaders := None;
         alert := None |}
  end.

(** The CSV branch of [handleFileUpload]. *)
Definition upload_csv (env : Env) (text : string) : Upload :=
  let lines :=
    List.filter (fun l => negb (String.eqb (Str.trim l) ""))
                (Str.split "010" text) in
  if (List.length lines <? 2)%nat then
    {| stagedData := []; dynamicHeaders := None;
       alert := Some CsvEmptyOrMissingHeaders |}
  else
    let headers := List.map Str.trim (Str.split "," (List.hd "" lines)) in
    {| stagedData := parse_lines env headers 0 (List.tl lines);
       dynamicHeaders := Some headers;
       alert := None |}.

(** [handleFileUpload] for a chosen [file]; [result] is what the oracle
    answers for it. Any other kind of file leaves the emptied state. *)
Definition handleFileUpload (env : Env) (file : File)
    (result : OcrResult.t) : Upload :=
  if Str.includes (type file) "image" then upload_image env result
  else if String.eqb (type file) "text/csv" || Str.endsWith (name file) ".csv"
  then upload_csv env (text file)
  else {| stagedData := []; dynamicHeaders := None; alert := None |}.

(** [handleCommit]: [onImportTransactions] is the callback of the
    component, which acts on the summary of [App]. *)
Definition handleCommit
    (onImportTransactions :
       list StagedTransaction.t -> FinancialSummary.t -> FinancialSummary.t)
    (stagedData : list StagedTransaction.t) (summary : FinancialSummary.t)
  : list StagedTransaction.t * FinancialSummary.t * Alert :=
  let validData := List.filter StagedTransaction.is_valid stagedData in
  match validData with
  | [] => (stagedData, summary, NoValidData)
  | _ =>
      (List.filter (fun d => negb (StagedTransaction.is_valid d)) stagedData,
       onImportTransactions validData summary,
       RecordsProcessed (List.length validData))
  end.

(** The commit as [App] wires it:
    [<DataManagement onImportTransactions={handleImportTransactions} />]. *)
Definition commit := handleCommit App.handleImportTransactions.

Definition handleRemoveStaged (stagedData : list StagedTransaction.t)
    (id : string) : list StagedTransaction.t :=
  List.filter
    (fun t => negb (String.eqb (StagedTransaction.id t) id)) stagedData.

End DataManagement.

(** ** Sample data *)

Module Samples.

Local Open Scope string_scope.

(** Products of [MOCK_PRODUCTS]: rice (stock 24), cooking oil (stock 8)
    and mineral water (stock 150). *)
Definition rice : Product.t :=
  List.nth 0 App.MOCK_PRODUCTS (Product.mk "" "" "" JS.NaN JS.NaN 0 0 "" "").
Definition oil : Product.t := List.nth 1 App.MOCK_PRODUCTS rice.
Definition water : Product.t := List.nth 2 App.MOCK_PRODUCTS rice.

(** A cart of two bags of rice and three bottles of oil:
    subtotal 235000, tax 25850, total 260850. *)
Definition cart : POS.Cart := [CartItem.mk rice 2; CartItem.mk oil 3].

(** The sale of that cart, and the application state before it. *)
Definition sale : Transaction.t :=
  Transaction.mk "t-1" "2024-01-01T00:00:00.000Z" cart
    (POS.subtotal cart) (POS.tax cart) (POS.total cart) QRIS.

Definition initial : App.State :=
  {| App.products := App.MOCK_PRODUCTS;
     App.transactions := [];
     App.summary := App.INITIAL_SUMMARY |}.

(** A staged record of a given id, status and amount. *)
Definition staged (id : string) (status : StagedTransaction.Status)
    (amount : Z) : StagedTransaction.t :=
  {| StagedTransaction.id := id;
     StagedTransaction.source := StagedTransaction.CSV_IMPORT;
     StagedTransaction.date := Some "2024-01-05";
     StagedTransaction.supplierOrCustomer := Some "Batch Import";
     StagedTransaction.totalAmount := JS.of_Z amount;
     StagedTransaction.itemsSummary := "CSV Record";
     StagedTransaction.status := status;
     StagedTransaction.validationError :=
       match status with
       | StagedTransaction.ERROR => Some "Invalid number in Amount"
       | _ => None
       end;
     StagedTransaction.rawParams := StagedTransaction.OfRow ∅ |}.

(** The CSV file of scenario 6: the row of the specification, and the
    same row with price [-5]. *)
Definition rice_headers : list string := ["sku"; "name"; "price"; "stock"].
Definition rice_line : string := "RICE-005,Premium Rice,65000,24".
Definition rice_line_negative : string := "RICE-005,Premium Rice,-5,24".
Definition rice_csv : string :=
  "sku,name,price,stock" ++ String "010" rice_line
  ++ String "010" rice_line_negative.

(** A CSV file whose amount carries a currency prefix. *)
Definition rent_csv : string :=
  "name,amount" ++ String "010" "Rent,Rp 5.000".

(** Oracle responses: an error, a complete receipt, and a receipt
    whose total is present but zero. *)
Definition no_result : OcrResult.t :=
  OcrResult.mk None None None None None.

Definition invalid_document : OcrResult.t :=
  OcrResult.mk (Some "Invalid Document") None None None None.

Definition receipt : OcrResult.t :=
  OcrResult.mk None (Some "2024-01-05") (Some "Toko Maju")
    (Some (JS.of_Z 120000))
    (Some [OcrResult.mk_item "Sugar 1kg" (JS.of_Z 14500) (JS.of_Z 2)]).

Definition free_receipt : OcrResult.t :=
  OcrResult.mk None (Some "2024-01-05") (Some "Toko Maju")
    (Some JS.zero) None.

(** Scenario 7 of the specification: a batch of 3 VALID and 2 ERROR
    records. *)
Definition batch : list StagedTransaction.t :=
  [ staged "a" StagedTransaction.VALID 100;
    staged "b" StagedTransaction.ERROR 999;
    staged "c" StagedTransaction.VALID 250;
    staged "d" StagedTransaction.ERROR 1;
    staged "e" StagedTransaction.VALID 50 ].

(** An environment: no date parses, ids are numbered by a letter. *)
Definition env : Env :=
  {| Date_parse := fun _ => JS.NaN;
     randomUUID := fun n => String.string_of_list_ascii
                              (List.repeat "u"%char (S n));
     now := "2024-01-05T00:00:00.000Z";
     number_toString := fun _ => "?" |}.

End Samples.

(** ** Predicates of the properties *)

Module Inv.

(** A cart line is within stock: the catalog has a product for its id,
    and the quantity is at least 1 and at most that product's stock. *)
Definition line_ok (products : list Product.t) (item : CartItem.t) : Prop :=
  exists p,
    POS.find_product products (CartItem.id item) = Some p
    /\ 1 <= CartItem.quantity item <= Product.stock p.

(** The cart invariant: one line per product id, every line in stock. *)
Definition cart_ok (products : list Product.t) (cart : POS.Cart) : Prop :=
  List.NoDup (List.map CartItem.id cart)
  /\ List.Forall (line_ok products) cart.

(** A cart operation over the catalog: the product added is the entry
    of the catalog for its id. *)
Definition over_catalog (products : list Product.t) (op : POS.CartOp)
  : Prop :=
  match op with
  | POS.addItem product =>
      POS.find_product products (Product.id product) = Some product
  | _ => True
  end.

(** A quantity change by one unit up, or by any amount down; the two
    buttons of a cart line pass [1] and [-1]. *)
Definition unit_step (op : POS.CartOp) : Prop :=
  match op with
  | POS.changeQuantity _ delta => delta <= 1
  | _ => True
  end.

(** The cost of goods of one product in a sale: its unit cost times the
    quantity of the line sold of it, or nothing when none was sold. *)
Definition product_cost (items : list CartItem.t) (product : Product.t)
  : JS.number :=
  match App.find_sold items product with
  | Some soldItem =>
      JS.mul (Product.cost product) (JS.of_Z (CartItem.quantity soldItem))
  | None => JS.zero
  end.


(** The product after a sale: its stock reduced by the quantity of the
    line sold of it, if any. *)
Definition sold_product (items : list CartItem.t) (product : Product.t)
  : Product.t :=
  match App.find_sold items product with
  | Some soldItem =>
      Product.with_stock product
        (Product.stock product - CartItem.quantity soldItem)
  | None => product
  end.

(** The final value of the variable [transactionCost] in
    [handleTransactionComplete]. *)
Definition transactionCost (products : list Product.t)
    (transaction : Transaction.t) : JS.number :=
  snd (App.reduce_stock (Transaction.items transaction) products JS.zero).

(** The row object that [handleFileUpload] builds from a line. *)
Definition row_of (headers : list string) (line : string) : RawRow :=
  DataManagement.fill_row (Str.split "," line) headers 0 ∅.

(** The text that [smartValidate] parses for a numeric column: the cell
    without its non-numeric characters, or [0] for an empty cell. *)
Definition numeric_text (value : option string) : string :=
  match value with
  | Some s => if Str.truthy s then Str.strip_non_numeric s else "0"
  | None => "0"
  end.

(** The three rules of [smartValidate] for one header. *)
Definition rules_hold (env : Env) (row : RawRow) (key : string) : Prop :=
  let value := DataManagement.get row key in
  let lowerKey := Str.toLowerCase key in
  (DataManagement.is_required_key lowerKey = true ->
   exists s, value = Some s /\ Str.trim s <> EmptyString)
  /\ (DataManagement.is_numeric_key lowerKey = true ->
      JS.le JS.zero (Str.parseFloat (numeric_text value)))
  /\ (DataManagement.is_date_key lowerKey = true ->
      exists s, value = Some s /\ s <> EmptyString
                /\ JS.isNaN (Date_parse env s) = false).

End Inv.

(** ** The rest of the POS screen (src/pages/POS.tsx) *)

Module POSView.

Local Open Scope string_scope.

(** [Array.from(new Set(xs))]: the first occurrence of every element, in
    order; [seen] are the elements already in the set. *)
Fixpoint new_Set (seen : list string) (xs : list string) : list string :=
  match xs with
  | [] => []
  | x :: rest =>
      if List.existsb (String.eqb x) seen then new_Set seen rest
      else x :: new_Set (x :: seen) rest
  end.

(** [['All', ...Array.from(new Set(products.map(p => p.category)))]] *)
Definition categories (products : list Product.t) : list string :=
  "All" :: new_Set [] (List.map Product.category products).

(** The products shown in the grid. *)
Definition filteredProducts (products : list Product.t)
    (searchTerm selectedCategory : string) : list Product.t :=
  List.filter
    (fun p =>
       let matchesSearch :=
         Str.includes (Str.toLowerCase (Product.name p))
                      (Str.toLowerCase searchTerm)
         || Str.includes (Str.toLowerCase (Product.sku p))
                         (Str.toLowerCase searchTerm) in
       let matchesCategory :=
         String.eqb selectedCategory "All"
         || String.eqb (Product.category p) selectedCategory in
       matchesSearch && matchesCategory)
    products.

(** The toasts of the barcode scanner. A later call of [showFeedback] in
    the same event replaces an earlier one. *)
Inductive ScanFeedback : Type :=
| Added (name : string)     (* success: Added ${name} *)
| ProductNotFound.          (* error: Product not found *)

(** [handleSearchKeyDown]: the cart, the search term and the toast that
    the key press leaves; no toast when the handler shows none. After
    [handleAddToCart], which may show the out-of-stock toast, the handler
    shows [Added], which is the toast that stays. *)
Definition handleSearchKeyDown (products : list Product.t) (cart : POS.Cart)
    (key searchTerm : string) : POS.Cart * string * option ScanFeedback :=
  if String.eqb key "Enter" && Str.truthy (Str.trim searchTerm) then
    match List.find
            (fun p => String.eqb (Str.toLowerCase (Product.sku p))
                                 (Str.toLowerCase searchTerm))
            products with
    | Some exactMatch =>
        (fst (POS.handleAddToCart cart exactMatch), "",
         Some (Added (Product.name exactMatch)))
    | None =>
        match List.find
                (fun p => String.eqb (Str.toLowerCase (Product.name p))
                                     (Str.toLowerCase searchTerm))
                products with
        | Some nameMatch =>
            (fst (POS.handleAddToCart cart nameMatch), "",
             Some (Added (Product.name nameMatch)))
        | None => (cart, searchTerm, Some ProductNotFound)
        end
    end
  else (cart, searchTerm, None).

End POSView.

(** ** The oracle service (src/unnamed/part_002) *)

Module Gemini.

Local Open Scope string_scope.

(** What the body of a [try] comes to: an exception (a rejected request,
    a reply that [JSON.parse] refuses), or the value it computes. *)
Inductive Outcome (A : Type) : Type :=
| Throws
| Returns (value : A).
Arguments Throws {A}.
Arguments Returns {A} value.

(** A parsed reply to the recommendation prompt: an array (of which only
    the strings can equal a product name), a string, or another JSON
    value (null, a number, a boolean, an object). *)
Inductive Json : Type :=
| JArray (names : list string)
| JString (text : string)
| JOther.

(** [response.text || fallback] *)
Definition text_or (text : option string) (fallback : string) : string :=
  match text with
  | Some (String c t) => String c t
  | _ => fallback
  end.

(** [generateExecutiveSummary], given what the request comes to:
    [response.text], which can be [undefined]. *)
Definition generateExecutiveSummary (response : Outcome (option string))
  : string :=
  match response with
  | Returns text => text_or text "Unable to generate summary."
  | Throws =>
      "AI Service Unavailable. Please check your connection or API key."
  end.

(** [askFinancialAnalyst] *)
Definition askFinancialAnalyst (response : Outcome (option string))
  : string :=
  match response with
  | Returns text => text_or text "I couldn't analyze that."
  | Throws => "Error connecting to the AI analyst."
  end.

(** [analyzeUploadedDocument], given what the request and the parse of
    its cleaned reply come to. *)
Definition analyzeUploadedDocument (parsed : Outcome OcrResult.t)
  : OcrResult.t :=
  match parsed with
  | Returns result => result
  | Throws =>
      OcrResult.mk (Some "Failed to process document") None None None None
  end.

(** [generatePOSRecommendations]: no request is made for an empty cart. *)
Definition generatePOSRecommendations (cartItems : list CartItem.t)
    (parsed : Outcome Json) : Json :=
  match cartItems with
  | [] => JArray []
  | _ =>
      match parsed with
      | Returns value => value
      | Throws => JArray []
      end
  end.

End Gemini.

Module Recommendations.

(** [recNames.includes(p.name)] *)
Definition includes_name (recNames : list string) (p : Product.t) : bool :=
  List.existsb (String.eqb (Product.name p)) recNames.

(** [fetchRecs], the effect of the POS screen: the recommendations it
    leaves, given those shown before. [recNames.includes(p.name)] is
    membership for an array and a substring test for a string; on any
    other value it throws as soon as there is a product to test, and the
    handler then logs the failure and sets nothing. *)
Definition fetchRecs (products : list Product.t) (cart : POS.Cart)
    (parsed : Gemini.Outcome Gemini.Json) (recommendations : list Product.t)
  : list Product.t :=
  match cart with
  | [] => []
  | _ =>
      match Gemini.generatePOSRecommendations cart parsed with
      | Gemini.JArray recNames =>
          List.filter (includes_name recNames) products
      | Gemini.JString recNames =>
          List.filter (fun p => Str.includes recNames (Product.name p))
                      products
      | Gemini.JOther =>
          match products with
          | [] => []
          | _ => recommendations
          end
      end
  end.

End Recommendations.

(** ** The inventory screen (src/pages/Inventory.tsx) *)

Module Inventory.

Local Open Scope string_scope.

(** The form of the add-product dialog, [Partial<Product>]: a field not
    filled in is [undefined]. [price] and [cost] hold what [parseFloat]
    made of the input, which can be [NaN]; [stock] and [reorderPoint] are
    counts, where [None] also stands for [NaN]: the code only reads them
    through [|| 0] and [|| 10], which treat both alike. *)
Record FormData : Type := {
  name : option string;
  sku : option string;
  category : option string;
  unit : option string;
  price : option JS.number;
  cost : option JS.number;
  stock : option Z;
  reorderPoint : option Z
}.

(** The messages of [setError] and [alert]. *)
Inductive Error : Type :=
| RequiredFields        (* All fields marked with * are required. *)
| SkuExists (sku : string)
                        (* SKU '${sku}' already exists. SKU must be unique. *)
| NegativePriceOrCost   (* Price and Cost cannot be negative. *)
| InvalidStockValue.    (* Invalid Stock Value *)

(** Truthiness of an optional string and of an optional number. *)
Definition truthy_string (value : option string) : bool :=
  match value with
  | Some s => Str.truthy s
  | None => false
  end.

Definition truthy_number (value : option JS.number) : bool :=
  match value with
  | Some n => JS.truthy n
  | None => false
  end.

(** [value || fallback] *)
Definition string_or (value : option string) (fallback : string) : string :=
  match value with
  | Some (String c s) => String c s
  | _ => fallback
  end.

Definition number_or (value : option JS.number) (fallback : JS.number)
  : JS.number :=
  match value with
  | Some n => JS.or_else n fallback
  | None => fallback
  end.

Definition count_or (value : option Z) (fallback : Z) : Z :=
  match value with
  | Some n => if Z.eqb n 0 then fallback else n
  | None => fallback
  end.

(** [handleAddSubmit]: the product handed to [onAddProduct], or the
    error shown; [n] numbers the call of [crypto.randomUUID]. *)
Definition handleAddSubmit (env : Env) (n : nat) (products : list Product.t)
    (formData : FormData) : Product.t + Error :=
  if negb (truthy_string (name formData))
     || negb (truthy_string (sku formData))
     || negb (truthy_number (price formData))
     || negb (truthy_number (cost formData))
  then inr RequiredFields
  else if List.existsb
            (fun p => String.eqb (Product.sku p) (string_or (sku formData) ""))
            products
  then inr (SkuExists (string_or (sku formData) ""))
  else if JS.ltb (number_or (price formData) JS.zero) JS.zero
          || JS.ltb (number_or (cost formData) JS.zero) JS.zero
  then inr NegativePriceOrCost
  else
    inl (Product.mk
           (randomUUID env n)
           (string_or (name formData) "")
           (string_or (category formData) "Food")
           (number_or (price formData) JS.zero)
           (number_or (cost formData) JS.zero)
           (count_or (stock formData) 0)
           (count_or (reorderPoint formData) 10)
           (string_or (sku formData) "")
           (string_or (unit formData) "Pcs")).

(** The add-product dialog wired to [App]:
    [<Inventory onAddProduct={handleAddProduct} />]. *)
Definition submit (env : Env) (n : nat) (st : App.State)
    (formData : FormData) : App.State * option Error :=
  match handleAddSubmit env n (App.products st) formData with
  | inl newProduct => (App.handleAddProduct st newProduct, None)
  | inr error => (st, Some error)
  end.

(** [parseInt(e.target.value) || 0] of the stock field is an integer;
    [handleStockUpdate] wired to [App.handleUpdateStock]. *)
Definition handleStockUpdate (st : App.State)
    (selectedProduct : option Product.t) (adjustStockValue : Z)
  : App.State * option Error :=
  match selectedProduct with
  | Some product =>
      if Z.leb 0 adjustStockValue
      then (App.handleUpdateStock st (Product.id product) adjustStockValue,
            None)
      else (st, Some InvalidStockValue)
  | None => (st, Some InvalidStockValue)
  end.

(** [handleDelete], given the answer to [window.confirm]. *)
Definition handleDelete (st : App.State) (confirmed : bool)
    (product : Product.t) : App.State :=
  if confirmed then App.handleDeleteProduct st (Product.id product) else st.

(** The rows of the stock table and their low-stock flag. *)
Definition filteredProducts (products : list Product.t) (searchTerm : string)
  : list Product.t :=
  List.filter
    (fun p =>
       Str.includes (Str.toLowerCase (Product.name p))
                    (Str.toLowerCase searchTerm)
       || Str.includes (Str.toLowerCase (Product.sku p))
                       (Str.toLowerCase searchTerm))
    products.

Definition isLowStock (product : Product.t) : bool :=
  Z.leb (Product.stock product) (Product.reorderPoint product).

End Inventory.

(** ** The analyst chat ([AIAnalyst], second document of
    src/pages/POS.tsx) *)

Module AIAnalyst.

Local Open Scope string_scope.

Inductive Role : Type := user | model.

(** [interface ChatMessage]: id, role, text, timestamp, the fields that
    [handleSend] fills in; the [timestamp], a [new Date()], is the time
    of the environment. *)
Record ChatMessage : Type := {
  id : string;
  role : Role;
  text : string;
  timestamp : string
}.

(** The object that [handleSend] serialises for the oracle. *)
Record Context : Type := {
  monthSummary : FinancialSummary.t;
  recentTransactions : list Transaction.t;
  inventoryWarning : list (string * Z)
}.

(** [l.slice(-10)]: the last ten elements. *)
Definition slice_last10 {A : Type} (l : list A) : list A :=
  List.skipn (List.length l - 10) l.

Definition context (summary : FinancialSummary.t)
    (transactions : list Transaction.t) (products : list Product.t)
  : Context :=
  {| monthSummary := summary;
     recentTransactions := slice_last10 transactions;
     inventoryWarning :=
       List.map (fun p => (Product.name p, Product.stock p))
         (List.filter
            (fun p => Z.ltb (Product.stock p) (Product.reorderPoint p))
            products) |}.

(** The state of the chat. *)
Record State : Type := {
  input : string;
  messages : list ChatMessage;
  isLoading : bool
}.

(** [handleSend]: [hasApiKey] is whether [process.env.API_KEY] is set,
    [n] numbers the next call of [crypto.randomUUID], and [oracle] is
    what the request for a question and a context comes to. The state is
    the one after the reply has arrived. *)
Definition handleSend (env : Env) (n : nat) (hasApiKey : bool)
    (oracle : string -> Context -> Gemini.Outcome (option string))
    (summary : FinancialSummary.t) (transactions : list Transaction.t)
    (products : list Product.t) (st : State) : State :=
  if negb (Str.truthy (Str.trim (input st))) || isLoading st then st
  else if negb hasApiKey then
    {| input := input st;
       messages :=
         messages st
         ++ [ {| id := randomUUID env n; role := model;
                 text := "API Key is missing. Please set the `API_KEY` environment variable.";
                 timestamp := now env |} ];
       isLoading := isLoading st |}
  else
    let userMsg :=
      {| id := randomUUID env n; role := user; text := input st;
         timestamp := now env |} in
    let responseText :=
      Gemini.askFinancialAnalyst
        (oracle (text userMsg) (context summary transactions products)) in
    let aiMsg :=
      {| id := randomUUID env (S n); role := model; text := responseText;
         timestamp := now env |} in
    {| input := "";
       messages := (messages st ++ [userMsg]) ++ [aiMsg];
       isLoading := false |}.

End AIAnalyst.

(** ** Further predicates and sample data *)

Module Ext.

Local Open Scope string_scope.

(** The increment of [handleAddToCart]. *)
Definition plus_one (id : string) (item : CartItem.t) : CartItem.t :=
  if String.eqb (CartItem.id item) id
  then CartItem.with_quantity item (CartItem.quantity item + 1)
  else item.

(** The units of a product still available next to a cart. *)
Definition available (cart : POS.Cart) (product : Product.t) : Z :=
  fst (fst (POS.getStockStatus cart product)).

(** The two identities of the summary: gross profit is revenue less cost
    of goods sold, net profit is gross profit less expenses. *)
Definition balanced (s : FinancialSummary.t) : Prop :=
  FinancialSummary.grossProfit s
  = JS.sub (FinancialSummary.revenue s) (FinancialSummary.cogs s)
  /\ FinancialSummary.netProfit s
     = JS.sub (FinancialSummary.grossProfit s) (FinancialSummary.expenses s).

(** The events that change the state of [App]. *)
Inductive Event : Type :=
| Sale (transaction : Transaction.t)
| Import (stagedTransactions : list StagedTransaction.t)
| AddProduct (newProduct : Product.t)
| UpdateStock (productId : string) (newStock : Z)
| DeleteProduct (productId : string).

Definition apply_event (st : App.State) (ev : Event) : App.State :=
  match ev with
  | Sale transaction => App.handleTransactionComplete st transaction
  | Import stagedTransactions =>
      {| App.products := App.products st;
         App.transactions := App.transactions st;
         App.summary :=
           App.handleImportTransactions stagedTransactions (App.summary st) |}
  | AddProduct newProduct => App.handleAddProduct st newProduct
  | UpdateStock productId newStock =>
      App.handleUpdateStock st productId newStock
  | DeleteProduct productId => App.handleDeleteProduct st productId
  end.

Definition replay (events : list Event) (st : App.State) : App.State :=
  fold_left apply_event events st.

(** The transactions of the sales among the events, in order. *)
Fixpoint sales (events : list Event) : list Transaction.t :=
  match events with
  | [] => []
  | Sale transaction :: rest => transaction :: sales rest
  | _ :: rest => sales rest
  end.

(** The non-blank lines of a CSV text. *)
Definition csv_lines (text : string) : list string :=
  List.filter (fun l => negb (String.eqb (Str.trim l) ""))
              (Str.split "010" text).

(** An image file. *)
Definition photo : DataManagement.File :=
  {| DataManagement.type := "image/jpeg";
     DataManagement.name := "receipt.jpg";
     DataManagement.text := "" |}.

(** A filled-in add-product form. *)
Definition salt_form : Inventory.FormData :=
  {| Inventory.name := Some "Salt 500g";
     Inventory.sku := Some "SALT-009";
     Inventory.category := None;
     Inventory.unit := Some "Pack";
     Inventory.price := Some (JS.of_Z 5000);
     Inventory.cost := Some (JS.of_Z 3000);
     Inventory.stock := Some 40;
     Inventory.reorderPoint := None |}.

(** A chat with a question typed in. *)
Definition chat : AIAnalyst.State :=
  {| AIAnalyst.input := "Which products run low?";
     AIAnalyst.messages := [];
     AIAnalyst.isLoading := false |}.

End Ext.

(** ** The cart engine and the ledger over IEEE 754 doubles

    The handlers of [POS] and [App] once more, with every [number] of
    the source a binary64 float and [+], [-], [*], [<=], [>=], [>] the
    operations of the doubles. The catalog is what [App] holds after the
    add-product form has stored a product whose numeric fields are
    [parseFloat] of what was typed. *)

Module Double.

Import PrimFloat.

Local Open Scope string_scope.
Local Open Scope float_scope.
Local Set Warnings "-inexact-float".

(** [interface Product] *)
Module Product.
Record t : Type := mk {
  id : string;
  name : string;
  category : string;
  price : float;
  cost : float;
  stock : float;
  reorderPoint : float;
  sku : string;
  unit : string
}.

(** [{ ...product, stock: s }] *)
Definition with_stock (p : t) (s : float) : t :=
  mk (id p) (name p) (category p) (price p) (cost p) s
     (reorderPoint p) (sku p) (unit p).
End Product.

(** [interface CartItem extends Product { quantity: number }] *)
Module CartItem.
Record t : Type := mk {
  product : Product.t;
  quantity : float
}.

Definition id (i : t) : string := Product.id (product i).
Definition price (i : t) : float := Product.price (product i).

(** [{ ...item, quantity: q }] *)
Definition with_quantity (i : t) (q : float) : t := mk (product i) q.
End CartItem.

(** [interface Transaction] *)
Module Transaction.
Record t : Type := mk {
  id : string;
  date : string;
  items : list CartItem.t;
  subtotal : float;
  tax : float;
  total : float;
  paymentMethod : PaymentMethod
}.
End Transaction.

(** [interface FinancialSummary] *)
Module FinancialSummary.
Record t : Type := mk {
  revenue : float;
  cogs : float;
  grossProfit : float;
  expenses : float;
  netProfit : float
}.
End FinancialSummary.

Definition Cart : Type := list CartItem.t.

(** The toast messages of [showFeedback] that the cart handlers raise. *)
Inductive Feedback : Type :=
| OutOfStock (stock : float) (* error: Out of stock! Only ${stock} available. *)
| MaxStockReached.           (* error: Max stock reached *)

(** *** Derived state of [POS] *)

Definition subtotal (cart : Cart) : float :=
  fold_left
    (fun sum item => sum + CartItem.price item * CartItem.quantity item)
    cart 0.

(** [_sub * 0.11], PPN 11% *)
Definition tax (cart : Cart) : float := subtotal cart * 0.11.

Definition total (cart : Cart) : float := subtotal cart + tax cart.

(** *** Cart handlers of [POS] *)

(** [cart.find(i => i.id === id)] *)
Definition find_item (cart : Cart) (id : string) : option CartItem.t :=
  List.find (fun i => String.eqb (CartItem.id i) id) cart.

(** [products.find(p => p.id === id)] *)
Definition find_product (products : list Product.t) (id : string)
  : option Product.t :=
  List.find (fun p => String.eqb (Product.id p) id) products.

(** [getStockStatus(product)]: [(available, isOutOfStock, inCart)] *)
Definition getStockStatus (cart : Cart) (product : Product.t)
  : float * bool * float :=
  let inCart :=
    match find_item cart (Product.id product) with
    | Some cartItem => CartItem.quantity cartItem
    | None => 0
    end in
  let available := Product.stock product - inCart in
  (available, available <=? 0, inCart).

Definition handleAddToCart (cart : Cart) (product : Product.t)
  : Cart * option Feedback :=
  let '(available, _, _) := getStockStatus cart product in
  if available <=? 0 then (cart, Some (OutOfStock (Product.stock product)))
  else
    (match find_item cart (Product.id product) with
     | Some _ =>
         List.map
           (fun item =>
              if String.eqb (CartItem.id item) (Product.id product)
              then CartItem.with_quantity item (CartItem.quantity item + 1)
              else item)
           cart
     | None => (cart ++ [CartItem.mk product 1])%list
     end, None).

Definition handleUpdateQuantity (products : list Product.t) (cart : Cart)
    (id : string) (delta : float) : Cart * option Feedback :=
  match find_item cart id with
  | None => (cart, None)
  | Some item =>
      if (0 <? delta)
         && match find_product products id with
            | Some product => Product.stock product <=? CartItem.quantity item
            | None => false
            end
      then (cart, Some MaxStockReached)
      else
        (List.map
           (fun item =>
              if String.eqb (CartItem.id item) id then
                let newQty := CartItem.quantity item + delta in
                if 0 <? newQty then CartItem.with_quantity item newQty
                else item
              else item)
           cart, None)
  end.

Definition handleRemoveFromCart (cart : Cart) (id : string) : Cart :=
  List.filter (fun item => negb (String.eqb (CartItem.id item) id)) cart.

(** The cart operations of the specification, and the cart they leave. *)
Inductive CartOp : Type :=
| addItem (product : Product.t)
| changeQuantity (productId : string) (delta : float)
| removeItem (productId : string).

Definition apply_op (products : list Product.t) (cart : Cart) (op : CartOp)
  : Cart :=
  match op with
  | addItem product => fst (handleAddToCart cart product)
  | changeQuantity id delta => fst (handleUpdateQuantity products cart id delta)
  | removeItem id => handleRemoveFromCart cart id
  end.

Definition run (products : list Product.t) (ops : list CartOp) (cart : Cart)
  : Cart :=
  fold_left (apply_op products) ops cart.


(** *** The application root *)

Definition MOCK_PRODUCTS : list Product.t :=
  [ Product.mk "1" "Premium Rice 5kg" "Food" 65000 50000 24 10
      "RICE-001" "Bag";
    Product.mk "2" "Cooking Oil 2L" "Food" 35000 28000 8 15
      "OIL-002" "Bottle";
    Product.mk "3" "Mineral Water 600ml" "Bev" 4000 2500 150 50
      "WTR-003" "Bottle";
    Product.mk "4" "Instant Noodle Pack" "Food" 3500 2200 85 40
      "NDL-004" "Pack";
    Product.mk "5" "Dish Soap 800ml" "Clean" 15000 11000 12 5
      "SOAP-005" "Bottle";
    Product.mk "6" "Sugar 1kg" "Food" 14500 12000 30 10
      "SGR-006" "Pack";
    Product.mk "7" "Coffee Mix Pack" "Bev" 12000 9000 45 20
      "COF-007" "Pack";
    Product.mk "8" "Toothpaste Large" "Clean" 18000 13000 3 10
      "TP-008" "Tube" ].

Definition INITIAL_SUMMARY : FinancialSummary.t :=
  {| FinancialSummary.revenue := 15400000;
     FinancialSummary.cogs := 9800000;
     FinancialSummary.grossProfit := 5600000;
     FinancialSummary.expenses := 2100000;
     FinancialSummary.netProfit := 3500000 |}.

Record State : Type := {
  products : list Product.t;
  transactions : list Transaction.t;
  summary : FinancialSummary.t
}.

(** [transaction.items.find(item => item.id === product.id)] *)
Definition find_sold (items : list CartItem.t) (product : Product.t)
  : option CartItem.t :=
  List.find
    (fun item => String.eqb (CartItem.id item) (Product.id product)) items.

(** The [products.map(...)] of [handleTransactionComplete], with the
    variable [transactionCost] threaded through the traversal. *)
Fixpoint reduce_stock (items : list CartItem.t) (products : list Product.t)
    (transactionCost : float) : list Product.t * float :=
  match products with
  | [] => ([], transactionCost)
  | product :: rest =>
      match find_sold items product with
      | Some soldItem =>
          let '(updated, cost) :=
            reduce_stock items rest
              (transactionCost
               + Product.cost product * CartItem.quantity soldItem) in
          (Product.with_stock product
             (Product.stock product - CartItem.quantity soldItem)
             :: updated, cost)
      | None =>
          let '(updated, cost) := reduce_stock items rest transactionCost in
          (product :: updated, cost)
      end
  end.

(** The final value of the variable [transactionCost]. *)
Definition transactionCost (products : list Product.t)
    (transaction : Transaction.t) : float :=
  snd (reduce_stock (Transaction.items transaction) products 0).

Definition handleTransactionComplete (st : State)
    (transaction : Transaction.t) : State :=
  let '(updatedProducts, transactionCost) :=
    reduce_stock (Transaction.items transaction) (products st) 0 in
  let newRevenue := Transaction.subtotal transaction in
  let newGrossProfit := newRevenue - transactionCost in
  let prev := summary st in
  {| products := updatedProducts;
     transactions := (transactions st ++ [transaction])%list;
     summary :=
       {| FinancialSummary.revenue :=
            FinancialSummary.revenue prev + newRevenue;
          FinancialSummary.cogs :=
            FinancialSummary.cogs prev + transactionCost;
          FinancialSummary.grossProfit :=
            FinancialSummary.grossProfit prev + newGrossProfit;
          FinancialSummary.expenses := FinancialSummary.expenses prev;
          FinancialSummary.netProfit :=
            FinancialSummary.netProfit prev + newGrossProfit |} |}.

(** [setProducts(prev => [newProduct, ...prev])] *)
Definition handleAddProduct (st : State) (newProduct : Product.t) : State :=
  {| products := newProduct :: products st;
     transactions := transactions st;
     summary := summary st |}.

Definition initial : State :=
  {| products := MOCK_PRODUCTS;
     transactions := [];
     summary := INITIAL_SUMMARY |}.

(** *** Sample data *)

(** Flour sold by weight, as the add-product form builds it from the
    name, the SKU, the unit [Kg], the price 12000, the cost 9500 and the
    stock 2.5, and the catalog once it is added. *)
Definition flour : Product.t :=
  Product.mk "3f2b8c1e-5d4a-4e6b-9a7c-1d2e3f4a5b6c" "Wheat Flour" "Food" 12000 9500 2.5 10
    "FLR-009" "Kg".

Definition catalog : list Product.t := products (handleAddProduct initial flour).






(** The sample cart of [Samples], two bags of rice and three bottles of
    oil, as five additions build it over the mock catalog. *)
Definition rice : Product.t := List.nth 0 MOCK_PRODUCTS flour.
Definition oil : Product.t := List.nth 1 MOCK_PRODUCTS flour.

Definition cart : Cart :=
  run MOCK_PRODUCTS
    [addItem rice; addItem rice; addItem oil; addItem oil; addItem oil] [].

End Double.

(* ================================================================== *)
(** * Part II: properties *)
(* ================================================================== *)

(** ** Arithmetic of [JS.number] *)

Module JSFacts.
Import JS.

Lemma eqb_eq (a b : number) : eqb a b = true -> a = b.
Proof.
  destruct a as [|x|s], b as [|y|t]; simpl; try discriminate; auto.
  - intros H. f_equal. apply Qc_is_canon. now apply Qeq_bool_iff.
  - intros H. f_equal. now apply Bool.eqb_prop.
Qed.

Lemma add_comm (a b : number) : add a b = add b a.
Proof.
  destruct a as [|x|s], b as [|y|t]; simpl; auto.
  - f_equal. ring.
  - destruct s, t; reflexivity.
Qed.

Lemma add_assoc (a b c : number) : add a (add b c) = add (add a b) c.
Proof.
  destruct a as [|x|s], b as [|y|t], c as [|z|u]; simpl; auto;
    try (f_equal; ring);
    repeat match goal with b : bool |- _ => destruct b end; reflexivity.
Qed.

Lemma add_zero_r (a : number) : add a zero = a.
Proof. destruct a; simpl; auto. f_equal. ring. Qed.

Lemma add_zero_l (a : number) : add zero a = a.
Proof. rewrite add_comm. apply add_zero_r. Qed.

(** Swapping the last two of three summands. *)
Lemma add_swap (a b c : number) : add (add a b) c = add (add a c) b.
Proof. now rewrite <- !add_assoc, (add_comm b c). Qed.

(** A left fold of [add] is the accumulator plus the sum of the list. *)
Lemma fold_left_add {A : Type} (f : A -> number) (l : list A) (acc : number) :
  fold_left (fun s x => add s (f x)) l acc = add acc (sum (List.map f l)).
Proof.
  revert acc. induction l as [|x l IH]; intros acc; simpl.
  - now rewrite add_zero_r.
  - now rewrite IH, add_assoc.
Qed.

Lemma sum_app (l1 l2 : list number) : sum (l1 ++ l2) = add (sum l1) (sum l2).
Proof.
  induction l1 as [|x l1 IH].
  - change (sum l2 = add zero (sum l2)). now rewrite add_zero_l.
  - change (add x (sum (l1 ++ l2)) = add (add x (sum l1)) (sum l2)).
    now rewrite IH, add_assoc.
Qed.

(** [x + x * 0.11 = x * 1.11], also at [NaN] and the infinities. *)
Lemma add_tax (a : number) :
  add a (mul a (lit 11 100)) = mul a (lit 111 100).
Proof.
  destruct a as [|x|s]; simpl; auto.
  - f_equal.
    replace (Q2Qc (111 # 100)) with (1 + Q2Qc (11 # 100))%Qc
      by (apply Qc_is_canon; reflexivity).
    ring.
  - destruct s; reflexivity.
Qed.

Lemma leb_Num (x y : Qc) : leb (Num x) (Num y) = true <-> (x <= y)%Qc.
Proof.
  simpl. rewrite Qcle_alt.
  destruct (x ?= y)%Qc; split; congruence.
Qed.

Lemma leb_le (a b : number) : leb a b = true <-> le a b.
Proof.
  destruct a as [|x|s], b as [|y|t]; try (simpl; split; [discriminate|tauto]).
  - apply leb_Num.
  - simpl. destruct t; simpl; split; congruence.
  - simpl. destruct s; simpl; split; congruence.
  - simpl. destruct s, t; simpl; split; try tauto; try congruence.
    intros [H|H]; discriminate.
Qed.

Lemma ltb_Num (x y : Qc) : ltb (Num x) (Num y) = true <-> (x < y)%Qc.
Proof.
  simpl. rewrite Qclt_alt.
  destruct (x ?= y)%Qc; split; congruence.
Qed.

Lemma ltb_leb_Num (x y : Qc) : ltb (Num x) (Num y) = negb (leb (Num y) (Num x)).
Proof.
  destruct (ltb (Num x) (Num y)) eqn:Hlt, (leb (Num y) (Num x)) eqn:Hle;
    simpl; auto.
  - apply ltb_Num in Hlt. apply leb_Num in Hle.
    now apply Qclt_not_le in Hlt.
  - exfalso.
    assert (~ (x < y)%Qc) as H1 by (rewrite <- ltb_Num; congruence).
    assert (~ (y <= x)%Qc) as H2 by (rewrite <- leb_Num; congruence).
    apply H2. now apply Qcnot_lt_le.
Qed.

Lemma sub_nonneg (x y : Qc) : (y <= x)%Qc <-> (0 <= x - y)%Qc.
Proof. unfold Qcminus. apply Qcle_minus_iff. Qed.

(** When [r >= t], flooring [r - t] at zero changes nothing. *)
Lemma max_zero_Num (d : Qc) : (0 <= d)%Qc -> max zero (Num d) = Num d.
Proof.
  intros H. unfold max, zero.
  destruct (ltb (Num 0%Qc) (Num d)) eqn:E; [reflexivity|].
  f_equal. apply Qcle_antisym; [exact H|].
  apply Qcnot_lt_le. rewrite <- ltb_Num. congruence.
Qed.

Lemma max_sub_of_geb (r t : number) :
  geb r t = true -> max zero (sub r t) = sub r t.
Proof.
  unfold geb.
  destruct r as [|x|s], t as [|y|u]; try discriminate.
  - intros H. apply leb_Num in H.
    change (sub (Num x) (Num y)) with (Num (x - y)%Qc).
    apply max_zero_Num. exact (proj1 (sub_nonneg x y) H).
  - destruct u; [reflexivity | discriminate].
  - destruct s; [discriminate | reflexivity].
  - destruct s, u; try discriminate; reflexivity.
Qed.

(** [x || 0] for a finite [x] is [x]: a 0 is replaced by 0. *)
Lemma or_else_Num (q : Qc) : or_else (Num q) zero = Num q.
Proof.
  unfold or_else, truthy, zero.
  destruct (q ?= 0)%Qc eqn:C; try reflexivity.
  f_equal. symmetry. now apply Qceq_alt.
Qed.

End JSFacts.

(** ** Strings and [parseFloat], evaluated *)

Module StrFacts.
Import Str.

Local Open Scope string_scope.

Example parseFloat_decimal :
  JS.eqb (parseFloat "65000") (JS.of_Z 65000) = true
  /\ JS.eqb (parseFloat "5.000") (JS.of_Z 5) = true
  /\ JS.eqb (parseFloat "  -12.5e-1 kg") (JS.lit (-5) 4) = true
  /\ JS.eqb (parseFloat ".5e1") (JS.of_Z 5) = true
  /\ JS.eqb (parseFloat "5.") (JS.of_Z 5) = true
  /\ JS.eqb (parseFloat "5e") (JS.of_Z 5) = true.
Proof. vm_compute. repeat split. Qed.

Example parseFloat_no_number :
  parseFloat "Rp 5.000" = JS.NaN
  /\ parseFloat "" = JS.NaN
  /\ parseFloat "." = JS.NaN
  /\ parseFloat "-" = JS.NaN
  /\ parseFloat "-Infinity" = JS.Inf true.
Proof. vm_compute. repeat split. Qed.

Example split_trim_strip :
  split "," "a,b,,c," = ["a"; "b"; ""; "c"; ""]
  /\ split "," "" = [""]
  /\ trim "  Premium Rice  " = "Premium Rice"
  /\ strip_non_numeric "Rp 5.000,-" = "5.000-"
  /\ includes "unit_price" "price" = true
  /\ includes "stock" "id" = false.
Proof. vm_compute. repeat split. Qed.

Example formatHeader_snake_case :
  DataManagement.formatHeader "gaji_pokok" = "Gaji Pokok"
  /\ DataManagement.formatHeader "price" = "Price".
Proof. vm_compute. repeat split. Qed.

End StrFacts.

(** ** [parseFloat] of a decimal numeral *)

Module NumeralFacts.
Import Str.

Local Abbreviation digits := DecimalString.NilEmpty.string_of_uint.

Lemma append_empty (s : string) : String.append s EmptyString = s.
Proof.
  induction s as [|c s IH]; [reflexivity|].
  change (String c (String.append s EmptyString) = String c s).
  now rewrite IH.
Qed.

Lemma span_digits_numeral (d : Decimal.uint) :
  span_digits (digits d) = (digits d, EmptyString).
Proof.
  induction d; cbn [DecimalString.NilEmpty.string_of_uint span_digits];
    [reflexivity | ..];
    match goal with
    | |- context [is_digit ?c] => change (is_digit c) with true
    end; cbv iota; now rewrite IHd.
Qed.

Lemma digits_value_acc (d : Decimal.uint) (acc : positive) :
  digits_value (Z.pos acc) (digits d) = Z.pos (Pos.of_uint_acc d acc).
Proof.
  revert acc.
  induction d; intros acc;
    cbn [DecimalString.NilEmpty.string_of_uint digits_value Pos.of_uint_acc];
    [reflexivity | ..];
    rewrite <- IHd; f_equal;
    match goal with
    | |- context [Z.of_nat (code ?c - 48)] =>
        let v := eval vm_compute in (Z.of_nat (code c - 48)) in
        change (Z.of_nat (code c - 48)) with v
    end; lia.
Qed.

Lemma digits_value_numeral (d : Decimal.uint) :
  digits_value 0 (digits d) = Z.of_N (Pos.of_uint d).
Proof.
  induction d;
    cbn [DecimalString.NilEmpty.string_of_uint digits_value Pos.of_uint];
    [reflexivity | exact IHd | ..];
    match goal with
    | |- context [Z.of_nat (code ?c - 48)] =>
        let v := eval vm_compute in (10 * 0 + Z.of_nat (code c - 48)) in
        change (10 * 0 + Z.of_nat (code c - 48)) with v
    end; apply digits_value_acc.
Qed.

Lemma parseFloat_digits (d : Decimal.uint) :
  d <> Decimal.Nil ->
  parseFloat (digits d) = JS.of_Z (Z.of_N (Pos.of_uint d)).
Proof.
  intros Hd. unfold parseFloat.
  assert (exists c s, digits d = String c s /\ is_digit c = true
                      /\ is_space c = false
                      /\ Ascii.eqb c "-" = false /\ Ascii.eqb c "+" = false
                      /\ Ascii.eqb c "I" = false) as (c & s & Hs & Hc).
  { destruct d; [congruence | ..]; eexists; eexists;
      (split; [reflexivity | vm_compute; repeat split]). }
  pose proof (span_digits_numeral d) as Hspan.
  pose proof (digits_value_numeral d) as Hval.
  rewrite Hs in *. destruct Hc as (Hdig & Hsp & Hm & Hp & Hi).
  cbn [trimStart]. rewrite Hsp.
  assert (take_sign (String c s) = (false, String c s)) as ->.
  { unfold take_sign.
    destruct c as [[] [] [] [] [] [] [] []]; try reflexivity; discriminate. }
  assert (String.prefix "Infinity" (String c s) = false) as ->.
  { cbn [String.prefix].
    destruct (Ascii.ascii_dec "I" c) as [<-|Hne]; [discriminate|reflexivity]. }
  rewrite Hspan. cbv iota beta.
  rewrite append_empty, Hval. unfold JS.of_Z. f_equal.
  apply Q2Qc_eq_iff.
  change (take_exponent "" - Z.of_nat (String.length "")) with 0.
  change (inject_Z 10 ^ 0)%Q with 1%Q. apply Qmult_1_r.
Qed.

(** A decimal numeral parses to the number it denotes. *)
Lemma parseFloat_numeral (n : N) :
  parseFloat (Numeral.of_N n) = JS.of_Z (Z.of_N n).
Proof.
  unfold Numeral.of_N. rewrite parseFloat_digits.
  - change (Pos.of_uint (N.to_uint n)) with (N.of_uint (N.to_uint n)).
    now rewrite DecimalN.Unsigned.of_to.
  - rewrite <- (DecimalN.Unsigned.of_to n) at 1.
    rewrite DecimalN.Unsigned.to_of. apply DecimalFacts.unorm_nonnil.
Qed.

(** [parseFloat(s) || 0] of a numeral is that number again. *)
Lemma received_numeral (n : N) :
  POS.received (Numeral.of_N n) = JS.of_Z (Z.of_N n).
Proof.
  unfold POS.received. rewrite parseFloat_numeral. apply JSFacts.or_else_Num.
Qed.

Example numeral_300000 :
  Numeral.of_N 300000 = "300000"%string /\ Numeral.of_N 0 = "0"%string.
Proof. split; reflexivity. Qed.

End NumeralFacts.

(** ** The cart engine *)

Module CartFacts.
Import POS Inv.

Lemma find_item_Some (cart : Cart) (id : string) (item : CartItem.t) :
  find_item cart id = Some item -> List.In item cart /\ CartItem.id item = id.
Proof.
  unfold find_item. intros H. apply List.find_some in H.
  destruct H as [Hin He]. split; [exact Hin|]. now apply String.eqb_eq.
Qed.

Lemma find_item_None (cart : Cart) (id : string) :
  find_item cart id = None -> ~ List.In id (List.map CartItem.id cart).
Proof.
  unfold find_item. intros H Hin. apply List.in_map_iff in Hin.
  destruct Hin as [item [Hid Hin]].
  pose proof (List.find_none _ _ H item Hin) as Hf. simpl in Hf.
  rewrite Hid, String.eqb_refl in Hf. discriminate.
Qed.

(** With one line per id, the line that [find] returns is the only
    line of that id. *)
Lemma line_unique (cart : Cart) (a b : CartItem.t) :
  List.NoDup (List.map CartItem.id cart) ->
  List.In a cart -> List.In b cart -> CartItem.id a = CartItem.id b -> a = b.
Proof.
  induction cart as [|c cart IH]; simpl; [tauto|].
  intros Hnd Ha Hb Hid. inversion Hnd as [|? ? Hnotin Hnd']; subst.
  destruct Ha as [Ha|Ha], Hb as [Hb|Hb]; subst; auto.
  - exfalso. apply Hnotin. rewrite Hid. now apply List.in_map.
  - exfalso. apply Hnotin. rewrite <- Hid. now apply List.in_map.
Qed.

Lemma NoDup_snoc {A : Type} (l : list A) (a : A) :
  List.NoDup l -> ~ List.In a l -> List.NoDup (l ++ [a]).
Proof.
  induction l as [|x l IH]; simpl; intros Hnd Hnotin.
  - constructor; [tauto | constructor].
  - inversion Hnd as [|? ? Hx Hnd']; subst. constructor.
    + intros Hin. apply List.in_app_or in Hin. simpl in Hin.
      destruct Hin as [Hin|[Heq|[]]]; [tauto|]. subst. tauto.
    + apply IH; [exact Hnd' | tauto].
Qed.

(** Changing quantities keeps the ids of the lines. *)
Lemma map_ids (f : CartItem.t -> CartItem.t) (cart : Cart) :
  (forall item, CartItem.id (f item) = CartItem.id item) ->
  List.map CartItem.id (List.map f cart) = List.map CartItem.id cart.
Proof.
  intros H. rewrite List.map_map. apply List.map_ext. exact H.
Qed.

Lemma filter_ids_NoDup (f : CartItem.t -> bool) (cart : Cart) :
  List.NoDup (List.map CartItem.id cart) ->
  List.NoDup (List.map CartItem.id (List.filter f cart)).
Proof.
  induction cart as [|c cart IH]; simpl; [auto|].
  intros Hnd. inversion Hnd as [|? ? Hnotin Hnd']; subst.
  destruct (f c); simpl; [|auto].
  constructor; [|auto].
  intros Hin. apply Hnotin. apply List.in_map_iff in Hin.
  destruct Hin as [x [Hx Hin]]. apply List.filter_In in Hin.
  apply List.in_map_iff. exists x. tauto.
Qed.

Lemma handleAddToCart_ok (products : list Product.t) (cart : Cart)
    (product : Product.t) :
  find_product products (Product.id product) = Some product ->
  cart_ok products cart ->
  cart_ok products (fst (handleAddToCart cart product)).
Proof.
  intros Hcat [Hnd Hall]. unfold handleAddToCart, getStockStatus.
  destruct (find_item cart (Product.id product)) as [found|] eqn:Hfind.
  - destruct (Z.leb_spec (Product.stock product - CartItem.quantity found) 0)
      as [Hle|Hgt]; simpl; [now split|].
    apply find_item_Some in Hfind. destruct Hfind as [Hin Hid].
    split.
    + rewrite map_ids; [exact Hnd|].
      intros item. now destruct (String.eqb _ _).
    + apply List.Forall_forall. intros item' Hin'.
      apply List.in_map_iff in Hin'. destruct Hin' as [item [Heq Hitem]].
      rewrite List.Forall_forall in Hall. specialize (Hall item Hitem).
      destruct (String.eqb_spec (CartItem.id item) (Product.id product))
        as [He|Hne]; subst item'; [|exact Hall].
      assert (item = found) as ->.
      { apply (line_unique cart); auto. congruence. }
      destruct Hall as [p [Hp Hq]]. exists p. split; [exact Hp|].
      unfold CartItem.with_quantity. simpl.
      rewrite He, Hcat in Hp. inversion Hp; subst p. lia.
  - destruct (Z.leb_spec (Product.stock product - 0) 0) as [Hle|Hgt];
      simpl; [now split|].
    split.
    + rewrite List.map_app. simpl.
      apply NoDup_snoc; [exact Hnd|]. now apply find_item_None.
    + apply List.Forall_app. split; [exact Hall|].
      constructor; [|constructor].
      exists product. split; [exact Hcat|]. simpl. lia.
Qed.

Lemma handleUpdateQuantity_ok (products : list Product.t) (cart : Cart)
    (id : string) (delta : Z) :
  delta <= 1 ->
  cart_ok products cart ->
  cart_ok products (fst (handleUpdateQuantity products cart id delta)).
Proof.
  intros Hdelta [Hnd Hall]. unfold handleUpdateQuantity.
  destruct (find_item cart id) as [found|] eqn:Hfind; [|now split].
  apply find_item_Some in Hfind. destruct Hfind as [Hin Hid].
  destruct ((0 <? delta) && _) eqn:Hguard; simpl; [now split|].
  split.
  - rewrite map_ids; [exact Hnd|].
    intros item. destruct (String.eqb _ _); [|reflexivity].
    cbv zeta. now destruct (0 <? CartItem.quantity item + delta).
  - apply List.Forall_forall. intros item' Hin'.
    apply List.in_map_iff in Hin'. destruct Hin' as [item [Heq Hitem]].
    rewrite List.Forall_forall in Hall. specialize (Hall item Hitem).
    destruct (String.eqb_spec (CartItem.id item) id) as [He|Hne];
      subst item'; [|exact Hall].
    destruct (Z.ltb_spec 0 (CartItem.quantity item + delta)) as [Hpos|Hneg];
      [|exact Hall].
    assert (item = found) as ->.
    { apply (line_unique cart); auto. congruence. }
    destruct Hall as [p [Hp Hq]]. exists p. split; [exact Hp|].
    unfold CartItem.with_quantity. simpl.
    rewrite He in Hp. rewrite Hp in Hguard.
    destruct (Z.ltb_spec 0 delta) as [Hup|Hdown]; simpl in Hguard; [|lia].
    apply Z.leb_gt in Hguard. lia.
Qed.

Lemma handleRemoveFromCart_ok (products : list Product.t) (cart : Cart)
    (id : string) :
  cart_ok products cart -> cart_ok products (handleRemoveFromCart cart id).
Proof.
  intros [Hnd Hall]. unfold handleRemoveFromCart. split.
  - now apply filter_ids_NoDup.
  - apply List.Forall_forall. intros item Hin.
    apply List.filter_In in Hin. rewrite List.Forall_forall in Hall.
    apply Hall. tauto.
Qed.

Lemma apply_op_ok (products : list Product.t) (cart : Cart) (op : CartOp) :
  over_catalog products op -> unit_step op ->
  cart_ok products cart -> cart_ok products (apply_op products cart op).
Proof.
  destruct op as [product|id delta|id]; simpl; intros Hcat Hstep Hok.
  - now apply handleAddToCart_ok.
  - now apply handleUpdateQuantity_ok.
  - now apply handleRemoveFromCart_ok.
Qed.

Lemma run_ok (products : list Product.t) (ops : list CartOp) (cart : Cart) :
  List.Forall (over_catalog products) ops ->
  List.Forall unit_step ops ->
  cart_ok products cart -> cart_ok products (run products ops cart).
Proof.
  unfold run. revert cart.
  induction ops as [|op ops IH]; simpl; intros cart Hcat Hstep Hok; [auto|].
  inversion Hcat; inversion Hstep; subst.
  apply IH; auto. now apply apply_op_ok.
Qed.

(** Whatever the operations, a cart has one line per product id, and
    so has the transaction that a checkout makes of it. *)
Lemma apply_op_distinct (products : list Product.t) (cart : Cart)
    (op : CartOp) :
  List.NoDup (List.map CartItem.id cart) ->
  List.NoDup (List.map CartItem.id (apply_op products cart op)).
Proof.
  intros Hnd. destruct op as [product|id delta|id]; simpl.
  - unfold handleAddToCart, getStockStatus.
    destruct (_ <=? 0); simpl; [exact Hnd|].
    destruct (find_item cart (Product.id product)) eqn:Hfind.
    + rewrite map_ids; [exact Hnd|].
      intros item. now destruct (String.eqb _ _).
    + rewrite List.map_app. simpl.
      apply NoDup_snoc; [exact Hnd|]. now apply find_item_None.
  - unfold handleUpdateQuantity.
    destruct (find_item cart id); [|exact Hnd].
    destruct (_ && _); simpl; [exact Hnd|].
    rewrite map_ids; [exact Hnd|].
    intros item. destruct (String.eqb _ _); [|reflexivity].
    cbv zeta. now destruct (0 <? CartItem.quantity item + delta).
  - now apply filter_ids_NoDup.
Qed.

Lemma run_distinct (products : list Product.t) (ops : list CartOp)
    (cart : Cart) :
  List.NoDup (List.map CartItem.id cart) ->
  List.NoDup (List.map CartItem.id (run products ops cart)).
Proof.
  unfold run. revert cart.
  induction ops as [|op ops IH]; simpl; intros cart Hnd; [exact Hnd|].
  apply IH. now apply apply_op_distinct.
Qed.

Lemma checkout_lines_distinct (env : Env) (n : nat) (confirmed : bool)
    (products : list Product.t) (ops : list CartOp)
    (method : PaymentMethod) (cash : string)
    (st : State) (t : Transaction.t) (fb : option Feedback) :
  handleProcessPayment env n confirmed
    {| cart := run products ops [];
       paymentMethod := method; cashReceived := cash |}
  = (st, Some t, fb) ->
  List.NoDup (List.map CartItem.id (Transaction.items t)).
Proof.
  unfold handleProcessPayment. cbn [cart paymentMethod cashReceived].
  destruct (negb _); [discriminate|].
  destruct (_ && _); [discriminate|].
  intros H. inversion H; subst. cbn [Transaction.items].
  apply run_distinct. constructor.
Qed.

Lemma empty_cart_ok (products : list Product.t) : cart_ok products [].
Proof. split; constructor. Qed.

Local Abbreviation oil := Samples.oil.

(** Scenario 8 of the specification, step by step: eight additions fill
    the line, and the ninth is refused with the out-of-stock message. *)
Example ninth_addItem_rejected :
  let eight := run [oil] (List.repeat (addItem oil) 8) [] in
  eight = [CartItem.mk oil 8]
  /\ handleAddToCart eight oil = (eight, Some (OutOfStock 8)).
Proof. vm_compute. split; reflexivity. Qed.

End CartFacts.

(** ** The cart engine and the ledger over doubles *)

Module DoubleFacts.
Import PrimFloat Double.

Local Open Scope float_scope.
Local Set Warnings "-inexact-float".

(** C1 fails for a stock that is not a whole number. Flour is in the
    catalog with stock 2.5. Two [addItem] leave 2 in the cart; the third
    finds [available = 2.5 - 2 = 0.5], which the guard [available <= 0]
    lets through, and leaves the quantity 3, above the stock 2.5. The
    [+] button reaches the same cart: its guard [quantity >= stock]
    reads [2 >= 2.5]. Only the fourth addition is refused. *)
Theorem fractional_stock_exceeded :
  let cart := run catalog [addItem flour; addItem flour; addItem flour] [] in
  find_product catalog (Product.id flour) = Some flour
  /\ Product.stock flour = 2.5
  /\ run catalog [addItem flour; addItem flour] [] = [CartItem.mk flour 2]
  /\ getStockStatus [CartItem.mk flour 2] flour = (0.5, false, 2)
  /\ cart = [CartItem.mk flour 3]
  /\ run catalog
       [addItem flour; addItem flour; changeQuantity (Product.id flour) 1] []
     = cart
  /\ List.map (fun item => Product.stock flour <? CartItem.quantity item) cart
     = [true]
  /\ handleAddToCart cart flour = (cart, Some (OutOfStock 2.5)).
Proof. vm_compute. repeat split. Qed.

(** The amounts of the sample cart are the same over doubles as in exact
    arithmetic: subtotal 235000, tax 25850, total 260850; 300000 in cash
    leaves the change 39150, 260850 covers the total and 260849.99 does
    not. *)
Example sample_cart_in_doubles :
  cart = [CartItem.mk rice 2; CartItem.mk oil 3]
  /\ subtotal cart = 235000
  /\ tax cart = 25850
  /\ total cart = 260850
  /\ 300000 - total cart = 39150
  /\ (total cart <=? 260850) = true
  /\ (total cart <=? 260849.99) = false.
Proof. vm_compute. repeat split. Qed.



End DoubleFacts.

(** ** Totals, payment validity and change *)

Module CheckoutFacts.
Import POS.

Lemma fold_left_Zadd {A : Type} (f : A -> Z) (l : list A) (acc : Z) :
  fold_left (fun s x => s + f x) l acc
  = acc + fold_right Z.add 0 (List.map f l).
Proof.
  revert acc. induction l as [|x l IH]; intros acc; simpl; [lia|].
  rewrite IH. lia.
Qed.

(** C4. For every cart: the subtotal is the sum of price × quantity
    over the lines, the tax is the subtotal × 0.11, the total is the
    subtotal plus the tax, which in exact arithmetic is the subtotal
    × 1.11, and the item count is the sum of the quantities. *)
Theorem totals_of_cart (cart : Cart) :
  subtotal cart
  = JS.sum (List.map
              (fun item => JS.mul (CartItem.price item)
                                  (JS.of_Z (CartItem.quantity item)))
              cart)
  /\ tax cart = JS.mul (subtotal cart) (JS.lit 11 100)
  /\ total cart = JS.add (subtotal cart) (tax cart)
  /\ total cart = JS.mul (subtotal cart) (JS.lit 111 100)
  /\ totalItems cart = fold_right Z.add 0 (List.map CartItem.quantity cart).
Proof.
  repeat split.
  - unfold subtotal.
    rewrite (JSFacts.fold_left_add
               (fun item => JS.mul (CartItem.price item)
                                   (JS.of_Z (CartItem.quantity item)))).
    apply JSFacts.add_zero_l.
  - unfold total, tax. apply JSFacts.add_tax.
  - unfold totalItems. now rewrite fold_left_Zadd.
Qed.

(** The sample cart: 2 × 65000 + 3 × 35000 = 235000, tax 25850, total
    260850, five items. *)
Example totals_of_sample_cart :
  JS.eqb (subtotal Samples.cart) (JS.of_Z 235000) = true
  /\ JS.eqb (tax Samples.cart) (JS.of_Z 25850) = true
  /\ JS.eqb (total Samples.cart) (JS.of_Z 260850) = true
  /\ totalItems Samples.cart = 5
  /\ isAnomaly Samples.cart = false.
Proof. vm_compute. repeat split. Qed.

Lemma geb_le (a b : JS.number) : JS.geb a b = true <-> JS.le b a.
Proof. unfold JS.geb. apply JSFacts.leb_le. Qed.

Lemma isPaymentValid_cash (cart : Cart) (cashReceived : string) :
  isPaymentValid cart CASH cashReceived = true
  <-> cart <> [] /\ JS.le (total cart) (received cashReceived).
Proof.
  rewrite <- geb_le. destruct cart as [|item cart]; simpl.
  - split; [discriminate | intros [H _]; congruence].
  - split; [intros H; split; [discriminate | exact H] | tauto].
Qed.

(** C2. The payment is valid exactly when the cart is not empty and
    either the method is not CASH or the cash received, which is
    [parseFloat(cashReceived) || 0], is at least the total; with an
    empty cart it is invalid for every method and every cash input.
    When the input is the numeral of a whole number below 2^53, the cash
    received is that number; an input that is no number counts as 0. On the
    sample cart, whose total is 260850: the inputs 300000 and 260850 are
    valid, the inputs 260849.99, 0 and the empty input are not, and QRIS
    and DEBIT are valid whatever the input. *)
Theorem isPaymentValid_iff (cart : Cart) (method : PaymentMethod)
    (cashReceived : string) :
  (isPaymentValid cart method cashReceived = true
   <-> cart <> []
       /\ (method <> CASH
           \/ JS.le (total cart)
                    (JS.or_else (Str.parseFloat cashReceived) JS.zero)))
  /\ isPaymentValid [] method cashReceived = false
  /\ (forall n : N,
        (n < Numeral.exact_bound)%N ->
        (isPaymentValid cart CASH (Numeral.of_N n) = true
         <-> cart <> [] /\ JS.le (total cart) (JS.of_Z (Z.of_N n))))
  /\ (Str.parseFloat cashReceived = JS.NaN ->
      (isPaymentValid cart CASH cashReceived = true
       <-> cart <> [] /\ JS.le (total cart) JS.zero))
  /\ total Samples.cart = JS.of_Z 260850
  /\ isPaymentValid Samples.cart CASH "300000" = true
  /\ isPaymentValid Samples.cart CASH "260850" = true
  /\ isPaymentValid Samples.cart CASH "260849.99" = false
  /\ isPaymentValid Samples.cart CASH "0" = false
  /\ isPaymentValid Samples.cart CASH "" = false
  /\ isPaymentValid Samples.cart QRIS "" = true
  /\ isPaymentValid Samples.cart DEBIT "" = true.
Proof.
  split; [|split; [reflexivity|split; [|split]]].
  - change (JS.or_else (Str.parseFloat cashReceived) JS.zero)
      with (received cashReceived).
    destruct method.
    + rewrite isPaymentValid_cash. split; [intros [H1 H2]; auto|].
      intros [H1 [H2|H2]]; [congruence | auto].
    + destruct cart; simpl; split; try discriminate;
        [intros [H _]; congruence | intros _; split; [|left]; discriminate
        | reflexivity].
    + destruct cart; simpl; split; try discriminate;
        [intros [H _]; congruence | intros _; split; [|left]; discriminate
        | reflexivity].
  - intros n _. rewrite isPaymentValid_cash.
    now rewrite NumeralFacts.received_numeral.
  - intros Hnan. rewrite isPaymentValid_cash. unfold received.
    rewrite Hnan. reflexivity.
  - split; [apply JSFacts.eqb_eq; vm_compute; reflexivity|].
    vm_compute. repeat split.
Qed.

(** The sample cart totals 260850: the cash input 300000 pays it. *)
Lemma isPaymentValid_iff_witness :
  isPaymentValid Samples.cart CASH "300000" = true.
Proof.
  apply (proj2 (proj1 (proj2 (proj2 (isPaymentValid_iff
                                       Samples.cart CASH "300000")))
                  300000%N eq_refl)).
  split; [discriminate|].
  apply JSFacts.leb_le. vm_compute. reflexivity.
Defined.

Lemma isPaymentValid_cash_geb (cart : Cart) (cashReceived : string) :
  isPaymentValid cart CASH cashReceived = true ->
  JS.geb (received cashReceived) (total cart) = true.
Proof. destruct cart; simpl; [discriminate | auto]. Qed.

Lemma change_Num (cart : Cart) (cashReceived : string) (r t : Qc) :
  received cashReceived = JS.Num r -> total cart = JS.Num t ->
  ((t <= r)%Qc -> change cart CASH cashReceived = JS.Num (r - t)%Qc)
  /\ ((r < t)%Qc -> change cart CASH cashReceived = JS.zero).
Proof.
  intros Hr Ht. unfold change. rewrite Hr, Ht.
  change (JS.sub (JS.Num r) (JS.Num t)) with (JS.Num (r - t)%Qc).
  split; intros H.
  - apply JSFacts.max_zero_Num. exact (proj1 (JSFacts.sub_nonneg r t) H).
  - unfold JS.max, JS.zero.
    destruct (JS.ltb (JS.Num 0%Qc) (JS.Num (r - t)%Qc)) eqn:E;
      [|reflexivity].
    exfalso. apply JSFacts.ltb_Num in E.
    apply Qclt_le_weak in E. apply JSFacts.sub_nonneg in E.
    exact (Qclt_not_le _ _ H E).
Qed.

(** C3. With CASH the change is [max(0, received − total)], where
    [received] is [parseFloat(cashReceived) || 0]; when the payment is
    valid, that is when [received >= total], it is [received − total]
    exactly. When the input parses to a finite amount [r] and the total
    is a finite [t], the change is [r − t] for [t <= r] and 0 for
    [r < t]; so it is for the numeral of a whole number below 2^53; an
    input that is no number counts as 0. For QRIS and DEBIT the change is 0. On the
    sample cart, whose total is 260850: the input 300000 gives the
    change 39150, and the inputs 260850, 200000 and the empty input give
    0. *)
Theorem change_of_payment (cart : Cart) (cashReceived : string) :
  change cart CASH cashReceived
  = JS.max JS.zero
      (JS.sub (JS.or_else (Str.parseFloat cashReceived) JS.zero) (total cart))
  /\ (isPaymentValid cart CASH cashReceived = true ->
      change cart CASH cashReceived
      = JS.sub (JS.or_else (Str.parseFloat cashReceived) JS.zero)
               (total cart))
  /\ (forall r t : Qc,
        Str.parseFloat cashReceived = JS.Num r -> total cart = JS.Num t ->
        ((t <= r)%Qc -> change cart CASH cashReceived = JS.Num (r - t)%Qc)
        /\ ((r < t)%Qc -> change cart CASH cashReceived = JS.zero))
  /\ (forall (n : N) (t : Qc),
        (n < Numeral.exact_bound)%N ->
        total cart = JS.Num t ->
        let r := Q2Qc (inject_Z (Z.of_N n)) in
        ((t <= r)%Qc ->
         change cart CASH (Numeral.of_N n) = JS.Num (r - t)%Qc)
        /\ ((r < t)%Qc -> change cart CASH (Numeral.of_N n) = JS.zero))
  /\ (Str.parseFloat cashReceived = JS.NaN ->
      change cart CASH cashReceived
      = JS.max JS.zero (JS.sub JS.zero (total cart)))
  /\ change cart QRIS cashReceived = JS.zero
  /\ change cart DEBIT cashReceived = JS.zero
  /\ change Samples.cart CASH "300000" = JS.of_Z 39150
  /\ change Samples.cart CASH "260850" = JS.zero
  /\ change Samples.cart CASH "200000" = JS.zero
  /\ change Samples.cart CASH "" = JS.zero
  /\ change Samples.cart QRIS "300000" = JS.zero.
Proof.
  split; [reflexivity|]. split; [|split; [|split; [|split]]].
  - intros Hvalid. unfold change.
    apply JSFacts.max_sub_of_geb. now apply isPaymentValid_cash_geb.
  - intros r t Hr Ht. apply change_Num; [|exact Ht].
    unfold received. rewrite Hr. apply JSFacts.or_else_Num.
  - intros n t _ Ht r. apply change_Num; [|exact Ht].
    apply NumeralFacts.received_numeral.
  - intros Hnan. unfold change, received. now rewrite Hnan.
  - split; [reflexivity|]. split; [reflexivity|].
    repeat split; apply JSFacts.eqb_eq; vm_compute; reflexivity.
Qed.

(** The sample cart totals 260850; 300000 in cash is a valid payment,
    and the change is 39150. *)
Lemma change_of_payment_witness :
  change Samples.cart CASH "300000" = JS.of_Z 39150.
Proof.
  etransitivity.
  - apply (proj1 (proj2 (change_of_payment Samples.cart "300000"))).
    vm_compute. reflexivity.
  - apply JSFacts.eqb_eq. vm_compute. reflexivity.
Defined.

End CheckoutFacts.

(** ** The ledger: stock and financial summary *)

Module LedgerFacts.
Import App Inv.

Lemma reduce_stock_eq (items : list CartItem.t) (products : list Product.t)
    (acc : JS.number) :
  reduce_stock items products acc
  = (List.map (sold_product items) products,
     JS.add acc (JS.sum (List.map (product_cost items) products))).
Proof.
  revert acc. induction products as [|p products IH]; intros acc.
  - simpl. now rewrite JSFacts.add_zero_r.
  - cbn [reduce_stock List.map]. unfold sold_product at 1, product_cost at 1.
    destruct (find_sold items p) as [soldItem|]; rewrite IH.
    + f_equal. change (JS.sum (?x :: ?l)) with (JS.add x (JS.sum l)).
      now rewrite JSFacts.add_assoc.
    + f_equal. change (JS.sum (?x :: ?l)) with (JS.add x (JS.sum l)).
      now rewrite JSFacts.add_zero_l.
Qed.


(** A sale changes neither the id nor the cost of a product. *)
Lemma sold_product_id (items : list CartItem.t) (p : Product.t) :
  Product.id (sold_product items p) = Product.id p.
Proof. unfold sold_product. now destruct (find_sold items p). Qed.




(** *** Cost per product and cost per line *)






(** *** The properties of [handleTransactionComplete] *)

Lemma handleTransactionComplete_products (st : State) (t : Transaction.t) :
  products (handleTransactionComplete st t)
  = List.map (sold_product (Transaction.items t)) (products st).
Proof.
  unfold handleTransactionComplete. now rewrite reduce_stock_eq.
Qed.

Lemma handleTransactionComplete_summary (st : State) (t : Transaction.t) :
  summary (handleTransactionComplete st t)
  = let cost := transactionCost (products st) t in
    let profit := JS.sub (Transaction.subtotal t) cost in
    {| FinancialSummary.revenue :=
         JS.add (FinancialSummary.revenue (summary st))
                (Transaction.subtotal t);
       FinancialSummary.cogs :=
         JS.add (FinancialSummary.cogs (summary st)) cost;
       FinancialSummary.grossProfit :=
         JS.add (FinancialSummary.grossProfit (summary st)) profit;
       FinancialSummary.expenses := FinancialSummary.expenses (summary st);
       FinancialSummary.netProfit :=
         JS.add (FinancialSummary.netProfit (summary st)) profit |}.
Proof.
  unfold handleTransactionComplete, transactionCost.
  now destruct (reduce_stock (Transaction.items t) (products st) JS.zero).
Qed.

(** C5. Recording a sale whose lines have distinct product ids keeps
    the catalog's length and order; the product at each position keeps
    every field other than its stock; its stock is reduced by exactly
    the quantity of the line that refers to it; and a product to which
    no line refers is unchanged. *)
Theorem sale_reduces_stock (st : State) (t : Transaction.t) :
  List.NoDup (List.map CartItem.id (Transaction.items t)) ->
  List.length (products (handleTransactionComplete st t))
  = List.length (products st)
  /\ forall (i : nat) (p : Product.t),
      List.nth_error (products st) i = Some p ->
      exists p',
        List.nth_error (products (handleTransactionComplete st t)) i
        = Some p'
        /\ p' = Product.with_stock p (Product.stock p')
        /\ (forall line,
              List.In line (Transaction.items t) ->
              CartItem.id line = Product.id p ->
              Product.stock p' = Product.stock p - CartItem.quantity line)
        /\ ((forall line,
               List.In line (Transaction.items t) ->
               CartItem.id line <> Product.id p) ->
            p' = p).
Proof.
  intros Hnd. rewrite handleTransactionComplete_products. split.
  - apply List.length_map.
  - intros i p Hi. exists (sold_product (Transaction.items t) p).
    split; [now apply List.map_nth_error|].
    unfold sold_product, find_sold.
    destruct (List.find _ (Transaction.items t)) as [sold|] eqn:E.
    + apply List.find_some in E. destruct E as [Hin He].
      apply String.eqb_eq in He.
      split; [now destruct p|]. split.
      * intros line Hline Hid.
        assert (line = sold) as ->
          by (apply (CartFacts.line_unique (Transaction.items t));
              auto; congruence).
        reflexivity.
      * intros Hnone. exfalso. exact (Hnone sold Hin He).
    + split; [now destruct p|]. split; [|reflexivity].
      intros line Hline Hid. exfalso.
      pose proof (List.find_none _ _ E line Hline) as Hf. simpl in Hf.
      rewrite Hid, String.eqb_refl in Hf. discriminate.
Qed.

(** The sale of the sample cart takes three bottles of oil (position 1
    of the catalog) off a stock of 8. *)
Lemma sale_reduces_stock_witness :
  List.nth_error
    (products (handleTransactionComplete Samples.initial Samples.sale)) 1
  = Some (Product.with_stock Samples.oil 5).
Proof.
  destruct (sale_reduces_stock Samples.initial Samples.sale) as [_ H].
  - vm_compute. repeat constructor; simpl; intuition discriminate.
  - destruct (H 1%nat Samples.oil eq_refl) as [p' [Hp' [Hrest [Hsold _]]]].
    rewrite Hp', Hrest. do 2 f_equal.
    rewrite (Hsold (CartItem.mk Samples.oil 3)); [reflexivity| |reflexivity].
    right. left. reflexivity.
Defined.


(** The sample sale, evaluated on the initial summary: revenue
    + 235000, cost of goods + 184000, both profits + 51000. *)
Example summary_after_sample_sale :
  let after := summary (handleTransactionComplete Samples.initial Samples.sale) in
  JS.eqb (FinancialSummary.revenue after) (JS.of_Z 15635000) = true
  /\ JS.eqb (FinancialSummary.cogs after) (JS.of_Z 9984000) = true
  /\ JS.eqb (FinancialSummary.grossProfit after) (JS.of_Z 5651000) = true
  /\ JS.eqb (FinancialSummary.expenses after) (JS.of_Z 2100000) = true
  /\ JS.eqb (FinancialSummary.netProfit after) (JS.of_Z 3551000) = true
  /\ List.map Product.stock
       (products (handleTransactionComplete Samples.initial Samples.sale))
     = [22; 5; 150; 85; 12; 30; 45; 3].
Proof. vm_compute. repeat split. Qed.


End LedgerFacts.

(** ** The import screen *)

Module ImportFacts.
Import DataManagement Inv.

Local Open Scope string_scope.

Lemma sub_zero_r (a : JS.number) : JS.sub a JS.zero = a.
Proof.
  destruct a as [|x|s]; try reflexivity.
  unfold JS.sub, JS.zero. simpl. f_equal. ring.
Qed.

Lemma filter_none_valid (l : list StagedTransaction.t) :
  List.filter StagedTransaction.is_valid l = [] ->
  List.filter (fun d => negb (StagedTransaction.is_valid d)) l = l.
Proof.
  induction l as [|d l IH]; simpl; [reflexivity|].
  destruct (StagedTransaction.is_valid d); simpl; [discriminate|].
  intros H. now rewrite IH.
Qed.

Lemma filter_split_length {A : Type} (f : A -> bool) (l : list A) :
  List.length l
  = (List.length (List.filter f l)
     + List.length (List.filter (fun d => negb (f d)) l))%nat.
Proof.
  induction l as [|d l IH]; simpl; [reflexivity|].
  destruct (f d); simpl; lia.
Qed.

Lemma is_valid_iff (d : StagedTransaction.t) :
  StagedTransaction.is_valid d = true
  <-> StagedTransaction.status d = StagedTransaction.VALID.
Proof.
  unfold StagedTransaction.is_valid.
  destruct (StagedTransaction.status d); split; congruence.
Qed.

Lemma handleImportTransactions_eq (l : list StagedTransaction.t)
    (prev : FinancialSummary.t) :
  App.handleImportTransactions l prev
  = let amount := JS.sum (List.map StagedTransaction.totalAmount l) in
    {| FinancialSummary.revenue := FinancialSummary.revenue prev;
       FinancialSummary.cogs := FinancialSummary.cogs prev;
       FinancialSummary.grossProfit := FinancialSummary.grossProfit prev;
       FinancialSummary.expenses :=
         JS.add (FinancialSummary.expenses prev) amount;
       FinancialSummary.netProfit :=
         JS.sub (FinancialSummary.netProfit prev) amount |}.
Proof.
  unfold App.handleImportTransactions.
  rewrite (JSFacts.fold_left_add StagedTransaction.totalAmount).
  now rewrite JSFacts.add_zero_l.
Qed.

(** C7. A commit hands exactly the VALID records, in their order, to
    the import callback, which adds the sum of their amounts to the
    expenses and takes it off the net profit; it removes exactly those
    records from staging, so that every record that is not VALID stays
    staged; and with no VALID record it changes neither the staging
    list nor the summary and reports that there is nothing to commit. *)
Theorem commit_moves_valid_records (stagedData : list StagedTransaction.t)
    (summary : FinancialSummary.t) :
  let valid := List.filter StagedTransaction.is_valid stagedData in
  let amount := JS.sum (List.map StagedTransaction.totalAmount valid) in
  let staged' := fst (fst (commit stagedData summary)) in
  let summary' := snd (fst (commit stagedData summary)) in
  let alert := snd (commit stagedData summary) in
  (forall onImportTransactions,
      valid <> [] ->
      handleCommit onImportTransactions stagedData summary
      = (staged', onImportTransactions valid summary,
         RecordsProcessed (List.length valid)))
  /\ staged'
     = List.filter (fun d => negb (StagedTransaction.is_valid d)) stagedData
  /\ (forall d,
        List.In d staged'
        <-> List.In d stagedData
            /\ StagedTransaction.status d <> StagedTransaction.VALID)
  /\ List.length stagedData
     = (List.length valid + List.length staged')%nat
  /\ FinancialSummary.expenses summary'
     = JS.add (FinancialSummary.expenses summary) amount
  /\ FinancialSummary.netProfit summary'
     = JS.sub (FinancialSummary.netProfit summary) amount
  /\ FinancialSummary.revenue summary' = FinancialSummary.revenue summary
  /\ FinancialSummary.cogs summary' = FinancialSummary.cogs summary
  /\ FinancialSummary.grossProfit summary'
     = FinancialSummary.grossProfit summary
  /\ (valid = [] ->
      staged' = stagedData /\ summary' = summary /\ alert = NoValidData)
  /\ (valid <> [] -> alert = RecordsProcessed (List.length valid)).
Proof.
  cbv zeta. unfold commit, handleCommit.
  assert (forall d,
             List.In d (List.filter
                          (fun d => negb (StagedTransaction.is_valid d))
                          stagedData)
             <-> List.In d stagedData
                 /\ StagedTransaction.status d <> StagedTransaction.VALID)
    as Hmem.
  { intros d. rewrite List.filter_In, <- is_valid_iff.
    destruct (StagedTransaction.is_valid d); simpl; intuition congruence. }
  pose proof (filter_split_length StagedTransaction.is_valid stagedData)
    as Hlen.
  destruct (List.filter StagedTransaction.is_valid stagedData)
    as [|v valid] eqn:Hvalid.
  - rewrite (filter_none_valid _ Hvalid) in Hmem, Hlen.
    cbn [fst snd]. rewrite JSFacts.add_zero_r, sub_zero_r.
    repeat split; try reflexivity; try tauto; try apply Hmem; auto.
    now rewrite filter_none_valid.
  - cbn [fst snd]. rewrite handleImportTransactions_eq. cbv zeta.
    repeat split; try reflexivity; try discriminate; try apply Hmem; auto.
Qed.

(** Scenario 7, evaluated: the two ERROR records stay staged, and the
    expenses grow by 100 + 250 + 50. *)
Example commit_of_batch :
  let result := commit Samples.batch App.INITIAL_SUMMARY in
  List.map StagedTransaction.id (fst (fst result)) = ["b"; "d"]
  /\ FinancialSummary.expenses (snd (fst result)) = JS.of_Z 2100400
  /\ FinancialSummary.netProfit (snd (fst result)) = JS.of_Z 3499600.
Proof. vm_compute. repeat split. Qed.

(** Scenario 7: of 3 VALID and 2 ERROR records the commit processes the
    3 VALID ones. *)
Lemma commit_moves_valid_records_witness :
  snd (commit Samples.batch App.INITIAL_SUMMARY) = RecordsProcessed 3.
Proof.
  apply (commit_moves_valid_records Samples.batch App.INITIAL_SUMMARY).
  vm_compute. discriminate.
Defined.

(** *** The rules of [smartValidate] *)

Lemma nonneg_iff (num : JS.number) :
  JS.isNaN num || JS.ltb num JS.zero = false <-> JS.le JS.zero num.
Proof.
  destruct num as [|x|s]; simpl.
  - split; [discriminate | tauto].
  - change (JS.ltb (JS.Num x) (JS.Num 0%Qc) = false <-> (0 <= x)%Qc).
    rewrite JSFacts.ltb_leb_Num, Bool.negb_false_iff.
    apply JSFacts.leb_Num.
  - destruct s; simpl; split; congruence.
Qed.

Lemma truthy_false (value : option string) :
  truthy value = false <-> value = None \/ value = Some "".
Proof.
  destruct value as [[|c s]|]; simpl; split; auto; try discriminate.
  - intros [H|H]; discriminate.
Qed.

(** One header passes the tests of the loop exactly when its rules
    hold. *)
Lemma rules_hold_iff (env : Env) (row : RawRow) (key : string) :
  rules_hold env row key
  <-> (is_required_key (Str.toLowerCase key)
       && (negb (truthy (get row key))
           || match get row key with
              | Some s => String.eqb (Str.trim s) ""
              | None => false
              end) = false)
      /\ (is_numeric_key (Str.toLowerCase key)
          && (JS.isNaN (Str.parseFloat (numeric_text (get row key)))
              || JS.ltb (Str.parseFloat (numeric_text (get row key)))
                        JS.zero) = false)
      /\ (is_date_key (Str.toLowerCase key)
          && (negb (truthy (get row key))
              || match get row key with
                 | Some s => JS.isNaN (Date_parse env s)
                 | None => false
                 end) = false).
Proof.
  unfold rules_hold. cbv zeta.
  destruct (is_required_key _), (is_numeric_key _), (is_date_key _);
    cbn [andb]; rewrite ?nonneg_iff;
    destruct (get row key) as [[|c s]|]; cbn [truthy Str.truthy negb orb];
    try destruct (String.eqb_spec (Str.trim (String c s)) "");
    repeat split; intros; try tauto; try discriminate;
    repeat match goal with
           | H : _ /\ _ |- _ => destruct H
           | H : True -> _ |- _ => specialize (H I)
           | H : ?a = ?a -> _ |- _ => specialize (H eq_refl)
           | H : exists _, _ |- _ => destruct H
           | H : Some _ = Some _ |- _ => inversion H; clear H; subst
           | H : None = Some _ |- _ => discriminate H
           end;
    try congruence; try tauto; eauto.
Qed.

(** A row is VALID exactly when the rules hold for every header; the
    first header that breaks a rule makes it an ERROR. *)
Lemma smartValidate_VALID_iff (env : Env) (row : RawRow)
    (headers : list string) :
  status (smartValidate env row headers) = StagedTransaction.VALID
  <-> List.Forall (rules_hold env row) headers.
Proof.
  induction headers as [|key rest IH].
  - simpl. split; [constructor | reflexivity].
  - rewrite List.Forall_cons_iff, rules_hold_iff, <- IH.
    cbn [smartValidate]. cbv zeta.
    change (match get row key with
            | Some s => if Str.truthy s then Str.strip_non_numeric s else "0"
            | None => "0"
            end) with (numeric_text (get row key)).
    destruct (is_required_key (Str.toLowerCase key) && _);
      [simpl; split; [discriminate | intros [[? _] _]; discriminate]|].
    destruct (is_numeric_key (Str.toLowerCase key) && _);
      [simpl; split; [discriminate | intros [[_ [? _]] _]; discriminate]|].
    destruct (is_date_key (Str.toLowerCase key) && _);
      [simpl; split; [discriminate | intros [[_ [_ ?]] _]; discriminate]|].
    tauto.
Qed.

Lemma smartValidate_status (env : Env) (row : RawRow)
    (headers : list string) :
  let v := smartValidate env row headers in
  (status v = StagedTransaction.VALID /\ error v = None)
  \/ (status v = StagedTransaction.ERROR /\ exists reason, error v = Some reason).
Proof.
  induction headers as [|key rest IH]; cbn [smartValidate]; cbv zeta.
  - left. now split.
  - repeat match goal with
           | |- context [if ?c then invalid _ else _] =>
               destruct c; [right; simpl; eauto|]
           end.
    exact IH.
Qed.

(** C8. Under the headers sku, name, price, stock, the row
    [RICE-005,Premium Rice,65000,24] validates as VALID, and the same
    row with price [-5] validates as ERROR with the reason
    [Invalid number in Price], which cites the price column; the upload
    of a CSV file with these two rows stages them so. No date is parsed
    on the way, so this holds in every environment. In general a row is
    VALID exactly when, for every header, an identifier-like header has
    a non-blank cell, an amount-like header has a cell that parses to a
    non-negative number once its non-numeric characters are stripped,
    and a date-like header has a cell that parses as a date. *)
Theorem smartValidate_rice_row (env : Env) :
  smartValidate env (row_of Samples.rice_headers Samples.rice_line)
                Samples.rice_headers
  = {| status := StagedTransaction.VALID; error := None |}
  /\ smartValidate env
       (row_of Samples.rice_headers Samples.rice_line_negative)
       Samples.rice_headers
     = {| status := StagedTransaction.ERROR;
          error := Some "Invalid number in Price" |}
  /\ List.map
       (fun d => (StagedTransaction.status d,
                  StagedTransaction.validationError d))
       (stagedData (upload_csv env Samples.rice_csv))
     = [ (StagedTransaction.VALID, None);
         (StagedTransaction.ERROR, Some "Invalid number in Price") ]
  /\ (forall (row : RawRow) (headers : list string),
        status (smartValidate env row headers) = StagedTransaction.VALID
        <-> List.Forall (rules_hold env row) headers).
Proof.
  split; [|split; [|split]].
  - vm_compute. reflexivity.
  - vm_compute. reflexivity.
  - vm_compute. reflexivity.
  - intros row headers. apply smartValidate_VALID_iff.
Qed.

Lemma is_amount_header_numeric (h : string) :
  is_amount_header h = true -> is_numeric_key (Str.toLowerCase h) = true.
Proof.
  unfold is_amount_header, is_numeric_key.
  destruct (Str.includes _ "amount"), (Str.includes _ "total"),
    (Str.includes _ "gaji"), (Str.includes _ "price"),
    (Str.includes _ "salary"); simpl; auto.
Qed.

(** C10. The amount that a CSV row commits is [parseFloat] of the raw
    cell of the first amount-like column, non-numeric characters
    included: [parseFloat(raw) || 0], hence the number that the numeral
    of a whole number below 2^53 denotes, and 0 when the parse fails,
    when the line has no such cell, or when no column is amount-like. Validation instead parses
    the cell stripped of its non-numeric characters: for a VALID row
    that stripped text is a non-negative number. In the sample file of
    the rice rows the two amounts staged are 65000 and -5. The two
    readings disagree on the row [Rent,Rp 5.000] under the headers
    name, amount: it is VALID, its stripped amount parses to 5, and it
    is staged with [totalAmount] 0, so that its commit adds 0 to the
    expenses. *)
Theorem csv_amount_parsed_unstripped (env : Env) (headers : list string)
    (n : nat) (line : string) :
  let d := parse_line env headers n line in
  let row := row_of headers line in
  (List.find is_amount_header headers = None ->
   StagedTransaction.totalAmount d = JS.zero)
  /\ (forall k,
        List.find is_amount_header headers = Some k ->
        (get row k = None -> StagedTransaction.totalAmount d = JS.zero)
        /\ (forall raw,
              get row k = Some raw ->
              StagedTransaction.totalAmount d
              = JS.or_else (Str.parseFloat raw) JS.zero
              /\ (Str.parseFloat raw = JS.NaN ->
                  StagedTransaction.totalAmount d = JS.zero)
              /\ (forall q : Qc,
                    Str.parseFloat raw = JS.Num q ->
                    StagedTransaction.totalAmount d = JS.Num q)
              /\ (forall m : N,
                    (m < Numeral.exact_bound)%N ->
                    raw = Numeral.of_N m ->
                    StagedTransaction.totalAmount d = JS.of_Z (Z.of_N m)))
        /\ (StagedTransaction.status d = StagedTransaction.VALID ->
            JS.le JS.zero (Str.parseFloat (numeric_text (get row k)))))
  /\ (let staged := stagedData (upload_csv env Samples.rice_csv) in
      List.map StagedTransaction.totalAmount staged
      = [JS.of_Z 65000; JS.of_Z (-5)]
      /\ List.map StagedTransaction.status staged
         = [StagedTransaction.VALID; StagedTransaction.ERROR])
  /\ (let staged := stagedData (upload_csv env Samples.rent_csv) in
      List.map StagedTransaction.status staged = [StagedTransaction.VALID]
      /\ List.map StagedTransaction.totalAmount staged = [JS.zero]
      /\ List.map
           (fun d =>
              match StagedTransaction.rawParams d with
              | StagedTransaction.OfRow rawRow => get rawRow "amount"
              | StagedTransaction.OfOcr _ => None
              end) staged = [Some "Rp 5.000"]
      /\ Str.parseFloat (numeric_text (Some "Rp 5.000")) = JS.of_Z 5
      /\ Str.parseFloat "Rp 5.000" = JS.NaN
      /\ FinancialSummary.expenses
           (snd (fst (commit staged App.INITIAL_SUMMARY)))
         = FinancialSummary.expenses App.INITIAL_SUMMARY).
Proof.
  cbv zeta. split; [|split; [|split]].
  - intros Hnone. unfold parse_line. cbn [StagedTransaction.totalAmount].
    now rewrite Hnone.
  - intros k Hk.
    assert (StagedTransaction.totalAmount (parse_line env headers n line)
            = JS.or_else (parseFloat_cell (get (row_of headers line) k))
                         JS.zero) as Hamount.
    { unfold parse_line. cbn [StagedTransaction.totalAmount].
      now rewrite Hk. }
    split; [|split].
    + intros Hcell. rewrite Hamount, Hcell. reflexivity.
    + intros raw Hcell. rewrite Hamount, Hcell. cbn [parseFloat_cell].
      split; [reflexivity|]. split; [|split].
      * now intros ->.
      * intros q ->. apply JSFacts.or_else_Num.
      * intros m _ ->. rewrite NumeralFacts.parseFloat_numeral.
        apply JSFacts.or_else_Num.
    + intros Hvalid. unfold parse_line in Hvalid.
      cbn [StagedTransaction.status] in Hvalid.
      apply smartValidate_VALID_iff in Hvalid.
      rewrite List.Forall_forall in Hvalid.
      apply List.find_some in Hk. destruct Hk as [Hin Hamount'].
      apply (Hvalid k Hin). now apply is_amount_header_numeric.
  - split; [|vm_compute; reflexivity].
    change (List.map StagedTransaction.totalAmount
              (stagedData (upload_csv env Samples.rice_csv)))
      with [StagedTransaction.totalAmount
              (parse_line env Samples.rice_headers 0 Samples.rice_line);
            StagedTransaction.totalAmount
              (parse_line env Samples.rice_headers 1
                          Samples.rice_line_negative)].
    apply (f_equal2 cons); [|apply (f_equal2 cons); [|reflexivity]];
      apply JSFacts.eqb_eq; vm_compute; reflexivity.
  - repeat split; try (vm_compute; reflexivity).
    apply JSFacts.eqb_eq. vm_compute. reflexivity.
Qed.

(** The first row of the sample file: its price cell is the numeral
    65000, and 65000 is the amount staged. *)
Lemma csv_amount_parsed_unstripped_witness :
  StagedTransaction.totalAmount
    (parse_line Samples.env Samples.rice_headers 0 Samples.rice_line)
  = JS.of_Z 65000.
Proof.
  apply (proj2 (proj2 (proj2
           (proj1 (proj2 (proj1 (proj2
              (csv_amount_parsed_unstripped
                 Samples.env Samples.rice_headers 0 Samples.rice_line))
              "price" eq_refl))
              "65000" eq_refl)))
           65000%N eq_refl eq_refl).
Defined.

(** *** The image branch *)

Lemma upload_image_no_error (env : Env) (result : OcrResult.t) :
  truthy (OcrResult.error result) = false ->
  upload_image env result
  = {| stagedData := [newStaged env result]; dynamicHeaders := None;
       alert := None |}.
Proof.
  unfold upload_image.
  destruct (OcrResult.error result) as [[|c e]|]; try discriminate; auto.
Qed.

Lemma upload_image_error (env : Env) (result : OcrResult.t) :
  truthy (OcrResult.error result) = true ->
  exists message,
    OcrResult.error result = Some message
    /\ upload_image env result
       = {| stagedData := []; dynamicHeaders := None;
            alert := Some (AIAnalysisFailed message) |}.
Proof.
  unfold upload_image.
  destruct (OcrResult.error result) as [[|c e]|]; try discriminate.
  intros _. now exists (String c e).
Qed.

(** C9 (amended). An oracle response without an error message stages
    exactly one record and raises no alert: the record is VALID exactly
    when the response has a total that is a number other than 0 and a
    date that is a non-empty string, and otherwise it is ERROR with the
    reason [AI could not extract Total or Date]. A response with an
    error message stages no record: the message is shown in an alert
    and the staging list stays empty. *)
Theorem ocr_upload_stages (env : Env) (file : File) (result : OcrResult.t) :
  Str.includes (type file) "image" = true ->
  let upload := handleFileUpload env file result in
  (truthy (OcrResult.error result) = false ->
   exists d,
     stagedData upload = [d]
     /\ alert upload = None
     /\ StagedTransaction.source d = StagedTransaction.AI_OCR
     /\ (StagedTransaction.status d = StagedTransaction.VALID
         <-> truthy_number (OcrResult.total result) = true
             /\ truthy (OcrResult.date result) = true)
     /\ (StagedTransaction.status d = StagedTransaction.VALID ->
         StagedTransaction.validationError d = None)
     /\ (StagedTransaction.status d <> StagedTransaction.VALID ->
         StagedTransaction.status d = StagedTransaction.ERROR
         /\ StagedTransaction.validationError d
            = Some "AI could not extract Total or Date"))
  /\ (truthy (OcrResult.error result) = true ->
      stagedData upload = []
      /\ exists message,
           OcrResult.error result = Some message
           /\ alert upload = Some (AIAnalysisFailed message)).
Proof.
  intros Himage. cbv zeta. unfold handleFileUpload. rewrite Himage. split.
  - intros Herr. rewrite (upload_image_no_error env result Herr).
    exists (newStaged env result).
    split; [reflexivity|]. split; [reflexivity|]. split; [reflexivity|].
    unfold newStaged.
    cbn [StagedTransaction.status StagedTransaction.validationError].
    unfold isValid.
    destruct (truthy_number (OcrResult.total result)),
      (truthy (OcrResult.date result)); simpl;
      repeat split; intros; try congruence; try tauto;
      try (destruct H; congruence).
  - intros Herr.
    destruct (upload_image_error env result Herr) as [message [Hm ->]].
    split; [reflexivity|]. now exists message.
Qed.

(** A complete receipt is staged as one VALID record. *)
Lemma ocr_upload_stages_witness :
  exists d,
    stagedData
      (handleFileUpload Samples.env
         {| type := "image/png"; name := "receipt.png"; text := "" |}
         Samples.receipt) = [d]
    /\ StagedTransaction.status d = StagedTransaction.VALID.
Proof.
  destruct (ocr_upload_stages Samples.env
              {| type := "image/png"; name := "receipt.png"; text := "" |}
              Samples.receipt) as [H _].
  - vm_compute. reflexivity.
  - destruct H as [d [Hd [_ [_ [Hvalid _]]]]]; [vm_compute; reflexivity|].
    exists d. split; [exact Hd|]. apply Hvalid. split; vm_compute; reflexivity.
Defined.

(** C9 as stated fails twice. An oracle-level error stages no record
    at all, where the claim has a single ERROR record carrying the
    message; and a response in which both total and date are present,
    the total being 0, is staged as ERROR, where the claim has VALID. *)
Lemma ocr_error_stages_nothing :
  (let upload :=
     handleFileUpload Samples.env
       {| type := "image/png"; name := "receipt.png"; text := "" |}
       Samples.invalid_document in
   stagedData upload = []
   /\ alert upload = Some (AIAnalysisFailed "Invalid Document"))
  /\ (OcrResult.total Samples.free_receipt = Some JS.zero
      /\ OcrResult.date Samples.free_receipt = Some "2024-01-05"
      /\ List.map
           (fun d => (StagedTransaction.status d,
                      StagedTransaction.validationError d))
           (stagedData
              (handleFileUpload Samples.env
                 {| type := "image/png"; name := "receipt.png"; text := "" |}
                 Samples.free_receipt))
         = [(StagedTransaction.ERROR,
             Some "AI could not extract Total or Date")]).
Proof. vm_compute. repeat split. Qed.

End ImportFacts.

(** ** More of the cart engine and the POS screen *)

Module POSFacts.
Import POS Inv Ext.

Local Open Scope string_scope.
Local Open Scope Z_scope.

Lemma find_item_filter (cart : Cart) (id id' : string) :
  find_item (handleRemoveFromCart cart id) id'
  = if String.eqb id' id then None else find_item cart id'.
Proof.
  unfold find_item, handleRemoveFromCart.
  induction cart as [|item cart IH]; simpl.
  - now destruct (String.eqb id' id).
  - destruct (String.eqb_spec (CartItem.id item) id) as [He|Hne]; simpl.
    + rewrite IH.
      destruct (String.eqb_spec id' id) as [He'|Hne']; [reflexivity|].
      destruct (String.eqb_spec (CartItem.id item) id'); [congruence|].
      reflexivity.
    + destruct (String.eqb_spec (CartItem.id item) id') as [He'|Hne'].
      * destruct (String.eqb_spec id' id); [congruence | reflexivity].
      * exact IH.
Qed.

(** X1. After [handleRemoveFromCart] no line of the removed id is left,
    whatever the cart held, and the line found for any other id is the
    one found before. *)
Theorem remove_then_find (cart : Cart) (id : string) :
  find_item (handleRemoveFromCart cart id) id = None
  /\ (forall item,
        List.In item (handleRemoveFromCart cart id) ->
        List.In item cart /\ CartItem.id item <> id)
  /\ (forall id',
        id' <> id ->
        find_item (handleRemoveFromCart cart id) id' = find_item cart id').
Proof.
  split; [|split].
  - now rewrite find_item_filter, String.eqb_refl.
  - intros item Hin. unfold handleRemoveFromCart in Hin.
    apply List.filter_In in Hin. destruct Hin as [Hin Hne].
    split; [exact Hin|]. intros He. rewrite He, String.eqb_refl in Hne.
    discriminate.
  - intros id' Hne. rewrite find_item_filter.
    now destruct (String.eqb_spec id' id).
Qed.

Lemma apply_op_positive (products : list Product.t) (cart : Cart)
    (op : CartOp) :
  List.Forall (fun item => 1 <= CartItem.quantity item) cart ->
  List.Forall (fun item => 1 <= CartItem.quantity item)
              (apply_op products cart op).
Proof.
  intros Hall. destruct op as [product|id delta|id]; simpl.
  - unfold handleAddToCart. destruct (getStockStatus cart product) as [[a o] c].
    destruct (a <=? 0); simpl; [exact Hall|].
    destruct (find_item cart (Product.id product)).
    + apply List.Forall_forall. intros item' Hin.
      apply List.in_map_iff in Hin. destruct Hin as [item [<- Hin]].
      rewrite List.Forall_forall in Hall. specialize (Hall item Hin).
      destruct (String.eqb _ _); simpl; lia.
    + apply List.Forall_app. split; [exact Hall|].
      constructor; [simpl; lia | constructor].
  - unfold handleUpdateQuantity.
    destruct (find_item cart id); [|exact Hall].
    destruct (_ && _); simpl; [exact Hall|].
    apply List.Forall_forall. intros item' Hin.
    apply List.in_map_iff in Hin. destruct Hin as [item [<- Hin]].
    rewrite List.Forall_forall in Hall. specialize (Hall item Hin).
    destruct (String.eqb _ _); [|exact Hall]. cbv zeta.
    destruct (Z.ltb_spec 0 (CartItem.quantity item + delta)); simpl; lia.
  - unfold handleRemoveFromCart. apply List.Forall_forall.
    intros item Hin. apply List.filter_In in Hin.
    rewrite List.Forall_forall in Hall. apply Hall. tauto.
Qed.

(** X2. Whatever the operations, also quantity changes by any amount and
    additions of products foreign to the catalog, every line of a cart
    built from the empty cart has a quantity of at least 1: a change that
    would bring a line to 0 or below is not applied. *)
Theorem cart_quantities_positive (products : list Product.t)
    (ops : list CartOp) (item : CartItem.t) :
  List.In item (run products ops []) -> 1 <= CartItem.quantity item.
Proof.
  assert (forall cart,
             List.Forall (fun item => 1 <= CartItem.quantity item) cart ->
             List.Forall (fun item => 1 <= CartItem.quantity item)
                         (run products ops cart)) as H.
  { unfold run. induction ops as [|op ops IH]; simpl; intros cart Hall;
      [exact Hall|].
    apply IH. now apply apply_op_positive. }
  intros Hin. specialize (H [] (List.Forall_nil _)).
  rewrite List.Forall_forall in H. exact (H item Hin).
Qed.

Lemma cart_quantities_positive_witness :
  1 <= CartItem.quantity (CartItem.mk Samples.oil 1).
Proof.
  apply (cart_quantities_positive [Samples.oil]
           [addItem Samples.oil; changeQuantity "2" (-5)]).
  vm_compute. left. reflexivity.
Defined.

Lemma plus_one_absent (id : string) (cart : Cart) :
  ~ List.In id (List.map CartItem.id cart) ->
  List.map (plus_one id) cart = cart.
Proof.
  induction cart as [|c cart IH]; simpl; intros Hnotin; [reflexivity|].
  unfold plus_one at 1.
  destruct (String.eqb_spec (CartItem.id c) id); [tauto|].
  rewrite IH; tauto.
Qed.

Lemma plus_one_total (id : string) (cart : Cart) (found : CartItem.t) :
  List.NoDup (List.map CartItem.id cart) ->
  find_item cart id = Some found ->
  fold_right Z.add 0 (List.map CartItem.quantity (List.map (plus_one id) cart))
  = fold_right Z.add 0 (List.map CartItem.quantity cart) + 1.
Proof.
  unfold find_item.
  induction cart as [|c cart IH]; simpl; intros Hnd Hfind; [discriminate|].
  inversion Hnd as [|? ? Hnotin Hnd']; subst. unfold plus_one at 1.
  destruct (String.eqb_spec (CartItem.id c) id) as [He|Hne].
  - rewrite plus_one_absent by (now rewrite <- He). simpl. lia.
  - rewrite IH by assumption. lia.
Qed.

Lemma find_item_plus_one (id : string) (cart : Cart) :
  find_item (List.map (plus_one id) cart) id
  = option_map (plus_one id) (find_item cart id).
Proof.
  unfold find_item. induction cart as [|c cart IH]; simpl; [reflexivity|].
  unfold plus_one at 1 3.
  destruct (String.eqb_spec (CartItem.id c) id) as [He|Hne]; simpl.
  - unfold CartItem.id in *. simpl. rewrite He, String.eqb_refl. reflexivity.
  - destruct (String.eqb_spec (CartItem.id c) id); [tauto | exact IH].
Qed.

Lemma find_item_snoc (cart : Cart) (item : CartItem.t) :
  find_item cart (CartItem.id item) = None ->
  find_item (cart ++ [item])%list (CartItem.id item) = Some item.
Proof.
  unfold find_item. induction cart as [|c cart IH]; simpl.
  - now rewrite String.eqb_refl.
  - destruct (String.eqb (CartItem.id c) (CartItem.id item));
      [discriminate | exact IH].
Qed.

(** X3. On a cart with one line per product, [handleAddToCart] of a
    product with units available adds exactly one unit: the item count
    grows by 1, the availability of the product drops by 1, and no toast
    is shown. With no unit available the cart is returned as it is,
    together with the out-of-stock toast. *)
Theorem add_one_unit (cart : Cart) (product : Product.t) :
  List.NoDup (List.map CartItem.id cart) ->
  (0 < available cart product ->
   totalItems (fst (handleAddToCart cart product)) = totalItems cart + 1
   /\ available (fst (handleAddToCart cart product)) product
      = available cart product - 1
   /\ snd (handleAddToCart cart product) = None)
  /\ (available cart product <= 0 ->
      handleAddToCart cart product
      = (cart, Some (OutOfStock (Product.stock product)))).
Proof.
  intros Hnd.
  assert (forall c, totalItems c
                    = fold_right Z.add 0 (List.map CartItem.quantity c)) as Ht.
  { intros c. unfold totalItems. rewrite CheckoutFacts.fold_left_Zadd. lia. }
  rewrite !Ht.
  unfold available, handleAddToCart, getStockStatus. cbn [fst snd].
  destruct (find_item cart (Product.id product)) as [found|] eqn:Hfind.
  - split; intros Hav.
    + destruct (Z.leb_spec (Product.stock product - CartItem.quantity found) 0);
        [lia|]. cbn [fst snd].
      change (List.map
                (fun item =>
                   if String.eqb (CartItem.id item) (Product.id product)
                   then CartItem.with_quantity item (CartItem.quantity item + 1)
                   else item) cart)
        with (List.map (plus_one (Product.id product)) cart).
      rewrite (plus_one_total _ _ found Hnd Hfind).
      rewrite find_item_plus_one, Hfind. cbn [option_map].
      apply CartFacts.find_item_Some in Hfind. destruct Hfind as [_ Hid].
      unfold plus_one. rewrite Hid, String.eqb_refl. simpl.
      repeat split; lia.
    + destruct (Z.leb_spec (Product.stock product - CartItem.quantity found) 0);
        [reflexivity | lia].
  - split; intros Hav.
    + destruct (Z.leb_spec (Product.stock product - 0) 0); [lia|].
      cbn [fst snd].
      pose proof (find_item_snoc cart (CartItem.mk product 1) Hfind) as Hs.
      change (CartItem.id (CartItem.mk product 1))
        with (Product.id product) in Hs.
      rewrite Hs.
      rewrite !List.map_app, List.fold_right_app. simpl.
      assert (forall l a, fold_right Z.add a l = fold_right Z.add 0 l + a)
        as Hshift.
      { induction l as [|x l IHl]; intros a; simpl; [lia|].
        rewrite IHl. lia. }
      rewrite (Hshift _ (1 + 0)). repeat split; lia.
    + destruct (Z.leb_spec (Product.stock product - 0) 0);
        [reflexivity | lia].
Qed.

(** Rice next to the sample cart: 22 of 24 bags are available. *)
Lemma add_one_unit_witness :
  totalItems (fst (handleAddToCart Samples.cart Samples.rice))
  = totalItems Samples.cart + 1.
Proof.
  apply (add_one_unit Samples.cart Samples.rice).
  - vm_compute. repeat constructor; simpl; intuition discriminate.
  - vm_compute. reflexivity.
Defined.

(** X4. Next to a cart within stock, the availability that
    [getStockStatus] reports for a catalog product is never negative, it
    is the stock less the quantity in the cart, and the product counts as
    out of stock exactly when the cart holds its whole stock. *)
Theorem availability_not_negative (products : list Product.t) (cart : Cart)
    (product : Product.t) :
  cart_ok products cart ->
  find_product products (Product.id product) = Some product ->
  0 <= Product.stock product ->
  let '(available, isOutOfStock, inCart) := getStockStatus cart product in
  0 <= available
  /\ 0 <= inCart <= Product.stock product
  /\ available + inCart = Product.stock product
  /\ (isOutOfStock = true <-> inCart = Product.stock product).
Proof.
  intros [Hnd Hall] Hcat Hstock. unfold getStockStatus.
  destruct (find_item cart (Product.id product)) as [found|] eqn:Hfind.
  - apply CartFacts.find_item_Some in Hfind. destruct Hfind as [Hin Hid].
    rewrite List.Forall_forall in Hall.
    destruct (Hall found Hin) as [p [Hp Hq]].
    rewrite Hid, Hcat in Hp. inversion Hp; subst p.
    repeat split; lia.
  - repeat split; lia.
Qed.

(** After eight additions the whole stock of oil is in the cart. *)
Lemma availability_not_negative_witness :
  0 <= 0 /\ 0 <= 8 <= Product.stock Samples.oil
  /\ 0 + 8 = Product.stock Samples.oil
  /\ (true = true <-> 8 = Product.stock Samples.oil).
Proof.
  apply (availability_not_negative [Samples.oil]
           (run [Samples.oil] (List.repeat (addItem Samples.oil) 8) [])
           Samples.oil).
  - apply CartFacts.run_ok.
    + repeat constructor.
    + repeat constructor.
    + apply CartFacts.empty_cart_ok.
  - reflexivity.
  - vm_compute. discriminate.
Defined.

(** *** The barcode scanner *)

Lemma find_product_member (products : list Product.t) (p : Product.t) :
  List.NoDup (List.map Product.id products) ->
  List.In p products ->
  find_product products (Product.id p) = Some p.
Proof.
  unfold find_product.
  induction products as [|q products IH]; simpl; intros Hnd Hin; [tauto|].
  inversion Hnd as [|? ? Hnotin Hnd']; subst.
  destruct Hin as [->|Hin].
  - now rewrite String.eqb_refl.
  - destruct (String.eqb_spec (Product.id q) (Product.id p)) as [He|Hne].
    + exfalso. apply Hnotin. rewrite He. now apply List.in_map.
    + now apply IH.
Qed.

(** X6. A scan (Enter on a non-blank search term) that matches no SKU
    and no name, letter case aside, changes nothing and shows [Product
    not found]. When it matches, the SKU match taking precedence over the
    name match, the search term is cleared and the toast that stays is
    [Added], also when the product has no unit available and the cart is
    left as it was. *)
Theorem scan_outcome (products : list Product.t) (cart : Cart)
    (searchTerm : string) :
  Str.truthy (Str.trim searchTerm) = true ->
  let same (a b : string) :=
    Str.toLowerCase a = Str.toLowerCase b in
  let result := POSView.handleSearchKeyDown products cart "Enter" searchTerm in
  (result = (cart, searchTerm, Some POSView.ProductNotFound)
   /\ forall p, List.In p products ->
                ~ same (Product.sku p) searchTerm
                /\ ~ same (Product.name p) searchTerm)
  \/ (exists p,
        List.In p products
        /\ (same (Product.sku p) searchTerm
            \/ ((forall q, List.In q products ->
                           ~ same (Product.sku q) searchTerm)
                /\ same (Product.name p) searchTerm))
        /\ result
           = (fst (handleAddToCart cart p), "",
              Some (POSView.Added (Product.name p)))
        /\ (available cart p <= 0 ->
            result = (cart, "", Some (POSView.Added (Product.name p))))).
Proof.
  intros Hterm. cbv zeta. unfold POSView.handleSearchKeyDown.
  rewrite Hterm. cbn [String.eqb andb].
  change (String.eqb "Enter" "Enter") with true. cbn [andb].
  assert (forall p, available cart p <= 0 ->
                    fst (handleAddToCart cart p) = cart) as Hout.
  { intros p Hav. unfold available, handleAddToCart in *.
    destruct (getStockStatus cart p) as [[a o] c]. cbn [fst] in Hav.
    destruct (Z.leb_spec a 0); [reflexivity | lia]. }
  destruct (List.find
              (fun p => String.eqb (Str.toLowerCase (Product.sku p))
                                   (Str.toLowerCase searchTerm))
              products) as [exactMatch|] eqn:Hsku.
  - right. exists exactMatch. apply List.find_some in Hsku.
    destruct Hsku as [Hin He]. apply String.eqb_eq in He.
    split; [exact Hin|]. split; [now left|]. split; [reflexivity|].
    intros Hav. now rewrite Hout.
  - assert (forall q, List.In q products ->
                      Str.toLowerCase (Product.sku q)
                      <> Str.toLowerCase searchTerm) as Hnosku.
    { intros q Hq. pose proof (List.find_none _ _ Hsku q Hq) as Hf.
      simpl in Hf. now apply String.eqb_neq. }
    destruct (List.find
                (fun p => String.eqb (Str.toLowerCase (Product.name p))
                                     (Str.toLowerCase searchTerm))
                products) as [nameMatch|] eqn:Hname.
    + right. exists nameMatch. apply List.find_some in Hname.
      destruct Hname as [Hin He]. apply String.eqb_eq in He.
      split; [exact Hin|]. split; [right; now split|].
      split; [reflexivity|]. intros Hav. now rewrite Hout.
    + left. split; [reflexivity|]. intros p Hp. split; [now apply Hnosku|].
      pose proof (List.find_none _ _ Hname p Hp) as Hf. simpl in Hf.
      now apply String.eqb_neq.
Qed.

(** Oil is sold out next to a cart that holds its 8 bottles; the scan
    still says [Added]. *)
Lemma scan_outcome_witness :
  POSView.handleSearchKeyDown [Samples.oil] [CartItem.mk Samples.oil 8]
    "Enter" "OIL-002"
  = ([CartItem.mk Samples.oil 8], "", Some (POSView.Added "Cooking Oil 2L")).
Proof.
  destruct (scan_outcome [Samples.oil] [CartItem.mk Samples.oil 8] "OIL-002")
    as [[H _]|[p [Hin [_ [_ H]]]]].
  - reflexivity.
  - vm_compute in H. discriminate H.
  - destruct Hin as [<-|[]]. apply H. vm_compute. discriminate.
Defined.

(** *** The product grid *)

Lemma includes_empty (s : string) : Str.includes s "" = true.
Proof. destruct s; reflexivity. Qed.

Lemma filter_all {A : Type} (f : A -> bool) (l : list A) :
  (forall x, f x = true) -> List.filter f l = l.
Proof.
  intros H. induction l as [|x l IH]; simpl; [reflexivity|].
  now rewrite H, IH.
Qed.

(** X7. With an empty search term the POS grid under the category [All],
    and the stock table of the inventory screen, list the whole catalog
    in its order. Under any term and category the grid lists only catalog
    products whose name or SKU contains the term, letter case aside, and
    whose category is the selected one unless [All] is selected. *)
Theorem grid_lists_catalog (products : list Product.t)
    (searchTerm selectedCategory : string) :
  POSView.filteredProducts products "" "All" = products
  /\ Inventory.filteredProducts products "" = products
  /\ forall p,
       List.In p (POSView.filteredProducts products searchTerm
                                           selectedCategory) ->
       List.In p products
       /\ (Str.includes (Str.toLowerCase (Product.name p))
                        (Str.toLowerCase searchTerm) = true
           \/ Str.includes (Str.toLowerCase (Product.sku p))
                           (Str.toLowerCase searchTerm) = true)
       /\ (selectedCategory = "All" \/ Product.category p = selectedCategory).
Proof.
  split; [|split].
  - apply filter_all. intros p. cbv zeta.
    change (Str.toLowerCase "") with "". now rewrite includes_empty.
  - apply filter_all. intros p.
    change (Str.toLowerCase "") with "". now rewrite includes_empty.
  - intros p Hin. unfold POSView.filteredProducts in Hin.
    apply List.filter_In in Hin. destruct Hin as [Hin Hf]. cbv zeta in Hf.
    apply Bool.andb_true_iff in Hf. destruct Hf as [Hs Hc].
    apply Bool.orb_true_iff in Hs. apply Bool.orb_true_iff in Hc.
    split; [exact Hin|]. split; [exact Hs|].
    destruct Hc as [Hc|Hc]; apply String.eqb_eq in Hc; auto.
Qed.

Lemma new_Set_spec (seen xs : list string) :
  List.NoDup (POSView.new_Set seen xs)
  /\ (forall x, List.In x (POSView.new_Set seen xs) ->
                List.In x xs /\ ~ List.In x seen)
  /\ (forall x, List.In x xs ->
                List.In x seen \/ List.In x (POSView.new_Set seen xs)).
Proof.
  revert seen. induction xs as [|x xs IH]; intros seen; simpl.
  - split; [constructor|]. split; tauto.
  - destruct (List.existsb (String.eqb x) seen) eqn:E.
    + apply List.existsb_exists in E. destruct E as [y [Hy He]].
      apply String.eqb_eq in He. subst y.
      destruct (IH seen) as [Hnd [Hin Hall]].
      split; [exact Hnd|]. split.
      * intros z Hz. destruct (Hin z Hz). tauto.
      * intros z [<-|Hz]; [now left | now apply Hall].
    + assert (~ List.In x seen) as Hx.
      { intros Hin. apply Bool.not_true_iff_false in E. apply E.
        apply List.existsb_exists. exists x. split; [exact Hin|].
        apply String.eqb_refl. }
      destruct (IH (x :: seen)) as [Hnd [Hin Hall]].
      split; [|split].
      * constructor; [|exact Hnd]. intros Hx'.
        destruct (Hin x Hx') as [_ Hnot]. apply Hnot. now left.
      * intros z [<-|Hz]; [tauto|].
        destruct (Hin z Hz) as [Hz1 Hz2]. simpl in Hz2. tauto.
      * intros z [<-|Hz]; [right; now left|].
        destruct (Hall z Hz) as [[<-|Hs]|Hr]; simpl; tauto.
Qed.

(** X8. The category tabs start with [All]; after it every category of
    the catalog appears exactly once, and nothing else does. *)
Theorem categories_of_catalog (products : list Product.t) :
  exists tabs,
    POSView.categories products = "All" :: tabs
    /\ List.NoDup tabs
    /\ forall c,
         List.In c tabs
         <-> exists p, List.In p products /\ Product.category p = c.
Proof.
  exists (POSView.new_Set [] (List.map Product.category products)).
  destruct (new_Set_spec [] (List.map Product.category products))
    as [Hnd [Hin Hall]].
  split; [reflexivity|]. split; [exact Hnd|].
  intros c. split.
  - intros Hc. destruct (Hin c Hc) as [Hmap _].
    apply List.in_map_iff in Hmap. destruct Hmap as [p [Hp Hp']]. eauto.
  - intros [p [Hp <-]].
    destruct (Hall (Product.category p)) as [[]|H]; [|exact H].
    now apply List.in_map.
Qed.

(** *** Checkout *)

(** X9. [handleProcessPayment] records a sale exactly when the payment
    is valid and the total is no anomaly or the anomaly was confirmed.
    The transaction then carries the cart, which is not empty, the
    payment method and totals with [total = subtotal + tax] and [tax =
    subtotal × 0.11]; the cart and the payment input are reset and the
    change is shown. In every other case nothing is recorded and the
    state stays as it was. *)
Theorem checkout_records_sale (env : Env) (n : nat) (confirmed : bool)
    (st : State) :
  let proceed :=
    isPaymentValid (cart st) (paymentMethod st) (cashReceived st)
    && (negb (isAnomaly (cart st)) || confirmed) in
  (proceed = true ->
   exists t,
     handleProcessPayment env n confirmed st
     = (cleared, Some t,
        Some (ChangeDue (change (cart st) (paymentMethod st)
                                (cashReceived st))))
     /\ Transaction.items t = cart st
     /\ cart st <> []
     /\ Transaction.paymentMethod t = paymentMethod st
     /\ Transaction.total t
        = JS.add (Transaction.subtotal t) (Transaction.tax t)
     /\ Transaction.tax t = JS.mul (Transaction.subtotal t) (JS.lit 11 100)
     /\ Transaction.subtotal t = subtotal (cart st))
  /\ (proceed = false ->
      handleProcessPayment env n confirmed st = (st, None, None)).
Proof.
  cbv zeta. unfold handleProcessPayment.
  destruct (isPaymentValid (cart st) (paymentMethod st) (cashReceived st))
    eqn:Hvalid; cbn [negb andb].
  - destruct (isAnomaly (cart st)), confirmed; cbn [negb andb orb];
      split; intros H; try discriminate; try reflexivity;
      (eexists; split; [reflexivity|]; cbn;
       repeat split; try reflexivity;
       intros Hnil; rewrite Hnil in Hvalid; discriminate).
  - split; [discriminate | reflexivity].
Qed.

(** The sample cart paid by QRIS. *)
Lemma checkout_records_sale_witness :
  exists t,
    handleProcessPayment Samples.env 0 false
      {| cart := Samples.cart; paymentMethod := QRIS; cashReceived := "" |}
    = (cleared, Some t, Some (ChangeDue JS.zero))
    /\ Transaction.items t = Samples.cart.
Proof.
  destruct (checkout_records_sale Samples.env 0 false
              {| cart := Samples.cart; paymentMethod := QRIS;
                 cashReceived := "" |}) as [H _].
  destruct H as [t [Ht [Hitems _]]]; [vm_compute; reflexivity|].
  exists t. split; [exact Ht | exact Hitems].
Defined.

(** *** Recommendations *)

(** X10. Whatever the oracle answers, the recommendations that
    [fetchRecs] leaves are products of the catalog, provided those shown
    before were. They are none when the cart is empty and when the
    request or the parse of its reply fails; and for a reply that is an
    array they are exactly the catalog products whose name is in it, so
    also products that the cart already holds. *)
Theorem recommendations_from_catalog (products : list Product.t)
    (cart : Cart) (parsed : Gemini.Outcome Gemini.Json)
    (recommendations : list Product.t) :
  (forall p, List.In p recommendations -> List.In p products) ->
  (forall p,
      List.In p (Recommendations.fetchRecs products cart parsed
                                           recommendations) ->
      List.In p products)
  /\ Recommendations.fetchRecs products [] parsed recommendations = []
  /\ Recommendations.fetchRecs products cart Gemini.Throws recommendations
     = []
  /\ (forall names p,
        cart <> [] ->
        (List.In p (Recommendations.fetchRecs products cart
                      (Gemini.Returns (Gemini.JArray names)) recommendations)
         <-> List.In p products /\ List.In (Product.name p) names)).
Proof.
  intros Hprev. split; [|split; [|split]].
  - intros p. unfold Recommendations.fetchRecs.
    destruct cart as [|item cart]; [intros []|].
    destruct (Gemini.generatePOSRecommendations (item :: cart) parsed)
      as [names|text|].
    + intros Hin. apply List.filter_In in Hin. tauto.
    + intros Hin. apply List.filter_In in Hin. tauto.
    + destruct products; [intros [] | apply Hprev].
  - reflexivity.
  - destruct cart as [|item cart]; [reflexivity|].
    unfold Recommendations.fetchRecs. cbn [Gemini.generatePOSRecommendations].
    clear Hprev. induction products as [|q products IH];
      [reflexivity | exact IH].
  - intros names p Hcart. destruct cart as [|item cart]; [congruence|].
    unfold Recommendations.fetchRecs. cbn [Gemini.generatePOSRecommendations].
    rewrite List.filter_In. unfold Recommendations.includes_name.
    rewrite List.existsb_exists. split.
    + intros [Hin [x [Hx He]]]. apply String.eqb_eq in He. subst x. tauto.
    + intros [Hin Hname]. split; [exact Hin|].
      exists (Product.name p). split; [exact Hname | apply String.eqb_refl].
Qed.

(** The oracle proposes oil and an unknown name next to a cart that
    holds oil already. *)
Lemma recommendations_from_catalog_witness :
  List.In Samples.oil
    (Recommendations.fetchRecs App.MOCK_PRODUCTS Samples.cart
       (Gemini.Returns (Gemini.JArray ["Cooking Oil 2L"; "Tea"])) []).
Proof.
  apply (recommendations_from_catalog App.MOCK_PRODUCTS Samples.cart
           (Gemini.Returns (Gemini.JArray ["Cooking Oil 2L"; "Tea"])) []).
  - intros p [].
  - discriminate.
  - split; [right; left; reflexivity | left; reflexivity].
Defined.

End POSFacts.

(** ** More of the ledger *)

Module AppFacts.
Import App Inv Ext.

Local Open Scope string_scope.
Local Open Scope Z_scope.

(** *** Sales and stock *)

(** X11. Over a catalog with one product per id, the sale of a cart that
    is within stock leaves no sold product with a negative stock, and
    every other stock as it was: stocks that were not negative before the
    sale are not negative after it. *)
Theorem sale_keeps_stock_non_negative (st : State) (t : Transaction.t) :
  List.NoDup (List.map Product.id (products st)) ->
  cart_ok (products st) (Transaction.items t) ->
  List.Forall (fun p => 0 <= Product.stock p) (products st) ->
  List.Forall (fun p => 0 <= Product.stock p)
              (products (handleTransactionComplete st t)).
Proof.
  intros Hnd [_ Hlines] Hstock.
  rewrite LedgerFacts.handleTransactionComplete_products.
  apply List.Forall_forall. intros p' Hin'.
  apply List.in_map_iff in Hin'. destruct Hin' as [p [<- Hin]].
  rewrite List.Forall_forall in Hstock, Hlines.
  unfold sold_product, find_sold.
  destruct (List.find _ (Transaction.items t)) as [sold|] eqn:E;
    [|now apply Hstock].
  apply List.find_some in E. destruct E as [Hsold He].
  apply String.eqb_eq in He.
  destruct (Hlines sold Hsold) as [q [Hq Hle]].
  rewrite He, (POSFacts.find_product_member _ _ Hnd Hin) in Hq.
  inversion Hq; subst q. simpl. lia.
Qed.

Lemma sale_keeps_stock_non_negative_witness :
  List.Forall (fun p => 0 <= Product.stock p)
    (products (handleTransactionComplete Samples.initial Samples.sale)).
Proof.
  apply sale_keeps_stock_non_negative.
  - vm_compute. repeat constructor; simpl; intuition discriminate.
  - split.
    + vm_compute. repeat constructor; simpl; intuition discriminate.
    + repeat constructor.
      * exists Samples.rice. split; [reflexivity|]. vm_compute.
        split; discriminate.
      * exists Samples.oil. split; [reflexivity|]. vm_compute.
        split; discriminate.
  - vm_compute. repeat constructor; discriminate.
Defined.

Lemma sold_twice (items1 items2 : list CartItem.t) (p : Product.t) :
  sold_product items2 (sold_product items1 p)
  = sold_product items1 (sold_product items2 p).
Proof.
  unfold sold_product at 1 3.
  unfold find_sold. rewrite !LedgerFacts.sold_product_id.
  fold (find_sold items2 p). fold (find_sold items1 p).
  unfold sold_product.
  destruct (find_sold items1 p) as [a|], (find_sold items2 p) as [b|];
    try reflexivity.
  destruct p. unfold Product.with_stock. simpl. f_equal. lia.
Qed.

(** X12. The catalog after two sales does not depend on the order in
    which they are recorded: each product loses the quantities of both. *)
Theorem sales_commute_on_stock (st : State) (t1 t2 : Transaction.t) :
  products (handleTransactionComplete (handleTransactionComplete st t1) t2)
  = products (handleTransactionComplete (handleTransactionComplete st t2) t1).
Proof.
  rewrite !LedgerFacts.handleTransactionComplete_products, !List.map_map.
  apply List.map_ext. intros p. apply sold_twice.
Qed.

(** *** The summary and the journal *)

Lemma neg_add (a b : JS.number) :
  JS.neg (JS.add a b) = JS.add (JS.neg a) (JS.neg b).
Proof.
  destruct a as [|x|s], b as [|y|u]; simpl; try reflexivity.
  - f_equal. ring.
  - destruct s, u; reflexivity.
Qed.

Lemma add_interchange (a b c d : JS.number) :
  JS.add (JS.add a b) (JS.add c d) = JS.add (JS.add a c) (JS.add b d).
Proof.
  rewrite <- !JSFacts.add_assoc. f_equal.
  rewrite !JSFacts.add_assoc. f_equal. apply JSFacts.add_comm.
Qed.

Lemma balanced_sale (st : State) (t : Transaction.t) :
  balanced (summary st) -> balanced (summary (handleTransactionComplete st t)).
Proof.
  intros [Hg Hn]. rewrite LedgerFacts.handleTransactionComplete_summary.
  cbv zeta. unfold balanced.
  cbn [FinancialSummary.revenue FinancialSummary.cogs
       FinancialSummary.grossProfit FinancialSummary.expenses
       FinancialSummary.netProfit].
  rewrite Hn, Hg. unfold JS.sub. split.
  - rewrite neg_add. apply add_interchange.
  - apply JSFacts.add_swap.
Qed.

Lemma balanced_import (l : list StagedTransaction.t)
    (s : FinancialSummary.t) :
  balanced s -> balanced (handleImportTransactions l s).
Proof.
  intros [Hg Hn]. unfold balanced, handleImportTransactions.
  cbn [FinancialSummary.revenue FinancialSummary.cogs
       FinancialSummary.grossProfit FinancialSummary.expenses
       FinancialSummary.netProfit].
  split; [exact Hg|]. rewrite Hn. unfold JS.sub.
  now rewrite neg_add, JSFacts.add_assoc.
Qed.

(** X13. The identities [grossProfit = revenue − cogs] and [netProfit =
    grossProfit − expenses], which hold of [INITIAL_SUMMARY], are kept by
    every sale, import and catalog change: they hold after any sequence
    of events on a state where they held. *)
Theorem summary_stays_balanced (events : list Event) (st : State) :
  balanced INITIAL_SUMMARY
  /\ (balanced (summary st) -> balanced (summary (replay events st))).
Proof.
  split.
  - split; apply JSFacts.eqb_eq; vm_compute; reflexivity.
  - unfold replay. revert st.
    induction events as [|ev events IH]; simpl; intros st Hb; [exact Hb|].
    apply IH. destruct ev; simpl; try exact Hb.
    + now apply balanced_sale.
    + now apply balanced_import.
Qed.

(** A sale, then the import of the sample batch, then a stock change. *)
Lemma summary_stays_balanced_witness :
  balanced
    (summary (replay [Sale Samples.sale; Import Samples.batch;
                      UpdateStock "2" 40] Samples.initial)).
Proof.
  apply (summary_stays_balanced
           [Sale Samples.sale; Import Samples.batch; UpdateStock "2" 40]
           Samples.initial).
  split; apply JSFacts.eqb_eq; vm_compute; reflexivity.
Defined.

(** X14. The journal is append-only: after any sequence of events it is
    the journal before, followed by the transactions of the sales in the
    order in which they were recorded; imports and catalog changes add
    nothing to it. *)
Theorem journal_append_only (events : list Event) (st : State) :
  transactions (replay events st) = (transactions st ++ sales events)%list.
Proof.
  unfold replay. revert st.
  induction events as [|ev events IH]; simpl; intros st.
  - now rewrite List.app_nil_r.
  - rewrite IH. destruct ev; simpl; try reflexivity.
    unfold handleTransactionComplete.
    destruct (reduce_stock _ _ _). simpl.
    now rewrite <- List.app_assoc.
Qed.

(** *** Catalog changes *)

(** X15. [handleUpdateStock] sets the stock of the product found under
    the id and of nothing found under another id: a look-up by that id
    afterwards gives the product it gave before with the new stock, a
    look-up by any other id gives what it gave before, and for an id that
    the catalog does not have the catalog is unchanged. Journal and
    summary are not touched. *)
Theorem update_stock_then_find (st : State) (productId : string)
    (newStock : Z) :
  let st' := handleUpdateStock st productId newStock in
  POS.find_product (products st') productId
  = option_map (fun p => Product.with_stock p newStock)
               (POS.find_product (products st) productId)
  /\ (forall id, id <> productId ->
                 POS.find_product (products st') id
                 = POS.find_product (products st) id)
  /\ (POS.find_product (products st) productId = None ->
      products st' = products st)
  /\ List.map Product.id (products st') = List.map Product.id (products st)
  /\ transactions st' = transactions st
  /\ summary st' = summary st.
Proof.
  cbv zeta. unfold handleUpdateStock. cbn [products transactions summary].
  split; [|split; [|split; [|split; [|split; reflexivity]]]].
  - unfold POS.find_product.
    induction (products st) as [|p l IH]; simpl; [reflexivity|].
    destruct (String.eqb_spec (Product.id p) productId) as [He|Hne]; simpl.
    + now rewrite He, String.eqb_refl.
    + destruct (String.eqb_spec (Product.id p) productId); [tauto|].
      exact IH.
  - intros id Hne. unfold POS.find_product.
    induction (products st) as [|p l IH]; simpl; [reflexivity|].
    destruct (String.eqb_spec (Product.id p) productId) as [He|Hne2]; simpl.
    + rewrite He.
      destruct (String.eqb_spec productId id); [congruence | exact IH].
    + destruct (String.eqb (Product.id p) id); [reflexivity | exact IH].
  - intros Hnone. unfold POS.find_product in Hnone.
    induction (products st) as [|p l IH]; simpl; [reflexivity|].
    simpl in Hnone.
    destruct (String.eqb (Product.id p) productId); [discriminate|].
    now rewrite IH.
  - rewrite List.map_map. apply List.map_ext. intros p.
    now destruct (String.eqb (Product.id p) productId).
Qed.

(** X16. After [handleDeleteProduct] the catalog has no product of the
    deleted id, and every other product, in the same order: a look-up by
    the id finds nothing, a look-up by another id finds what it found
    before, and deleting again changes nothing. Journal and summary, and
    so the sales of the deleted product, are not touched. *)
Theorem delete_then_find (st : State) (productId : string) :
  let st' := handleDeleteProduct st productId in
  POS.find_product (products st') productId = None
  /\ (forall id, id <> productId ->
                 POS.find_product (products st') id
                 = POS.find_product (products st) id)
  /\ (forall p, List.In p (products st')
                <-> List.In p (products st) /\ Product.id p <> productId)
  /\ handleDeleteProduct st' productId = st'
  /\ transactions st' = transactions st
  /\ summary st' = summary st.
Proof.
  cbv zeta. unfold handleDeleteProduct. cbn [products transactions summary].
  split; [|split; [|split; [|split; [|split; reflexivity]]]].
  - unfold POS.find_product.
    induction (products st) as [|p l IH]; simpl; [reflexivity|].
    destruct (String.eqb_spec (Product.id p) productId) as [He|Hne]; simpl;
      [exact IH|].
    destruct (String.eqb_spec (Product.id p) productId); [tauto | exact IH].
  - intros id Hne. unfold POS.find_product.
    induction (products st) as [|p l IH]; simpl; [reflexivity|].
    destruct (String.eqb_spec (Product.id p) productId) as [He|Hne2]; simpl.
    + rewrite He.
      destruct (String.eqb_spec productId id); [congruence | exact IH].
    + destruct (String.eqb (Product.id p) id); [reflexivity | exact IH].
  - intros p. rewrite List.filter_In.
    destruct (String.eqb_spec (Product.id p) productId); simpl;
      intuition congruence.
  - f_equal.
    induction (products st) as [|p l IH]; simpl; [reflexivity|].
    destruct (String.eqb (Product.id p) productId) eqn:E; simpl;
      [exact IH|]. now rewrite E, IH.
Qed.

End AppFacts.

(** ** The inventory screen *)

Module InventoryFacts.
Import Inventory Ext.

Local Open Scope string_scope.
Local Open Scope Z_scope.

Lemma truthy_string_Some (value : option string) :
  truthy_string value = true ->
  exists s, value = Some s /\ s <> "" /\ string_or value "" = s.
Proof.
  destruct value as [[|c s]|]; simpl; try discriminate.
  intros _. exists (String c s). repeat split. discriminate.
Qed.

Lemma positive_of_truthy (value : option JS.number) :
  truthy_number value = true ->
  JS.ltb (number_or value JS.zero) JS.zero = false ->
  JS.ltb JS.zero (number_or value JS.zero) = true.
Proof.
  destruct value as [n|]; [|discriminate].
  unfold truthy_number, number_or, JS.or_else. intros Ht. rewrite Ht.
  destruct n as [|x|s]; try discriminate.
  - intros Hlt. apply JSFacts.ltb_Num.
    assert (0 <= x)%Qc as Hle.
    { apply Qcnot_lt_le. intros H. apply JSFacts.ltb_Num in H.
      unfold JS.zero in Hlt. congruence. }
    destruct (Qcle_lt_or_eq _ _ Hle) as [H|H]; [exact H|].
    exfalso. subst x. discriminate Ht.
  - destruct s; [discriminate | reflexivity].
Qed.

(** What [handleAddSubmit] has checked of a form that it accepts. *)
Lemma handleAddSubmit_accepts (env : Env) (n : nat)
    (products : list Product.t) (formData : FormData) (p : Product.t) :
  handleAddSubmit env n products formData = inl p ->
  truthy_string (name formData) = true
  /\ truthy_string (sku formData) = true
  /\ truthy_number (price formData) = true
  /\ truthy_number (cost formData) = true
  /\ List.existsb
       (fun q => String.eqb (Product.sku q) (string_or (sku formData) ""))
       products = false
  /\ JS.ltb (number_or (price formData) JS.zero) JS.zero = false
  /\ JS.ltb (number_or (cost formData) JS.zero) JS.zero = false
  /\ p = Product.mk (randomUUID env n) (string_or (name formData) "")
           (string_or (category formData) "Food")
           (number_or (price formData) JS.zero)
           (number_or (cost formData) JS.zero)
           (count_or (stock formData) 0)
           (count_or (reorderPoint formData) 10)
           (string_or (sku formData) "")
           (string_or (unit formData) "Pcs").
Proof.
  unfold handleAddSubmit.
  destruct (truthy_string (name formData)), (truthy_string (sku formData)),
    (truthy_number (price formData)), (truthy_number (cost formData));
    cbn [negb orb]; try discriminate.
  destruct (List.existsb _ products); [discriminate|].
  destruct (JS.ltb (number_or (price formData) JS.zero) JS.zero);
    [discriminate|].
  destruct (JS.ltb (number_or (cost formData) JS.zero) JS.zero);
    [discriminate|].
  cbn [orb]. intros H. inversion H. repeat split.
Qed.

Lemma sku_fresh (products : list Product.t) (sku : string) :
  List.existsb (fun q => String.eqb (Product.sku q) sku) products = false ->
  ~ List.In sku (List.map Product.sku products).
Proof.
  intros H Hin. apply List.in_map_iff in Hin. destruct Hin as [q [Hq Hin]].
  apply Bool.not_true_iff_false in H. apply H.
  apply List.existsb_exists. exists q. split; [exact Hin|].
  now apply String.eqb_eq.
Qed.

(** X17. The add-product dialog keeps SKUs unique: when no two products
    of the catalog share a SKU, none do after a submission, whether the
    form was accepted or refused; and a refused form leaves the state as
    it was. *)
Theorem submit_keeps_sku_unique (env : Env) (n : nat) (st : App.State)
    (formData : FormData) :
  List.NoDup (List.map Product.sku (App.products st)) ->
  List.NoDup
    (List.map Product.sku (App.products (fst (submit env n st formData))))
  /\ (snd (submit env n st formData) <> None ->
      fst (submit env n st formData) = st).
Proof.
  intros Hnd. unfold submit.
  destruct (handleAddSubmit env n (App.products st) formData) as [p|e]
    eqn:Hsubmit; cbn [fst snd].
  - split; [|congruence]. simpl. constructor; [|exact Hnd].
    destruct (handleAddSubmit_accepts _ _ _ _ _ Hsubmit)
      as [_ [_ [_ [_ [Hfresh [_ [_ ->]]]]]]].
    simpl. now apply sku_fresh.
  - split; [exact Hnd | reflexivity].
Qed.

(** Salt is new to the mock catalog. *)
Lemma submit_keeps_sku_unique_witness :
  List.NoDup
    (List.map Product.sku
       (App.products (fst (submit Samples.env 0 Samples.initial salt_form)))).
Proof.
  apply (submit_keeps_sku_unique Samples.env 0 Samples.initial salt_form).
  vm_compute. repeat constructor; simpl; intuition discriminate.
Defined.

(** X18. A product that the add-product dialog accepts has a non-empty
    name, a non-empty SKU that no product of the catalog has, a price and
    a cost above 0 (an input of 0 counts as missing), the id drawn for
    it, and a reorder point other than 0 (an input of 0 is replaced by
    10). Its stock is the one entered, which may be negative. *)
Theorem accepted_product (env : Env) (n : nat) (products : list Product.t)
    (formData : FormData) (p : Product.t) :
  handleAddSubmit env n products formData = inl p ->
  Product.name p <> "" /\ name formData = Some (Product.name p)
  /\ Product.sku p <> "" /\ sku formData = Some (Product.sku p)
  /\ ~ List.In (Product.sku p) (List.map Product.sku products)
  /\ JS.ltb JS.zero (Product.price p) = true
  /\ JS.ltb JS.zero (Product.cost p) = true
  /\ Product.id p = randomUUID env n
  /\ Product.reorderPoint p <> 0
  /\ (forall z, stock formData = Some z -> Product.stock p = z).
Proof.
  intros H.
  destruct (handleAddSubmit_accepts _ _ _ _ _ H)
    as [Hn [Hs [Hp [Hc [Hfresh [Hpn [Hcn ->]]]]]]].
  cbn [Product.name Product.sku Product.price Product.cost Product.id
       Product.reorderPoint Product.stock].
  destruct (truthy_string_Some _ Hn) as [nm [Hnm [Hnm0 ->]]].
  destruct (truthy_string_Some _ Hs) as [sk [Hsk [Hsk0 Hsk1]]].
  rewrite Hsk1 in *.
  repeat split; auto.
  - now apply sku_fresh.
  - now apply positive_of_truthy.
  - now apply positive_of_truthy.
  - unfold count_or. destruct (reorderPoint formData) as [z|]; [|discriminate].
    destruct (Z.eqb_spec z 0); [discriminate | assumption].
  - intros z ->. unfold count_or. destruct (Z.eqb_spec z 0); congruence.
Qed.

Lemma accepted_product_witness :
  JS.ltb JS.zero (JS.of_Z 5000) = true.
Proof.
  apply (accepted_product Samples.env 0 App.MOCK_PRODUCTS salt_form
           (Product.mk (randomUUID Samples.env 0) "Salt 500g" "Food"
              (JS.of_Z 5000) (JS.of_Z 3000) 40 10 "SALT-009" "Pack")).
  vm_compute. reflexivity.
Defined.

(** X19. The stock dialog never sets a negative stock: a negative value,
    or a dialog without a selected product, is refused with [Invalid
    Stock Value] and changes nothing, and after an accepted value every
    stock that was not negative is still not negative. *)
Theorem stock_dialog_non_negative (st : App.State)
    (selectedProduct : option Product.t) (adjustStockValue : Z) :
  List.Forall (fun p => 0 <= Product.stock p) (App.products st) ->
  List.Forall (fun p => 0 <= Product.stock p)
    (App.products (fst (handleStockUpdate st selectedProduct
                                          adjustStockValue)))
  /\ (adjustStockValue < 0 \/ selectedProduct = None ->
      handleStockUpdate st selectedProduct adjustStockValue
      = (st, Some InvalidStockValue)).
Proof.
  intros Hall. unfold handleStockUpdate.
  destruct selectedProduct as [product|].
  - destruct (Z.leb_spec 0 adjustStockValue) as [Hle|Hlt]; cbn [fst].
    + split; [|intros [H|H]; [lia | discriminate]].
      simpl. apply List.Forall_forall. intros p' Hin.
      apply List.in_map_iff in Hin. destruct Hin as [p [<- Hin]].
      rewrite List.Forall_forall in Hall.
      destruct (String.eqb _ _); simpl; [lia | now apply Hall].
    + split; [exact Hall | reflexivity].
  - split; [exact Hall | reflexivity].
Qed.

Lemma stock_dialog_non_negative_witness :
  handleStockUpdate Samples.initial (Some Samples.oil) (-3)
  = (Samples.initial, Some InvalidStockValue).
Proof.
  apply (stock_dialog_non_negative Samples.initial (Some Samples.oil) (-3)).
  - vm_compute. repeat constructor; discriminate.
  - left. lia.
Defined.

End InventoryFacts.

(** ** More of the import screen *)

Module StagingFacts.
Import DataManagement Inv Ext.

Local Open Scope string_scope.

Lemma parse_lines_In (env : Env) (headers : list string) (n : nat)
    (lines : list string) (d : StagedTransaction.t) :
  List.In d (parse_lines env headers n lines) ->
  exists i line, d = parse_line env headers i line.
Proof.
  revert n. induction lines as [|line lines IH]; simpl; intros n; [tauto|].
  intros [<-|Hin]; [eauto | exact (IH _ Hin)].
Qed.

Lemma parse_lines_ids (env : Env) (headers : list string) (n : nat)
    (lines : list string) :
  List.map StagedTransaction.id (parse_lines env headers n lines)
  = List.map (randomUUID env) (List.seq n (List.length lines)).
Proof.
  revert n. induction lines as [|line lines IH]; simpl; intros n;
    [reflexivity|].
  now rewrite IH.
Qed.

(** X20. No upload stages a PENDING record: every record that
    [handleFileUpload] stages, from a CSV file or from an image, is VALID
    without an error reason or ERROR with one. *)
Theorem staged_status_is_final (env : Env) (file : File)
    (result : OcrResult.t) (d : StagedTransaction.t) :
  List.In d (stagedData (handleFileUpload env file result)) ->
  (StagedTransaction.status d = StagedTransaction.VALID
   /\ StagedTransaction.validationError d = None)
  \/ (StagedTransaction.status d = StagedTransaction.ERROR
      /\ exists reason, StagedTransaction.validationError d = Some reason).
Proof.
  unfold handleFileUpload.
  destruct (Str.includes (type file) "image").
  - unfold upload_image.
    destruct (OcrResult.error result) as [[|c e]|]; simpl; try tauto;
      (intros [<-|[]]; unfold newStaged; simpl;
       destruct (isValid result); [left | right]; eauto).
  - destruct (_ || _); [|intros []].
    unfold upload_csv. destruct (_ <? _)%nat; [intros []|].
    cbn [stagedData]. intros Hin.
    apply parse_lines_In in Hin. destruct Hin as [i [line ->]].
    unfold parse_line.
    cbn [StagedTransaction.status StagedTransaction.validationError].
    apply ImportFacts.smartValidate_status.
Qed.

Lemma staged_status_is_final_witness :
  (StagedTransaction.status (newStaged Samples.env Samples.free_receipt)
   = StagedTransaction.VALID
   /\ StagedTransaction.validationError
        (newStaged Samples.env Samples.free_receipt) = None)
  \/ (StagedTransaction.status (newStaged Samples.env Samples.free_receipt)
      = StagedTransaction.ERROR
      /\ exists reason,
          StagedTransaction.validationError
            (newStaged Samples.env Samples.free_receipt) = Some reason).
Proof.
  apply (staged_status_is_final Samples.env photo Samples.free_receipt).
  left. reflexivity.
Defined.

(** X21. A CSV text with fewer than two non-blank lines, such as a file
    of headers only, stages nothing and raises the alert about missing
    headers. Otherwise the first non-blank line gives the headers, each
    part trimmed, and every further non-blank line gives one staged
    record, in order, the [i]-th with the [i]-th id drawn; blank lines
    are skipped. *)
Theorem csv_upload_rows (env : Env) (text : string) :
  let lines := csv_lines text in
  let upload := upload_csv env text in
  ((List.length lines < 2)%nat ->
   upload = {| stagedData := []; dynamicHeaders := None;
               alert := Some CsvEmptyOrMissingHeaders |})
  /\ ((2 <= List.length lines)%nat ->
      List.length (stagedData upload) = (List.length lines - 1)%nat
      /\ List.map StagedTransaction.id (stagedData upload)
         = List.map (randomUUID env) (List.seq 0 (List.length lines - 1))
      /\ dynamicHeaders upload
         = Some (List.map Str.trim (Str.split "," (List.hd "" lines)))
      /\ alert upload = None).
Proof.
  cbv zeta. unfold upload_csv. fold (csv_lines text).
  destruct (Nat.ltb_spec (List.length (csv_lines text)) 2) as [Hlt|Hge].
  - split; [reflexivity | lia].
  - split; [lia|]. intros _. cbn [stagedData dynamicHeaders alert].
    assert (List.length (List.tl (csv_lines text))
            = (List.length (csv_lines text) - 1)%nat) as Hlen.
    { destruct (csv_lines text); simpl; lia. }
    repeat split.
    + rewrite <- Hlen, <- (List.length_map StagedTransaction.id).
      now rewrite parse_lines_ids, List.length_map, List.length_seq.
    + now rewrite parse_lines_ids, Hlen.
Qed.

(** The file of scenario 6 has three non-blank lines, hence two rows. *)
Lemma csv_upload_rows_witness :
  List.length (stagedData (upload_csv Samples.env Samples.rice_csv))
  = (List.length (csv_lines Samples.rice_csv) - 1)%nat.
Proof.
  apply (csv_upload_rows Samples.env Samples.rice_csv).
  vm_compute. repeat constructor.
Defined.

(** *** Rows *)

Lemma get_insert_eq (row : RawRow) (key : string) (value : option string) :
  get (<[key := value]> row) key = value.
Proof. unfold get. now rewrite lookup_insert_eq. Qed.

Lemma get_insert_ne (row : RawRow) (key key' : string)
    (value : option string) :
  key <> key' -> get (<[key := value]> row) key' = get row key'.
Proof. intros H. unfold get. now rewrite lookup_insert_ne. Qed.

Lemma get_fill_row_other (values headers : list string) (k : nat)
    (row : RawRow) (h : string) :
  ~ List.In h headers -> get (fill_row values headers k row) h = get row h.
Proof.
  revert k row. induction headers as [|x headers IH]; simpl; intros k row Hn;
    [reflexivity|].
  rewrite IH by tauto. apply get_insert_ne. tauto.
Qed.

Lemma get_fill_row (values headers : list string) (k i : nat)
    (row : RawRow) (h : string) :
  List.NoDup headers ->
  List.nth_error headers i = Some h ->
  get (fill_row values headers k row) h
  = option_map Str.trim (List.nth_error values (k + i)).
Proof.
  revert k i row. induction headers as [|x headers IH]; intros k i row Hnd Hi.
  - destruct i; discriminate.
  - inversion Hnd as [|? ? Hnotin Hnd']; subst. destruct i as [|i]; simpl in *.
    + inversion Hi; subst x.
      rewrite get_fill_row_other by exact Hnotin.
      rewrite get_insert_eq. now rewrite Nat.add_0_r.
    + rewrite (IH (S k) i) by assumption.
      now rewrite Nat.add_succ_r.
Qed.

(** X22. Under headers that are all different, the row object built from
    a line reads, for the header at position [i], provided it is not
    [__proto__] (an assignment to that key stores no string), the [i]-th
    part of the line between commas, trimmed, and [undefined] when the
    line has no such part; for a key that is no header and that
    [Object.prototype] does not define, it reads [undefined]. *)
Theorem row_reads_positional_cell (headers : list string) (line : string) :
  List.NoDup headers ->
  (forall i h,
      List.nth_error headers i = Some h ->
      h <> "__proto__" ->
      get (row_of headers line) h
      = option_map Str.trim (List.nth_error (Str.split "," line) i))
  /\ (forall h,
        ~ List.In h headers ->
        Obj.inherited h = false ->
        get (row_of headers line) h = None).
Proof.
  intros Hnd. unfold row_of. split.
  - intros i h Hi _. now rewrite (get_fill_row _ _ 0 i _ h Hnd Hi).
  - intros h Hn _. rewrite get_fill_row_other by exact Hn. reflexivity.
Qed.

Lemma row_reads_positional_cell_witness :
  get (row_of Samples.rice_headers " RICE-005 , Premium Rice") "name"
  = option_map Str.trim
      (List.nth_error (Str.split "," " RICE-005 , Premium Rice") 1).
Proof.
  apply (row_reads_positional_cell Samples.rice_headers
           " RICE-005 , Premium Rice").
  - repeat constructor; simpl; intuition discriminate.
  - reflexivity.
  - discriminate.
Defined.

(** X23. Under headers that are all different, a CSV row is staged as
    VALID only if the line has, at the position of every identifier-like
    header (one containing id, name, nama or sku), a part that is not
    blank: a line that is too short to reach such a header is an
    ERROR. *)
Theorem valid_row_has_required_cells (env : Env) (headers : list string)
    (n : nat) (line : string) :
  List.NoDup headers ->
  StagedTransaction.status (parse_line env headers n line)
  = StagedTransaction.VALID ->
  forall i h,
    List.nth_error headers i = Some h ->
    is_required_key (Str.toLowerCase h) = true ->
    exists cell,
      List.nth_error (Str.split "," line) i = Some cell
      /\ Str.trim cell <> "".
Proof.
  intros Hnd Hvalid i h Hi Hreq. unfold parse_line in Hvalid.
  cbn [StagedTransaction.status] in Hvalid.
  apply ImportFacts.smartValidate_VALID_iff in Hvalid.
  rewrite List.Forall_forall in Hvalid.
  destruct (Hvalid h (List.nth_error_In _ _ Hi)) as [Hrule _].
  destruct (Hrule Hreq) as [s [Hs Hblank]].
  rewrite (get_fill_row _ _ 0 i _ h Hnd Hi) in Hs. cbn [Nat.add] in Hs.
  destruct (List.nth_error (Str.split "," line) i) as [cell|];
    [|discriminate].
  exists cell. split; [reflexivity|].
  simpl in Hs. inversion Hs; subst s. intros Hempty.
  rewrite Hempty in Hblank. now apply Hblank.
Qed.

Lemma valid_row_has_required_cells_witness :
  exists cell,
    List.nth_error (Str.split "," Samples.rice_line) 0 = Some cell
    /\ Str.trim cell <> "".
Proof.
  apply (valid_row_has_required_cells Samples.env Samples.rice_headers 0
           Samples.rice_line) with (h := "sku").
  - repeat constructor; simpl; intuition discriminate.
  - vm_compute. reflexivity.
  - reflexivity.
  - vm_compute. reflexivity.
Defined.

(** *** Commit and discard *)

Lemma no_valid_left (l : list StagedTransaction.t) :
  List.filter StagedTransaction.is_valid
    (List.filter (fun d => negb (StagedTransaction.is_valid d)) l) = [].
Proof.
  induction l as [|d l IH]; simpl; [reflexivity|].
  destruct (StagedTransaction.is_valid d) eqn:E; simpl; [exact IH|].
  now rewrite E.
Qed.

(** X24. A commit leaves no VALID record staged, so a second commit
    right after it is refused with [No valid data to commit.] and changes
    neither the staged records nor the summary: no record is counted
    twice. *)
Theorem commit_twice (stagedData : list StagedTransaction.t)
    (summary : FinancialSummary.t) :
  let first := commit stagedData summary in
  List.filter StagedTransaction.is_valid (fst (fst first)) = []
  /\ commit (fst (fst first)) (snd (fst first))
     = (fst (fst first), snd (fst first), NoValidData).
Proof.
  cbv zeta. unfold commit, handleCommit.
  destruct (List.filter StagedTransaction.is_valid stagedData) as [|v valid]
    eqn:Hvalid; cbn [fst snd].
  - rewrite Hvalid. now split.
  - rewrite no_valid_left. now split.
Qed.

Lemma filter_filter_comm {A : Type} (f g : A -> bool) (l : list A) :
  List.filter f (List.filter g l) = List.filter g (List.filter f l).
Proof.
  induction l as [|x l IH]; simpl; [reflexivity|].
  destruct (f x) eqn:Ef, (g x) eqn:Eg; simpl; rewrite ?Ef, ?Eg, IH;
    reflexivity.
Qed.

Lemma valid_after_discard (l : list StagedTransaction.t) (id : string) :
  (forall d, List.In d l -> StagedTransaction.id d = id ->
             StagedTransaction.status d <> StagedTransaction.VALID) ->
  List.filter StagedTransaction.is_valid (handleRemoveStaged l id)
  = List.filter StagedTransaction.is_valid l.
Proof.
  unfold handleRemoveStaged.
  induction l as [|d l IH]; simpl; intros H; [reflexivity|].
  destruct (String.eqb_spec (StagedTransaction.id d) id) as [He|Hne]; simpl.
  - assert (StagedTransaction.is_valid d = false) as ->.
    { apply Bool.not_true_iff_false. intros Hv.
      apply ImportFacts.is_valid_iff in Hv. exact (H d (or_introl eq_refl) He Hv). }
    apply IH. intros d' Hin. apply H. now right.
  - destruct (StagedTransaction.is_valid d); [f_equal|];
      apply IH; intros d' Hin; apply H; now right.
Qed.

(** X25. Discarding a staged record that is not VALID does not change
    what a commit does to the summary nor what it reports; and the
    records left staged are the same whether the discard comes before or
    after the commit. *)
Theorem discard_then_commit (stagedData : list StagedTransaction.t)
    (id : string) (summary : FinancialSummary.t) :
  (forall d, List.In d stagedData -> StagedTransaction.id d = id ->
             StagedTransaction.status d <> StagedTransaction.VALID) ->
  let discarded := commit (handleRemoveStaged stagedData id) summary in
  let kept := commit stagedData summary in
  snd (fst discarded) = snd (fst kept)
  /\ snd discarded = snd kept
  /\ fst (fst discarded) = handleRemoveStaged (fst (fst kept)) id.
Proof.
  intros H. cbv zeta. unfold commit, handleCommit.
  rewrite (valid_after_discard _ _ H).
  destruct (List.filter StagedTransaction.is_valid stagedData) as [|v valid];
    cbn [fst snd].
  - repeat split.
  - repeat split. unfold handleRemoveStaged. apply filter_filter_comm.
Qed.

(** Discarding the ERROR record [b] of the sample batch. *)
Lemma discard_then_commit_witness :
  snd (fst (commit (handleRemoveStaged Samples.batch "b")
                   App.INITIAL_SUMMARY))
  = snd (fst (commit Samples.batch App.INITIAL_SUMMARY)).
Proof.
  apply (discard_then_commit Samples.batch "b" App.INITIAL_SUMMARY).
  intros d Hin Hid.
  repeat (destruct Hin as [<-|Hin]; [try discriminate Hid; discriminate|]).
  destruct Hin.
Defined.

(** *** The image oracle *)

(** X26. An image upload stages at most one record. When the request to
    the oracle fails, or its reply does not parse, nothing is staged and
    the alert reads [AI Analysis Failed: Failed to process document]. *)
Theorem failed_analysis_stages_nothing (env : Env) (file : File)
    (parsed : Gemini.Outcome OcrResult.t) :
  Str.includes (type file) "image" = true ->
  let upload :=
    handleFileUpload env file (Gemini.analyzeUploadedDocument parsed) in
  (List.length (stagedData upload) <= 1)%nat
  /\ (parsed = Gemini.Throws ->
      upload = {| stagedData := []; dynamicHeaders := None;
                  alert := Some (AIAnalysisFailed
                                   "Failed to process document") |}).
Proof.
  intros Himage. cbv zeta. unfold handleFileUpload. rewrite Himage. split.
  - unfold upload_image.
    destruct (OcrResult.error _) as [[|c e]|]; simpl; lia.
  - intros ->. reflexivity.
Qed.

Lemma failed_analysis_stages_nothing_witness :
  handleFileUpload Samples.env photo
    (Gemini.analyzeUploadedDocument Gemini.Throws)
  = {| stagedData := []; dynamicHeaders := None;
       alert := Some (AIAnalysisFailed "Failed to process document") |}.
Proof.
  apply (failed_analysis_stages_nothing Samples.env photo Gemini.Throws).
  - reflexivity.
  - reflexivity.
Defined.

End StagingFacts.

(** ** The analyst chat *)

Module ChatFacts.
Import AIAnalyst Ext.

Local Open Scope string_scope.

Lemma text_or_not_empty (text : option string) (fallback : string) :
  fallback <> "" -> Gemini.text_or text fallback <> "".
Proof. destruct text as [[|c t]|]; simpl; auto; discriminate. Qed.

Lemma oracle_text_not_empty_aux (response : Gemini.Outcome (option string)) :
  Gemini.askFinancialAnalyst response <> "".
Proof.
  destruct response as [|text]; simpl;
    [discriminate | apply text_or_not_empty; discriminate].
Qed.

(** X27. The oracle service always answers with a text that is not
    empty: the reply when there is one, and a fixed message when the
    reply has no text or the request fails. *)
Theorem oracle_text_not_empty (response : Gemini.Outcome (option string)) :
  Gemini.askFinancialAnalyst response <> ""
  /\ Gemini.generateExecutiveSummary response <> ""
  /\ (forall t, response = Gemini.Returns (Some t) -> t <> "" ->
                Gemini.askFinancialAnalyst response = t
                /\ Gemini.generateExecutiveSummary response = t).
Proof.
  split; [|split].
  - destruct response as [|text]; simpl;
      [discriminate | apply text_or_not_empty; discriminate].
  - destruct response as [|text]; simpl;
      [discriminate | apply text_or_not_empty; discriminate].
  - intros t -> Ht. destruct t; [congruence|]. now split.
Qed.

(** X28. [handleSend] ignores a blank input and an input typed while a
    reply is pending. Without an API key it appends one message of the
    model and keeps the input. Otherwise it appends the question as typed
    and then the answer, which is never empty, keeps the earlier messages
    in place, and clears the input. *)
Theorem send_appends_messages (env : Env) (n : nat) (hasApiKey : bool)
    (oracle : string -> Context -> Gemini.Outcome (option string))
    (summary : FinancialSummary.t) (transactions : list Transaction.t)
    (products : list Product.t) (st : State) :
  let st' := handleSend env n hasApiKey oracle summary transactions
                        products st in
  (Str.trim (input st) = "" \/ isLoading st = true -> st' = st)
  /\ (Str.trim (input st) <> "" -> isLoading st = false ->
      (hasApiKey = false ->
       exists notice,
         messages st' = (messages st ++ [notice])%list
         /\ role notice = model /\ input st' = input st)
      /\ (hasApiKey = true ->
          exists question answer,
            messages st' = (messages st ++ [question; answer])%list
            /\ role question = user /\ text question = input st
            /\ role answer = model /\ text answer <> ""
            /\ text answer
               = Gemini.askFinancialAnalyst
                   (oracle (input st)
                           (context summary transactions products))
            /\ input st' = "" /\ isLoading st' = false)).
Proof.
  cbv zeta. unfold handleSend. split.
  - intros [H|H].
    + rewrite H. reflexivity.
    + rewrite H. now rewrite Bool.orb_true_r.
  - intros Hinput Hload. rewrite Hload.
    destruct (Str.trim (input st)) as [|c t] eqn:E; [congruence|].
    cbn [Str.truthy negb orb]. split; intros ->; cbn [negb].
    + eexists. repeat split.
    + do 2 eexists. rewrite <- List.app_assoc. repeat split.
      cbn [text]. apply oracle_text_not_empty_aux.
Qed.

(** A question with an API key set, and an oracle that is down. *)
Lemma send_appends_messages_witness :
  exists question answer,
    messages (handleSend Samples.env 0 true (fun _ _ => Gemini.Throws)
                App.INITIAL_SUMMARY [] App.MOCK_PRODUCTS chat)
    = [question; answer]
    /\ text question = "Which products run low?"
    /\ text answer = "Error connecting to the AI analyst.".
Proof.
  destruct (send_appends_messages Samples.env 0 true
              (fun _ _ => Gemini.Throws) App.INITIAL_SUMMARY []
              App.MOCK_PRODUCTS chat) as [_ H].
  destruct H as [_ H]; [vm_compute; discriminate | reflexivity |].
  destruct (H eq_refl) as [q [a [Hm [_ [Hq [_ [_ [Ha _]]]]]]]].
  exists q, a. split; [exact Hm|]. split; [exact Hq | exact Ha].
Defined.

(** X29. The context sent to the analyst holds the last ten transactions
    of the journal, all of them when there are at most ten, in their
    order; and its inventory warning lists, by name and stock, exactly
    the catalog products whose stock is below their reorder point, each
    of which the stock table flags as low. *)
Theorem analyst_context (summary : FinancialSummary.t)
    (transactions : list Transaction.t) (products : list Product.t) :
  let c := context summary transactions products in
  List.length (recentTransactions c)
  = Nat.min 10 (List.length transactions)
  /\ (exists older,
        transactions = (older ++ recentTransactions c)%list)
  /\ ((List.length transactions <= 10)%nat ->
      recentTransactions c = transactions)
  /\ (forall entry,
        List.In entry (inventoryWarning c)
        <-> exists p,
              List.In p products
              /\ entry = (Product.name p, Product.stock p)
              /\ (Product.stock p < Product.reorderPoint p)%Z)
  /\ (forall p,
        (Product.stock p < Product.reorderPoint p)%Z ->
        Inventory.isLowStock p = true).
Proof.
  cbv zeta. unfold context, slice_last10.
  cbn [recentTransactions inventoryWarning].
  split; [|split; [|split; [|split]]].
  - rewrite List.length_skipn. lia.
  - exists (List.firstn (List.length transactions - 10) transactions).
    now rewrite List.firstn_skipn.
  - intros Hle.
    replace (List.length transactions - 10)%nat with 0%nat by lia.
    reflexivity.
  - intros entry. rewrite List.in_map_iff. split.
    + intros [p [<- Hin]]. apply List.filter_In in Hin.
      destruct Hin as [Hin Hlow]. apply Z.ltb_lt in Hlow. eauto.
    + intros [p [Hin [-> Hlow]]]. exists p. split; [reflexivity|].
      apply List.filter_In. split; [exact Hin | now apply Z.ltb_lt].
  - intros p Hlow. unfold Inventory.isLowStock. apply Z.leb_le. lia.
Qed.

(** Of the mock catalog, oil (8 of 15) and toothpaste (3 of 10) are
    below their reorder point. *)
Lemma analyst_context_witness :
  Inventory.isLowStock Samples.oil = true.
Proof.
  apply (analyst_context App.INITIAL_SUMMARY [] App.MOCK_PRODUCTS).
  vm_compute. reflexivity.
Defined.

End ChatFacts.
